(** * Task-board API: position maintenance, authorization and membership

    A shallow embedding of the service layer of the Kanban task-board API
    ([services/boardService.ts], [services/listService.ts],
    [services/userService.ts], [services/taskService.ts] and
    [middleware/authorize.ts]) together with the properties the design
    document states about it.

    The persistent store is a record of tables, every table a list of rows in
    insertion order.  Service functions are computations in a state-and-error
    monad over the store: a thrown error keeps whatever was written before it,
    and [transaction] rolls the store back when its body throws.

    Conventions of the model:
    - identifiers are strings; the identifier the store generates for a new
      row is an explicit argument of the function that creates the row;
    - positions are integers ([Z]); the width of the position column is set
      by the schema, which is not among the sources, and is not modelled;
    - time stamps and the identifiers of activity entries, which no service
      reads, are left out of the rows;
    - strings are sequences of 8-bit characters: lower-casing and trimming
      act on the ASCII letters and white space, and the statements about
      text are made for ASCII text ([Js.isAscii]);
    - of what the store itself refuses, only the unique key on the members
      of a board is modelled; a value outside an enumeration, a date that
      does not parse, a number beyond its column and a reference to a row
      that is not there are not.  A call that the model lets succeed may
      thus be refused by the store, and statements that rest on a call
      succeeding carry its success as a hypothesis. *)

From Stdlib Require Import ZArith List String Ascii Bool Lia Permutation.
Import ListNotations.

Local Open Scope string_scope.
Local Open Scope Z_scope.

(* ------------------------------------------------------------------------- *)
(** ** JavaScript values used by the services *)

Module Js.

(** [!x] for [x : string | undefined]: [undefined] and the empty string are
    falsy. *)
Definition truthy (x : option string) : bool :=
  match x with
  | None => false
  | Some s => negb (s =? "")%string
  end.

(** [a ?? b]. *)
Definition nullish {A : Type} (a : option A) (b : A) : A :=
  match a with Some v => v | None => b end.

(** [xs.includes(x)] on an array of strings. *)
Definition includes (xs : list string) (x : string) : bool :=
  existsb (String.eqb x) xs.

(** [xs.join(sep)]. *)
Definition join (sep : string) (xs : list string) : string :=
  String.concat sep xs.

Definition is_upper (c : ascii) : bool :=
  let n := nat_of_ascii c in (Nat.leb 65 n && Nat.leb n 90)%bool.

Definition lower_char (c : ascii) : ascii :=
  if is_upper c then ascii_of_nat (nat_of_ascii c + 32) else c.

(** [s.toLowerCase()] on the ASCII letters. *)
Fixpoint toLowerCase (s : string) : string :=
  match s with
  | EmptyString => EmptyString
  | String c s' => String (lower_char c) (toLowerCase s')
  end.

(** White space removed by [trim]: tab, line feed, vertical tab, form feed,
    carriage return and space. *)
Definition is_space (c : ascii) : bool :=
  let n := nat_of_ascii c in ((Nat.leb 9 n && Nat.leb n 13) || Nat.eqb n 32)%bool.

Fixpoint trimStart (s : string) : string :=
  match s with
  | EmptyString => EmptyString
  | String c s' => if is_space c then trimStart s' else s
  end.

Fixpoint trimEnd (s : string) : string :=
  match s with
  | EmptyString => EmptyString
  | String c s' =>
      match trimEnd s' with
      | EmptyString => if is_space c then EmptyString else String c EmptyString
      | rest => String c rest
      end
  end.

(** [s.trim()]. *)
Definition trim (s : string) : string := trimEnd (trimStart s).

(** The text is made of ASCII characters only. *)
Definition isAscii_char (c : ascii) : bool := Nat.ltb (nat_of_ascii c) 128.

Fixpoint isAscii (s : string) : bool :=
  match s with
  | EmptyString => true
  | String c s' => (isAscii_char c && isAscii s')%bool
  end.

(** [hay.includes(needle)]: [needle] occurs in [hay] as a substring. *)
Fixpoint contains (needle hay : string) : bool :=
  (String.prefix needle hay ||
   match hay with
   | EmptyString => false
   | String _ hay' => contains needle hay'
   end)%bool.

End Js.

(* ------------------------------------------------------------------------- *)
(** ** Errors ([middleware/errorHandler.ts]) *)

Record AppError : Type := mkAppError {
  statusCode : option Z;
  code : option string;
  message : string
}.

(** [createError(statusCode, code, message)]. *)
Definition createError (status : Z) (c msg : string) : AppError :=
  {| statusCode := Some status; code := Some c; message := msg |}.

(** The unique-constraint failure the store raises from [create]; it carries
    the store's own code and no status. *)
Definition uniqueConstraintError : AppError :=
  {| statusCode := None; code := Some "P2002";
     message := "Unique constraint failed" |}.

(** Reading a property of [null] ([board!.owner_id] on a missing board). *)
Definition typeError : AppError :=
  {| statusCode := None; code := None;
     message := "Cannot read properties of null" |}.

(** Status and code that [errorHandler] puts on the response. *)
Definition errorHandler (err : AppError) : Z * string :=
  (match statusCode err with
   | Some s => if s =? 0 then 500 else s
   | None => 500
   end,
   match code err with
   | Some c => if (c =? "")%string then "INTERNAL_ERROR" else c
   | None => "INTERNAL_ERROR"
   end).

(* ------------------------------------------------------------------------- *)
(** ** Data model: one record per table *)

Module Profile.
Record t : Type := mk {
  id : string;
  email : string;
  first_name : string;
  last_name : string;
  avatar_url : option string;
  is_active : bool
}.
End Profile.

Module Board.
Record t : Type := mk {
  id : string;
  name : string;
  description : option string;
  color : string;
  owner_id : string;
  is_archived : bool
}.
End Board.

Module BoardMember.
Record t : Type := mk {
  id : string;
  board_id : string;
  user_id : string;
  role : string
}.
End BoardMember.

(** The [List] model; the trailing underscore keeps the library's [List]
    module reachable. *)
Module List_.
Record t : Type := mk {
  id : string;
  name : string;
  position : Z;
  board_id : string
}.
Definition set_position (p : Z) (l : t) : t :=
  {| id := id l; name := name l; position := p; board_id := board_id l |}.
Definition set_name (n : string) (l : t) : t :=
  {| id := id l; name := n; position := position l; board_id := board_id l |}.
End List_.

Module Task.
Record t : Type := mk {
  id : string;
  title : string;
  description : option string;
  priority : string;
  due_date : option string;
  position : Z;
  list_id : string;
  created_by : string
}.
Definition set_position (p : Z) (x : t) : t :=
  {| id := id x; title := title x; description := description x;
     priority := priority x; due_date := due_date x; position := p;
     list_id := list_id x; created_by := created_by x |}.
Definition set_list_id (l : string) (x : t) : t :=
  {| id := id x; title := title x; description := description x;
     priority := priority x; due_date := due_date x; position := position x;
     list_id := l; created_by := created_by x |}.
End Task.

Module TaskAssignee.
Record t : Type := mk {
  id : string;
  task_id : string;
  user_id : string
}.
End TaskAssignee.

(** JSON payload of an activity entry: the fields that are present. *)
Inductive JsonValue : Type :=
| JString (s : string)
| JNumber (n : Z)
| JBool (b : bool)
| JNull.

Module ActivityLog.
Record t : Type := mk {
  board_id : string;
  user_id : string;
  task_id : option string;
  action_type : string;
  entity_type : string;
  changes : list (string * JsonValue)
}.
End ActivityLog.

(** The store. *)
Record Db : Type := mkDb {
  profiles : list Profile.t;
  boards : list Board.t;
  boardMembers : list BoardMember.t;
  lists : list List_.t;
  tasks : list Task.t;
  taskAssignees : list TaskAssignee.t;
  activityLogs : list ActivityLog.t
}.

Definition set_boards (f : list Board.t -> list Board.t) (db : Db) : Db :=
  {| profiles := profiles db; boards := f (boards db);
     boardMembers := boardMembers db; lists := lists db; tasks := tasks db;
     taskAssignees := taskAssignees db; activityLogs := activityLogs db |}.

Definition set_boardMembers
  (f : list BoardMember.t -> list BoardMember.t) (db : Db) : Db :=
  {| profiles := profiles db; boards := boards db;
     boardMembers := f (boardMembers db); lists := lists db; tasks := tasks db;
     taskAssignees := taskAssignees db; activityLogs := activityLogs db |}.

Definition set_lists (f : list List_.t -> list List_.t) (db : Db) : Db :=
  {| profiles := profiles db; boards := boards db;
     boardMembers := boardMembers db; lists := f (lists db); tasks := tasks db;
     taskAssignees := taskAssignees db; activityLogs := activityLogs db |}.

Definition set_tasks (f : list Task.t -> list Task.t) (db : Db) : Db :=
  {| profiles := profiles db; boards := boards db;
     boardMembers := boardMembers db; lists := lists db; tasks := f (tasks db);
     taskAssignees := taskAssignees db; activityLogs := activityLogs db |}.

Definition set_taskAssignees
  (f : list TaskAssignee.t -> list TaskAssignee.t) (db : Db) : Db :=
  {| profiles := profiles db; boards := boards db;
     boardMembers := boardMembers db; lists := lists db; tasks := tasks db;
     taskAssignees := f (taskAssignees db); activityLogs := activityLogs db |}.

Definition set_activityLogs
  (f : list ActivityLog.t -> list ActivityLog.t) (db : Db) : Db :=
  {| profiles := profiles db; boards := boards db;
     boardMembers := boardMembers db; lists := lists db; tasks := tasks db;
     taskAssignees := taskAssignees db; activityLogs := f (activityLogs db) |}.

(* ------------------------------------------------------------------------- *)
(** ** Asynchronous service code: state passing with thrown errors *)

Inductive Result (A : Type) : Type :=
| Ok (a : A)
| Threw (e : AppError).

Arguments Ok {A} a.
Arguments Threw {A} e.

(** An [async] function of the service layer: it reads and writes the store
    and either returns a value or throws. *)
Definition Async (A : Type) : Type := Db -> Result A * Db.

Definition ret {A : Type} (a : A) : Async A := fun db => (Ok a, db).

Definition throw {A : Type} (e : AppError) : Async A := fun db => (Threw e, db).

Definition bind {A B : Type} (m : Async A) (k : A -> Async B) : Async B :=
  fun db =>
    match m db with
    | (Ok a, db') => k a db'
    | (Threw e, db') => (Threw e, db')
    end.

Definition gets {A : Type} (f : Db -> A) : Async A := fun db => (Ok (f db), db).

Definition modify (f : Db -> Db) : Async unit := fun db => (Ok tt, f db).

(** [prisma.$transaction(async (tx) => body)]: all of the body's writes, or
    none of them when it throws. *)
Definition transaction {A : Type} (body : Async A) : Async A :=
  fun db =>
    match body db with
    | (Ok a, db') => (Ok a, db')
    | (Threw e, _) => (Threw e, db)
    end.

(** [if (c) throw e;] *)
Definition throwIf (c : bool) (e : AppError) : Async unit :=
  if c then throw e else ret tt.

(** [const x = v; if (!x) throw e;] for a nullable [v]. *)
Definition orThrow {A : Type} (v : option A) (e : AppError) : Async A :=
  match v with
  | Some a => ret a
  | None => throw e
  end.

Declare Scope async_scope.
Delimit Scope async_scope with async.
Notation "x <- m ;; k" := (bind m (fun x => k))
  (at level 61, m at next level, right associativity) : async_scope.
Notation "m ;; k" := (bind m (fun _ => k))
  (at level 61, right associativity) : async_scope.
Local Open Scope async_scope.

(** The outcome and the store after running a computation. *)
Definition outcome {A : Type} (m : Async A) (db : Db) : Result A := fst (m db).
Definition after {A : Type} (m : Async A) (db : Db) : Db := snd (m db).

(** The call threw, and the error handler answers the request with the given
    error code. *)
Definition failsWith {A : Type} (c : string) (r : Result A) : Prop :=
  exists e, r = Threw e /\ snd (errorHandler e) = c.

(* ------------------------------------------------------------------------- *)
(** ** The query operations of the store client *)

Module Prisma.
Section Table.
Context {R : Type}.

(** [findUnique({ where })]. *)
Definition findUnique (where_ : R -> bool) (rows : list R) : option R :=
  find where_ rows.

(** [updateMany({ where, data })]. *)
Definition updateMany (where_ : R -> bool) (data : R -> R) (rows : list R)
  : list R :=
  map (fun r => if where_ r then data r else r) rows.

(** [update({ where, data })] on a unique key. *)
Definition update (where_ : R -> bool) (data : R -> R) (rows : list R)
  : list R :=
  updateMany where_ data rows.

(** [delete({ where })] / [deleteMany({ where })]. *)
Definition delete (where_ : R -> bool) (rows : list R) : list R :=
  filter (fun r => negb (where_ r)) rows.

(** [create({ data })]. *)
Definition create (row : R) (rows : list R) : list R := (rows ++ [row])%list.

(** [createMany({ data })]. *)
Definition createMany (data : list R) (rows : list R) : list R :=
  (rows ++ data)%list.

(** The row with the greatest key, as [orderBy: { key: "desc" }] puts it
    first. *)
Fixpoint maxBy (key : R -> Z) (rows : list R) : option R :=
  match rows with
  | [] => None
  | r :: rows' =>
      match maxBy key rows' with
      | None => Some r
      | Some m => if key m <? key r then Some r else Some m
      end
  end.

(** [findFirst({ where, orderBy: { key: "desc" } })]. *)
Definition findFirstDesc (where_ : R -> bool) (key : R -> Z) (rows : list R)
  : option R :=
  maxBy key (filter where_ rows).

Fixpoint insertAsc (le : R -> R -> bool) (x : R) (rows : list R) : list R :=
  match rows with
  | [] => [x]
  | y :: rows' => if le x y then x :: rows else y :: insertAsc le x rows'
  end.

(** [orderBy: { key: "asc" }] on a result set. *)
Definition orderByAsc (le : R -> R -> bool) (rows : list R) : list R :=
  fold_right (insertAsc le) [] rows.

End Table.

(** [text LIKE pattern] of the store: [%] stands for any run of characters,
    [_] for any one character, and a backslash takes the character after it
    literally.  (A pattern that ends in a lone backslash is refused by the
    store; the patterns built below all end in [%].) *)
Fixpoint like (pattern : string) : string -> bool :=
  match pattern with
  | EmptyString =>
      fun s => match s with EmptyString => true | String _ _ => false end
  | String c pattern' =>
      if (c =? "%")%char then
        fix anySuffix (s : string) : bool :=
          (like pattern' s
           || match s with
              | EmptyString => false
              | String _ s' => anySuffix s'
              end)%bool
      else if (c =? "_")%char then
        fun s =>
          match s with
          | EmptyString => false
          | String _ s' => like pattern' s'
          end
      else if (c =? "\")%char then
        match pattern' with
        | EmptyString => fun _ => false
        | String d pattern'' =>
            fun s =>
              match s with
              | EmptyString => false
              | String e s' => ((e =? d)%char && like pattern'' s')%bool
              end
        end
      else
        fun s =>
          match s with
          | EmptyString => false
          | String e s' => ((e =? c)%char && like pattern' s')%bool
          end
  end.

End Prisma.

(** [activityLog.create({ data })].  The references of the entry to the
    user, the board and the task are kept by the store and not checked
    here (see the conventions). *)
Definition logActivity (entry : ActivityLog.t) : Async unit :=
  modify (set_activityLogs (Prisma.create entry)).

Definition jsonField {A : Type} (k : string) (inj : A -> JsonValue)
  (v : option A) : list (string * JsonValue) :=
  match v with
  | Some a => [(k, inj a)]
  | None => []
  end.

(* ------------------------------------------------------------------------- *)
(** ** Pagination ([utils/pagination.ts]) *)


Module pagination.

Record PaginationResult : Type := mkPaginationResult {
  skip : Z;
  take : Z
}.

(** [pages] is not a finite number when [limit] is zero; it is then
    serialised as [null]. *)
Record PaginationMeta : Type := mkPaginationMeta {
  page : Z;
  limit : Z;
  total : Z;
  pages : option Z
}.

(** [paginate({ page, limit })]. *)
Definition paginate (page limit : Z) : PaginationResult :=
  {| skip := (page - 1) * limit; take := limit |}.

(** [Math.ceil(a / b)] on integers. *)
Definition ceilDiv (a b : Z) : option Z :=
  if b =? 0 then None else Some (- ((- a) / b)).

(** [paginationMeta(page, limit, total)]. *)
Definition paginationMeta (page limit total : Z) : PaginationMeta :=
  {| page := page; limit := limit; total := total;
     pages := ceilDiv total limit |}.

End pagination.

(** The store client rejects a negative [skip]. *)
Definition validationError : AppError :=
  {| statusCode := None; code := None;
     message := "Invalid value for skip argument" |}.

(** The [skip] / [take] window of [findMany] on an ordered result set: a
    non-negative [take] counts from the start, a negative one from the
    end. *)
Definition window {R : Type} (skip take : Z) (rows : list R)
  : Result (list R) :=
  if skip <? 0 then Threw validationError
  else if 0 <=? take then
    Ok (firstn (Z.to_nat take) (skipn (Z.to_nat skip) rows))
  else
    Ok (rev (firstn (Z.to_nat (- take)) (skipn (Z.to_nat skip) (rev rows)))).


(* ------------------------------------------------------------------------- *)
(** ** Authorization gate ([middleware/authorize.ts]) *)

(** [authorize(...allowedRoles)] applied to a request with the given
    [:boardId] parameter and authenticated user; [Ok tt] is [next()], an
    error is [next(err)]. *)
Definition authorize (allowedRoles : list string)
  (boardId userId : option string) : Async unit :=
  if negb (Js.truthy boardId) || negb (Js.truthy userId) then
    throw (createError 400 "BAD_REQUEST" "Missing board ID or user ID")
  else
    let bid := Js.nullish boardId "" in
    let uid := Js.nullish userId "" in
    found <- gets (fun db =>
      Prisma.findUnique (fun b => Board.id b =? bid)%string (boards db)) ;;
    board <- orThrow found (createError 404 "NOT_FOUND" "Board not found") ;;
    if (Board.owner_id board =? uid)%string then ret tt
    else
      found <- gets (fun db =>
        Prisma.findUnique
          (fun m => (BoardMember.board_id m =? bid)%string
                    && (BoardMember.user_id m =? uid)%string)
          (boardMembers db)) ;;
      member <- orThrow found
        (createError 403 "FORBIDDEN" "You are not a member of this board") ;;
      throwIf
        (Nat.ltb 0 (List.length allowedRoles)
         && negb (Js.includes allowedRoles (BoardMember.role member)))
        (createError 403 "FORBIDDEN"
           ("Requires one of: " ++ Js.join ", " allowedRoles)).

(* ------------------------------------------------------------------------- *)
(** ** Deleting a board row *)

(** Modelled from the spec: the schema file with the [onDelete] rules is not
    among the sources.  The design document has a deleted board take its
    lists, tasks, members and activity entries with it; the assignee rows of
    the deleted tasks go with them. *)
Definition deleteBoardRow (boardId : string) (db : Db) : Db :=
  let goneLists :=
    filter (fun l => List_.board_id l =? boardId)%string (lists db) in
  let inGoneList (t : Task.t) :=
    existsb (fun l => List_.id l =? Task.list_id t)%string goneLists in
  let goneTasks := filter inGoneList (tasks db) in
  {| profiles := profiles db;
     boards := Prisma.delete (fun b => Board.id b =? boardId)%string (boards db);
     boardMembers :=
       Prisma.delete (fun m => BoardMember.board_id m =? boardId)%string
         (boardMembers db);
     lists :=
       Prisma.delete (fun l => List_.board_id l =? boardId)%string (lists db);
     tasks := Prisma.delete inGoneList (tasks db);
     taskAssignees :=
       Prisma.delete
         (fun a =>
            existsb (fun t => Task.id t =? TaskAssignee.task_id a)%string
              goneTasks)
         (taskAssignees db);
     activityLogs :=
       Prisma.delete (fun e => ActivityLog.board_id e =? boardId)%string
         (activityLogs db) |}.

(* ------------------------------------------------------------------------- *)
(** ** Board service ([services/boardService.ts]) *)

Module boardService.

Record CreateBoardData : Type := mkCreateBoardData {
  cb_name : string;
  cb_description : option string;
  cb_color : option string
}.

(** [createBoard(userId, data)].  [newId] and [listIds] are the identifiers
    the store generates for the board and for its three lists.  The result is
    the board with its lists in ascending position. *)
Definition createBoard (newId : string) (listIds : string * string * string)
  (userId : string) (data : CreateBoardData)
  : Async (Board.t * list List_.t) :=
  let '(id0, id1, id2) := listIds in
  let row :=
    {| Board.id := newId;
       Board.name := cb_name data;
       Board.description := cb_description data;
       Board.color := Js.nullish (cb_color data) "#4472C4";
       Board.owner_id := userId;
       Board.is_archived := false |} in
  modify (set_boards (Prisma.create row)) ;;
  modify (set_lists (Prisma.createMany
    [ List_.mk id0 "To Do" 0 newId;
      List_.mk id1 "In Progress" 1 newId;
      List_.mk id2 "Done" 2 newId ])) ;;
  included <- gets (fun db =>
    Prisma.orderByAsc (fun a b => List_.position a <=? List_.position b)
      (filter (fun l => List_.board_id l =? newId)%string (lists db))) ;;
  logActivity
    {| ActivityLog.board_id := Board.id row;
       ActivityLog.user_id := userId;
       ActivityLog.task_id := None;
       ActivityLog.action_type := "create";
       ActivityLog.entity_type := "board";
       ActivityLog.changes := [("name", JString (Board.name row))] |} ;;
  ret (row, included).

(** The requester may manage members: the owner, or a member with role
    [admin]. *)
Definition requireAdmin (boardId userId : string) (e : AppError)
  : Async unit :=
  requester <- gets (fun db =>
    Prisma.findUnique
      (fun m => (BoardMember.board_id m =? boardId)%string
                && (BoardMember.user_id m =? userId)%string)
      (boardMembers db)) ;;
  match requester with
  | None => throw e
  | Some r => throwIf (negb (BoardMember.role r =? "admin")%string) e
  end.

(** [addMember(boardId, userId, newMemberId, role = "editor")]; [newId] is the
    identifier the store generates for the membership row. *)
Definition addMember (newId : string) (boardId userId newMemberId : string)
  (role : option string) : Async BoardMember.t :=
  let role := Js.nullish role "editor" in
  found <- gets (fun db =>
    Prisma.findUnique (fun b => Board.id b =? boardId)%string (boards db)) ;;
  board <- orThrow found (createError 404 "NOT_FOUND" "Board not found") ;;
  (if negb (Board.owner_id board =? userId)%string then
     requireAdmin boardId userId
       (createError 403 "FORBIDDEN" "Only the owner or admin can add members")
   else ret tt) ;;
  targetUser <- gets (fun db =>
    Prisma.findUnique (fun p => Profile.id p =? newMemberId)%string
      (profiles db)) ;;
  _ <- orThrow targetUser (createError 404 "NOT_FOUND" "User not found") ;;
  throwIf (newMemberId =? Board.owner_id board)%string
    (createError 400 "BAD_REQUEST" "Cannot add the board owner as a member") ;;
  (* boardMember.create: the store refuses a second row for the unique
     (board_id, user_id) pair *)
  existing <- gets (fun db =>
    Prisma.findUnique
      (fun m => (BoardMember.board_id m =? boardId)%string
                && (BoardMember.user_id m =? newMemberId)%string)
      (boardMembers db)) ;;
  throwIf (match existing with Some _ => true | None => false end)
    uniqueConstraintError ;;
  let member :=
    {| BoardMember.id := newId;
       BoardMember.board_id := boardId;
       BoardMember.user_id := newMemberId;
       BoardMember.role := role |} in
  modify (set_boardMembers (Prisma.create member)) ;;
  logActivity
    {| ActivityLog.board_id := boardId;
       ActivityLog.user_id := userId;
       ActivityLog.task_id := None;
       ActivityLog.action_type := "create";
       ActivityLog.entity_type := "board";
       ActivityLog.changes :=
         [("action", JString "member_added");
          ("member_id", JString newMemberId);
          ("role", JString role)] |} ;;
  ret member.

(** [removeMember(boardId, userId, targetUserId)]. *)
Definition removeMember (boardId userId targetUserId : string) : Async unit :=
  found <- gets (fun db =>
    Prisma.findUnique (fun b => Board.id b =? boardId)%string (boards db)) ;;
  board <- orThrow found (createError 404 "NOT_FOUND" "Board not found") ;;
  (if negb (Board.owner_id board =? userId)%string
      && negb (userId =? targetUserId)%string then
     requireAdmin boardId userId
       (createError 403 "FORBIDDEN"
          "Insufficient permissions to remove members")
   else ret tt) ;;
  throwIf (targetUserId =? Board.owner_id board)%string
    (createError 400 "BAD_REQUEST" "Cannot remove the board owner") ;;
  found <- gets (fun db =>
    Prisma.findUnique
      (fun m => (BoardMember.board_id m =? boardId)%string
                && (BoardMember.user_id m =? targetUserId)%string)
      (boardMembers db)) ;;
  member <- orThrow found (createError 404 "NOT_FOUND" "Member not found") ;;
  modify (set_boardMembers
    (Prisma.delete
       (fun m => BoardMember.id m =? BoardMember.id member)%string)) ;;
  logActivity
    {| ActivityLog.board_id := boardId;
       ActivityLog.user_id := userId;
       ActivityLog.task_id := None;
       ActivityLog.action_type := "delete";
       ActivityLog.entity_type := "board";
       ActivityLog.changes :=
         [("action", JString "member_removed");
          ("member_id", JString targetUserId)] |}.

Record UpdateBoardData : Type := mkUpdateBoardData {
  ub_name : option string;
  ub_description : option (option string);
  ub_color : option string;
  ub_is_archived : option bool
}.

(** [data] of [board.update]: an undefined field is left as it is, a [null]
    description clears it. *)
Definition applyBoardUpdate (data : UpdateBoardData) (b : Board.t) : Board.t :=
  {| Board.id := Board.id b;
     Board.name := Js.nullish (ub_name data) (Board.name b);
     Board.description :=
       match ub_description data with
       | Some d => d
       | None => Board.description b
       end;
     Board.color := Js.nullish (ub_color data) (Board.color b);
     Board.owner_id := Board.owner_id b;
     Board.is_archived := Js.nullish (ub_is_archived data) (Board.is_archived b) |}.

(** [updateBoard(boardId, userId, data)]. *)
Definition updateBoard (boardId userId : string) (data : UpdateBoardData)
  : Async Board.t :=
  found <- gets (fun db =>
    Prisma.findUnique (fun b => Board.id b =? boardId)%string (boards db)) ;;
  board <- orThrow found (createError 404 "NOT_FOUND" "Board not found") ;;
  throwIf (negb (Board.owner_id board =? userId)%string)
    (createError 403 "FORBIDDEN" "Only the board owner can update this board") ;;
  modify (set_boards (Prisma.update
    (fun b => Board.id b =? boardId)%string (applyBoardUpdate data))) ;;
  logActivity
    {| ActivityLog.board_id := boardId;
       ActivityLog.user_id := userId;
       ActivityLog.task_id := None;
       ActivityLog.action_type := "update";
       ActivityLog.entity_type := "board";
       ActivityLog.changes :=
         (jsonField "name" JString (ub_name data)
          ++ jsonField "description"
               (fun d => match d with Some x => JString x | None => JNull end)
               (ub_description data)
          ++ jsonField "color" JString (ub_color data)
          ++ jsonField "is_archived" JBool (ub_is_archived data))%list |} ;;
  ret (applyBoardUpdate data board).

(** [deleteBoard(boardId, userId)]. *)
Definition deleteBoard (boardId userId : string) : Async unit :=
  found <- gets (fun db =>
    Prisma.findUnique (fun b => Board.id b =? boardId)%string (boards db)) ;;
  board <- orThrow found (createError 404 "NOT_FOUND" "Board not found") ;;
  throwIf (negb (Board.owner_id board =? userId)%string)
    (createError 403 "FORBIDDEN" "Only the board owner can delete this board") ;;
  modify (deleteBoardRow boardId).

(** A task with its assignee rows, and a list with its tasks, as
    [getBoardWithLists] nests them.  The profiles joined to the owner, the
    members, the creators and the assignees are selections of the rows their
    identifiers name and are not repeated here. *)
Record TaskView : Type := mkTaskView {
  tv_task : Task.t;
  tv_assignees : list TaskAssignee.t
}.

Record ListView : Type := mkListView {
  lv_list : List_.t;
  lv_tasks : list TaskView
}.

Record BoardView : Type := mkBoardView {
  bv_board : Board.t;
  bv_members : list BoardMember.t;
  bv_lists : list ListView
}.

Definition taskView (db : Db) (t : Task.t) : TaskView :=
  {| tv_task := t;
     tv_assignees :=
       filter (fun a => TaskAssignee.task_id a =? Task.id t)%string
         (taskAssignees db) |}.

Definition listView (db : Db) (l : List_.t) : ListView :=
  {| lv_list := l;
     lv_tasks :=
       map (taskView db)
         (Prisma.orderByAsc (fun a b => Task.position a <=? Task.position b)
            (filter (fun t => Task.list_id t =? List_.id l)%string (tasks db))) |}.

(** [getBoardWithLists(boardId)]. *)
Definition getBoardWithLists (boardId : string) : Async BoardView :=
  found <- gets (fun db =>
    Prisma.findUnique (fun b => Board.id b =? boardId)%string (boards db)) ;;
  board <- orThrow found (createError 404 "NOT_FOUND" "Board not found") ;;
  gets (fun db =>
    {| bv_board := board;
       bv_members :=
         filter (fun m => BoardMember.board_id m =? Board.id board)%string
           (boardMembers db);
       bv_lists :=
         map (listView db)
           (Prisma.orderByAsc
              (fun a b => List_.position a <=? List_.position b)
              (filter (fun l => List_.board_id l =? Board.id board)%string
                 (lists db))) |}).

End boardService.

(* ------------------------------------------------------------------------- *)
(** ** Cascading deletes *)

(** Modelled from the spec: the schema file with the [onDelete] rules is not
    among the sources.  The design document has deletes cascade from a board
    to its lists and tasks, and [deleteList] notes that deleting a list
    "cascades to tasks via schema"; the assignee rows of a deleted task go
    with it. *)
Definition deleteTaskRow (taskId : string) (db : Db) : Db :=
  set_tasks (Prisma.delete (fun t => Task.id t =? taskId)%string)
    (set_taskAssignees
       (Prisma.delete (fun a => TaskAssignee.task_id a =? taskId)%string) db).

Definition deleteListRow (listId : string) (db : Db) : Db :=
  let gone := filter (fun t => Task.list_id t =? listId)%string (tasks db) in
  set_lists (Prisma.delete (fun l => List_.id l =? listId)%string)
    (set_tasks (Prisma.delete (fun t => Task.list_id t =? listId)%string)
       (set_taskAssignees
          (Prisma.delete (fun a =>
             existsb (fun t => Task.id t =? TaskAssignee.task_id a)%string gone))
          db)).

(* ------------------------------------------------------------------------- *)
(** ** List service ([services/listService.ts]) *)

Module listService.

Record UpdateListData : Type := mkUpdateListData {
  ul_name : option string;
  ul_position : option Z
}.

(** [createList(boardId, userId, { name })]; [newId] is the identifier the
    store generates.  The list is written first and the activity entry
    after it, in two statements of their own. *)
Definition createList (newId : string) (boardId userId : string)
  (name : string) : Async List_.t :=
  found <- gets (fun db =>
    Prisma.findUnique (fun b => Board.id b =? boardId)%string (boards db)) ;;
  _ <- orThrow found (createError 404 "NOT_FOUND" "Board not found") ;;
  lastList <- gets (fun db =>
    Prisma.findFirstDesc (fun l => List_.board_id l =? boardId)%string
      List_.position (lists db)) ;;
  let nextPosition := Js.nullish (option_map List_.position lastList) (-1) + 1 in
  let list := List_.mk newId name nextPosition boardId in
  modify (set_lists (Prisma.create list)) ;;
  logActivity
    {| ActivityLog.board_id := boardId;
       ActivityLog.user_id := userId;
       ActivityLog.task_id := None;
       ActivityLog.action_type := "create";
       ActivityLog.entity_type := "list";
       ActivityLog.changes :=
         [("name", JString (List_.name list));
          ("position", JNumber (List_.position list))] |} ;;
  ret list.

(** [data: { name: data.name }]: an undefined field is left as it is. *)
Definition withName (name : option string) (l : List_.t) : List_.t :=
  match name with
  | Some n => List_.set_name n l
  | None => l
  end.

(** [updateList(listId, userId, { name?, position? })]. *)
Definition updateList (listId userId : string) (data : UpdateListData)
  : Async (option List_.t) :=
  found <- gets (fun db =>
    Prisma.findUnique (fun l => List_.id l =? listId)%string (lists db)) ;;
  list <- orThrow found (createError 404 "NOT_FOUND" "List not found") ;;
  let old := List_.position list in
  let scope := List_.board_id list in
  (match ul_position data with
   | Some new =>
       if negb (new =? old) then
         transaction
           ((if new >? old then
               modify (set_lists (Prisma.updateMany
                 (fun l => (List_.board_id l =? scope)%string
                           && ((List_.position l >? old)
                               && (List_.position l <=? new))
                           && negb (List_.id l =? listId)%string)
                 (fun l => List_.set_position (List_.position l - 1) l)))
             else
               modify (set_lists (Prisma.updateMany
                 (fun l => (List_.board_id l =? scope)%string
                           && ((List_.position l >=? new)
                               && (List_.position l <? old))
                           && negb (List_.id l =? listId)%string)
                 (fun l => List_.set_position (List_.position l + 1) l)))) ;;
            modify (set_lists (Prisma.update
              (fun l => List_.id l =? listId)%string
              (fun l => List_.set_position new (withName (ul_name data) l)))))
       else
         modify (set_lists (Prisma.update
           (fun l => List_.id l =? listId)%string (withName (ul_name data))))
   | None =>
       modify (set_lists (Prisma.update
         (fun l => List_.id l =? listId)%string (withName (ul_name data))))
   end) ;;
  updated <- gets (fun db =>
    Prisma.findUnique (fun l => List_.id l =? listId)%string (lists db)) ;;
  logActivity
    {| ActivityLog.board_id := List_.board_id list;
       ActivityLog.user_id := userId;
       ActivityLog.task_id := None;
       ActivityLog.action_type := "update";
       ActivityLog.entity_type := "list";
       ActivityLog.changes :=
         (jsonField "name" JString (ul_name data)
          ++ jsonField "position" JNumber (ul_position data))%list |} ;;
  ret updated.

(** [deleteList(listId, userId)]. *)
Definition deleteList (listId userId : string) : Async unit :=
  found <- gets (fun db =>
    Prisma.findUnique (fun l => List_.id l =? listId)%string (lists db)) ;;
  list <- orThrow found (createError 404 "NOT_FOUND" "List not found") ;;
  transaction
    (modify (deleteListRow listId) ;;
     modify (set_lists (Prisma.updateMany
       (fun l => (List_.board_id l =? List_.board_id list)%string
                 && (List_.position l >? List_.position list))
       (fun l => List_.set_position (List_.position l - 1) l)))) ;;
  logActivity
    {| ActivityLog.board_id := List_.board_id list;
       ActivityLog.user_id := userId;
       ActivityLog.task_id := None;
       ActivityLog.action_type := "delete";
       ActivityLog.entity_type := "list";
       ActivityLog.changes := [("name", JString (List_.name list))] |}.

End listService.

(* ------------------------------------------------------------------------- *)
(** ** User service ([services/userService.ts]) *)

Module userService.

(** The selected columns of a profile. *)
Record UserSummary : Type := mkUserSummary {
  us_id : string;
  us_email : string;
  us_first_name : string;
  us_last_name : string;
  us_avatar_url : option string
}.

Definition select (p : Profile.t) : UserSummary :=
  {| us_id := Profile.id p; us_email := Profile.email p;
     us_first_name := Profile.first_name p;
     us_last_name := Profile.last_name p;
     us_avatar_url := Profile.avatar_url p |}.

(** [{ contains: q, mode: "insensitive" }]: the store client sends
    [field ILIKE '%q%'] with [q] as it is, so that a [%], [_] or backslash
    in [q] keeps its meaning in the pattern. *)
Definition containsInsensitive (q field : string) : bool :=
  Prisma.like ("%" ++ Js.toLowerCase q ++ "%") (Js.toLowerCase field).

(** The [where] clause of the search. *)
Definition searchWhere (q requesterId : string) (p : Profile.t) : bool :=
  negb (Profile.id p =? requesterId)%string
  && Profile.is_active p
  && (containsInsensitive q (Profile.email p)
      || containsInsensitive q (Profile.first_name p)
      || containsInsensitive q (Profile.last_name p)).

(** [searchUsers(query, requesterId, limit = 10)]. *)
Definition searchUsers (query requesterId : string) (limit : option nat)
  : Async (list UserSummary) :=
  let limit := Js.nullish limit 10%nat in
  let q := Js.toLowerCase (Js.trim query) in
  gets (fun db =>
    map select
      (firstn limit
         (Prisma.orderByAsc
            (fun a b => String.leb (Profile.first_name a) (Profile.first_name b))
            (filter (searchWhere q requesterId) (profiles db))))).

End userService.

(* ------------------------------------------------------------------------- *)
(** ** Task service ([services/taskService.ts]) *)

Module taskService.

Record CreateTaskData : Type := mkCreateTaskData {
  ct_list_id : string;
  ct_title : string;
  ct_description : option string;
  ct_priority : option string;
  ct_due_date : option string
}.

Record MoveTaskData : Type := mkMoveTaskData {
  mv_list_id : string;
  mv_position : Z
}.

(** [task.findUnique({ where: { id }, include: { list } })]: the task with
    the list it belongs to.  The [list] relation is required and kept by the
    store's foreign key; reading it on a task whose list is gone would be a
    type error. *)
Definition findTaskWithList (taskId : string) : Async (Task.t * List_.t) :=
  found <- gets (fun db =>
    Prisma.findUnique (fun t => Task.id t =? taskId)%string (tasks db)) ;;
  task <- orThrow found (createError 404 "NOT_FOUND" "Task not found") ;;
  list <- gets (fun db =>
    Prisma.findUnique (fun l => List_.id l =? Task.list_id task)%string
      (lists db)) ;;
  list <- orThrow list typeError ;;
  ret (task, list).

(** [createTask(userId, data)]; [newId] is the identifier the store
    generates.  The priority and the due date are kept as the strings given:
    that the store takes only the priorities of its enumeration and only a
    date that parses is not modelled (see the conventions). *)
Definition createTask (newId : string) (userId : string)
  (data : CreateTaskData) : Async Task.t :=
  found <- gets (fun db =>
    Prisma.findUnique (fun l => List_.id l =? ct_list_id data)%string
      (lists db)) ;;
  list <- orThrow found (createError 404 "NOT_FOUND" "List not found") ;;
  lastTask <- gets (fun db =>
    Prisma.findFirstDesc (fun t => Task.list_id t =? ct_list_id data)%string
      Task.position (tasks db)) ;;
  let nextPosition := Js.nullish (option_map Task.position lastTask) (-1) + 1 in
  let task :=
    {| Task.id := newId;
       Task.title := ct_title data;
       Task.description := ct_description data;
       Task.priority := Js.nullish (ct_priority data) "medium";
       Task.due_date :=
         if Js.truthy (ct_due_date data) then ct_due_date data else None;
       Task.position := nextPosition;
       Task.list_id := ct_list_id data;
       Task.created_by := userId |} in
  modify (set_tasks (Prisma.create task)) ;;
  logActivity
    {| ActivityLog.board_id := List_.board_id list;
       ActivityLog.user_id := userId;
       ActivityLog.task_id := Some (Task.id task);
       ActivityLog.action_type := "create";
       ActivityLog.entity_type := "task";
       ActivityLog.changes :=
         [("title", JString (Task.title task));
          ("list", JString (List_.name list))] |} ;;
  ret task.

(** [deleteTask(taskId, userId)]. *)
Definition deleteTask (taskId userId : string) : Async unit :=
  found <- findTaskWithList taskId ;;
  let '(task, list) := found in
  logActivity
    {| ActivityLog.board_id := List_.board_id list;
       ActivityLog.user_id := userId;
       ActivityLog.task_id := Some taskId;
       ActivityLog.action_type := "delete";
       ActivityLog.entity_type := "task";
       ActivityLog.changes :=
         [("title", JString (Task.title task));
          ("list", JString (List_.name list))] |} ;;
  modify (deleteTaskRow taskId).

(** [moveTask(taskId, userId, { list_id, position })]. *)
Definition moveTask (taskId userId : string) (data : MoveTaskData)
  : Async (option Task.t) :=
  found <- findTaskWithList taskId ;;
  let '(task, list) := found in
  target <- gets (fun db =>
    Prisma.findUnique (fun l => List_.id l =? mv_list_id data)%string
      (lists db)) ;;
  targetList <- orThrow target
    (createError 404 "NOT_FOUND" "Target list not found") ;;
  throwIf (negb (List_.board_id targetList =? List_.board_id list)%string)
    (createError 400 "BAD_REQUEST"
       "Cannot move task to a list on a different board") ;;
  let movingToNewList := negb (Task.list_id task =? mv_list_id data)%string in
  let old := Task.position task in
  let new := mv_position data in
  transaction
    ((if movingToNewList then
        modify (set_tasks (Prisma.updateMany
          (fun t => (Task.list_id t =? Task.list_id task)%string
                    && (Task.position t >? old))
          (fun t => Task.set_position (Task.position t - 1) t)))
      else if new >? old then
        modify (set_tasks (Prisma.updateMany
          (fun t => (Task.list_id t =? Task.list_id task)%string
                    && ((Task.position t >? old) && (Task.position t <=? new))
                    && negb (Task.id t =? taskId)%string)
          (fun t => Task.set_position (Task.position t - 1) t)))
      else if new <? old then
        modify (set_tasks (Prisma.updateMany
          (fun t => (Task.list_id t =? Task.list_id task)%string
                    && ((Task.position t >=? new) && (Task.position t <? old))
                    && negb (Task.id t =? taskId)%string)
          (fun t => Task.set_position (Task.position t + 1) t)))
      else ret tt) ;;
     (if movingToNewList then
        modify (set_tasks (Prisma.updateMany
          (fun t => (Task.list_id t =? mv_list_id data)%string
                    && (Task.position t >=? new))
          (fun t => Task.set_position (Task.position t + 1) t)))
      else ret tt) ;;
     modify (set_tasks (Prisma.update
       (fun t => Task.id t =? taskId)%string
       (fun t => Task.set_position new (Task.set_list_id (mv_list_id data) t))))) ;;
  updated <- gets (fun db =>
    Prisma.findUnique (fun t => Task.id t =? taskId)%string (tasks db)) ;;
  logActivity
    {| ActivityLog.board_id := List_.board_id list;
       ActivityLog.user_id := userId;
       ActivityLog.task_id := Some taskId;
       ActivityLog.action_type := "update";
       ActivityLog.entity_type := "task";
       ActivityLog.changes :=
         [("action", JString "moved");
          ("from_list", JString (List_.name list));
          ("to_list", JString (List_.name targetList));
          ("new_position", JNumber new)] |} ;;
  ret updated.

(** [assignUser(taskId, userId, assigneeId)]; [newId] is the identifier the
    store generates for the assignment row. *)
Definition assignUser (newId : string) (taskId userId assigneeId : string)
  : Async TaskAssignee.t :=
  found <- findTaskWithList taskId ;;
  let '(task, list) := found in
  board <- gets (fun db =>
    Prisma.findUnique (fun b => Board.id b =? List_.board_id list)%string
      (boards db)) ;;
  board <- orThrow board typeError ;;
  (if negb (Board.owner_id board =? assigneeId)%string then
     membership <- gets (fun db =>
       Prisma.findUnique
         (fun m => (BoardMember.board_id m =? List_.board_id list)%string
                   && (BoardMember.user_id m =? assigneeId)%string)
         (boardMembers db)) ;;
     _ <- orThrow membership
       (createError 400 "BAD_REQUEST" "User is not a member of this board") ;;
     ret tt
   else ret tt) ;;
  existing <- gets (fun db =>
    Prisma.findUnique
      (fun a => (TaskAssignee.task_id a =? taskId)%string
                && (TaskAssignee.user_id a =? assigneeId)%string)
      (taskAssignees db)) ;;
  throwIf (match existing with Some _ => true | None => false end)
    (createError 409 "CONFLICT" "User is already assigned to this task") ;;
  let assignment := TaskAssignee.mk newId taskId assigneeId in
  modify (set_taskAssignees (Prisma.create assignment)) ;;
  logActivity
    {| ActivityLog.board_id := List_.board_id list;
       ActivityLog.user_id := userId;
       ActivityLog.task_id := Some taskId;
       ActivityLog.action_type := "create";
       ActivityLog.entity_type := "task";
       ActivityLog.changes :=
         [("action", JString "user_assigned");
          ("assignee_id", JString assigneeId)] |} ;;
  ret assignment.

(** [unassignUser(taskId, userId, assigneeId)]. *)
Definition unassignUser (taskId userId assigneeId : string) : Async unit :=
  found <- findTaskWithList taskId ;;
  let '(task, list) := found in
  existing <- gets (fun db =>
    Prisma.findUnique
      (fun a => (TaskAssignee.task_id a =? taskId)%string
                && (TaskAssignee.user_id a =? assigneeId)%string)
      (taskAssignees db)) ;;
  assignment <- orThrow existing
    (createError 404 "NOT_FOUND" "Assignment not found") ;;
  modify (set_taskAssignees
    (Prisma.delete
       (fun a => TaskAssignee.id a =? TaskAssignee.id assignment)%string)) ;;
  logActivity
    {| ActivityLog.board_id := List_.board_id list;
       ActivityLog.user_id := userId;
       ActivityLog.task_id := Some taskId;
       ActivityLog.action_type := "delete";
       ActivityLog.entity_type := "task";
       ActivityLog.changes :=
         [("action", JString "user_unassigned");
          ("assignee_id", JString assigneeId)] |}.




(** [getTaskById(taskId)]: the task with its assignee rows. *)
Definition getTaskById (taskId : string)
  : Async (Task.t * list TaskAssignee.t) :=
  found <- gets (fun db =>
    Prisma.findUnique (fun t => Task.id t =? taskId)%string (tasks db)) ;;
  task <- orThrow found (createError 404 "NOT_FOUND" "Task not found") ;;
  assignees <- gets (fun db =>
    filter (fun a => TaskAssignee.task_id a =? Task.id task)%string
      (taskAssignees db)) ;;
  ret (task, assignees).

Record UpdateTaskData : Type := mkUpdateTaskData {
  ut_title : option string;
  ut_description : option (option string);
  ut_priority : option string;
  ut_due_date : option (option string)
}.

(** [updateData]: the defined fields of [data]; a [null] description clears
    it, a [null] or empty due date clears the due date. *)
Definition applyTaskUpdate (data : UpdateTaskData) (t : Task.t) : Task.t :=
  {| Task.id := Task.id t;
     Task.title := Js.nullish (ut_title data) (Task.title t);
     Task.description :=
       match ut_description data with
       | Some d => d
       | None => Task.description t
       end;
     Task.priority := Js.nullish (ut_priority data) (Task.priority t);
     Task.due_date :=
       match ut_due_date data with
       | Some d => if Js.truthy d then d else None
       | None => Task.due_date t
       end;
     Task.position := Task.position t;
     Task.list_id := Task.list_id t;
     Task.created_by := Task.created_by t |}.

Definition jsonNullable (d : option string) : JsonValue :=
  match d with
  | Some x => JString x
  | None => JNull
  end.

(** [updateTask(taskId, userId, data)]. *)
Definition updateTask (taskId userId : string) (data : UpdateTaskData)
  : Async Task.t :=
  found <- findTaskWithList taskId ;;
  let '(task, list) := found in
  modify (set_tasks (Prisma.update
    (fun t => Task.id t =? taskId)%string (applyTaskUpdate data))) ;;
  logActivity
    {| ActivityLog.board_id := List_.board_id list;
       ActivityLog.user_id := userId;
       ActivityLog.task_id := Some taskId;
       ActivityLog.action_type := "update";
       ActivityLog.entity_type := "task";
       ActivityLog.changes :=
         (jsonField "title" JString (ut_title data)
          ++ jsonField "description" jsonNullable (ut_description data)
          ++ jsonField "priority" JString (ut_priority data)
          ++ jsonField "due_date" jsonNullable (ut_due_date data))%list |} ;;
  ret (applyTaskUpdate data task).

End taskService.

(* ------------------------------------------------------------------------- *)
(** ** Routes ([routes/tasks.ts], [routes/boards.ts]) *)

(** The handlers of the routes that have no body or query to validate, for a
    request that passed the authentication middleware as user [userId]:
    the gates of the route in order, then the controller's call of the
    service. *)
Module routes.

(** [GET /api/boards/:boardId/tasks/:taskId]. *)
Definition getTask (boardId userId taskId : string)
  : Async (Task.t * list TaskAssignee.t) :=
  authorize [] (Some boardId) (Some userId) ;;
  taskService.getTaskById taskId.

(** [DELETE /api/boards/:boardId/tasks/:taskId]. *)
Definition deleteTask (boardId userId taskId : string) : Async unit :=
  authorize [] (Some boardId) (Some userId) ;;
  authorize ["admin"; "editor"] (Some boardId) (Some userId) ;;
  taskService.deleteTask taskId userId.

(** [DELETE /api/boards/:boardId/tasks/:taskId/assignees/:userId]. *)
Definition unassignUser (boardId userId taskId targetUserId : string)
  : Async unit :=
  authorize [] (Some boardId) (Some userId) ;;
  authorize ["admin"; "editor"] (Some boardId) (Some userId) ;;
  taskService.unassignUser taskId userId targetUserId.

(** [DELETE /api/boards/:boardId/lists/:listId]. *)
Definition deleteList (boardId userId listId : string) : Async unit :=
  authorize ["admin"] (Some boardId) (Some userId) ;;
  listService.deleteList listId userId.

End routes.


(* ------------------------------------------------------------------------- *)
(** ** The mutating calls of the service layer *)

Inductive Request : Type :=
| ReqCreateBoard (newId : string) (listIds : string * string * string)
    (userId : string) (data : boardService.CreateBoardData)
| ReqUpdateBoard (boardId userId : string) (data : boardService.UpdateBoardData)
| ReqDeleteBoard (boardId userId : string)
| ReqAddMember (newId boardId userId newMemberId : string)
    (role : option string)
| ReqRemoveMember (boardId userId targetUserId : string)
| ReqCreateList (newId boardId userId name : string)
| ReqUpdateList (listId userId : string) (data : listService.UpdateListData)
| ReqDeleteList (listId userId : string)
| ReqCreateTask (newId userId : string) (data : taskService.CreateTaskData)
| ReqUpdateTask (taskId userId : string) (data : taskService.UpdateTaskData)
| ReqDeleteTask (taskId userId : string)
| ReqMoveTask (taskId userId : string) (data : taskService.MoveTaskData)
| ReqAssignUser (newId taskId userId assigneeId : string)
| ReqUnassignUser (taskId userId assigneeId : string).

Definition perform (req : Request) : Async unit :=
  match req with
  | ReqCreateBoard newId listIds userId data =>
      _ <- boardService.createBoard newId listIds userId data ;; ret tt
  | ReqUpdateBoard boardId userId data =>
      _ <- boardService.updateBoard boardId userId data ;; ret tt
  | ReqDeleteBoard boardId userId => boardService.deleteBoard boardId userId
  | ReqAddMember newId boardId userId newMemberId role =>
      _ <- boardService.addMember newId boardId userId newMemberId role ;;
      ret tt
  | ReqRemoveMember boardId userId targetUserId =>
      boardService.removeMember boardId userId targetUserId
  | ReqCreateList newId boardId userId name =>
      _ <- listService.createList newId boardId userId name ;; ret tt
  | ReqUpdateList listId userId data =>
      _ <- listService.updateList listId userId data ;; ret tt
  | ReqDeleteList listId userId => listService.deleteList listId userId
  | ReqCreateTask newId userId data =>
      _ <- taskService.createTask newId userId data ;; ret tt
  | ReqUpdateTask taskId userId data =>
      _ <- taskService.updateTask taskId userId data ;; ret tt
  | ReqDeleteTask taskId userId => taskService.deleteTask taskId userId
  | ReqMoveTask taskId userId data =>
      _ <- taskService.moveTask taskId userId data ;; ret tt
  | ReqAssignUser newId taskId userId assigneeId =>
      _ <- taskService.assignUser newId taskId userId assigneeId ;; ret tt
  | ReqUnassignUser taskId userId assigneeId =>
      taskService.unassignUser taskId userId assigneeId
  end.

(** The user on whose behalf the call is made. *)
Definition requester (req : Request) : string :=
  match req with
  | ReqCreateBoard _ _ userId _ | ReqUpdateBoard _ userId _
  | ReqDeleteBoard _ userId | ReqAddMember _ _ userId _ _
  | ReqRemoveMember _ userId _ | ReqCreateList _ _ userId _
  | ReqUpdateList _ userId _ | ReqDeleteList _ userId
  | ReqCreateTask _ userId _ | ReqUpdateTask _ userId _
  | ReqDeleteTask _ userId | ReqMoveTask _ userId _
  | ReqAssignUser _ _ userId _ | ReqUnassignUser _ userId _ => userId
  end.

(* ------------------------------------------------------------------------- *)
(** ** Specification vocabulary *)

(** The positions held by the rows of one scope of a table: [scope] gives the
    scope a row belongs to and [pos] its position. *)
Definition positionsIn {R : Type} (scope : R -> string) (pos : R -> Z)
  (s : string) (rows : list R) : list Z :=
  map pos (filter (fun r => scope r =? s)%string rows).

(** Positions of the lists of a board, and of the tasks of a list. *)
Definition listPositions (boardId : string) (db : Db) : list Z :=
  positionsIn List_.board_id List_.position boardId (lists db).

Definition taskPositions (listId : string) (db : Db) : list Z :=
  positionsIn Task.list_id Task.position listId (tasks db).

(** The positions of a scope are dense: they are exactly [0, 1, ..., n-1]
    for the [n] siblings of the scope, none taken twice. *)
Definition dense (ps : list Z) : Prop :=
  NoDup ps /\ forall p, In p ps <-> 0 <= p < Z.of_nat (List.length ps).

(** Every board's lists and every list's tasks are densely positioned. *)
Definition allDense (db : Db) : Prop :=
  (forall boardId, dense (listPositions boardId db))
  /\ (forall listId, dense (taskPositions listId db)).

(** Executable counterparts. *)
Fixpoint distinctZ (ps : list Z) : bool :=
  match ps with
  | [] => true
  | p :: ps' => negb (existsb (Z.eqb p) ps') && distinctZ ps'
  end.

Fixpoint distinct (xs : list string) : bool :=
  match xs with
  | [] => true
  | x :: xs' => negb (existsb (String.eqb x) xs') && distinct xs'
  end.

Definition denseb (ps : list Z) : bool :=
  distinctZ ps
  && forallb (fun p => (0 <=? p) && (p <? Z.of_nat (List.length ps))) ps.

Definition allDenseb (db : Db) : bool :=
  forallb (fun l => denseb (listPositions (List_.board_id l) db)) (lists db)
  && forallb (fun t => denseb (taskPositions (Task.list_id t) db)) (tasks db).

(** Primary keys. *)
Definition uniqueKeys (db : Db) : Prop :=
  NoDup (map List_.id (lists db)) /\ NoDup (map Task.id (tasks db)).

Definition uniqueKeysb (db : Db) : bool :=
  distinct (map List_.id (lists db)) && distinct (map Task.id (tasks db)).

(** The requester is the board's owner or one of its admins. *)
Definition canManageMembers (b : Board.t) (userId : string) (db : Db) : Prop :=
  userId = Board.owner_id b
  \/ exists m,
       Prisma.findUnique
         (fun m => (BoardMember.board_id m =? Board.id b)%string
                   && (BoardMember.user_id m =? userId)%string)
         (boardMembers db) = Some m
       /\ BoardMember.role m = "admin".

(** The user may be assigned tasks of the board: its owner or one of its
    members. *)
Definition assignable (b : Board.t) (assigneeId : string) (db : Db) : Prop :=
  Board.owner_id b = assigneeId
  \/ exists m,
       Prisma.findUnique
         (fun m => (BoardMember.board_id m =? Board.id b)%string
                   && (BoardMember.user_id m =? assigneeId)%string)
         (boardMembers db) = Some m.

(** The (task, user) pair is in the assignment table. *)
Definition assigned (taskId assigneeId : string) (db : Db) : Prop :=
  exists a,
    Prisma.findUnique
      (fun a => (TaskAssignee.task_id a =? taskId)%string
                && (TaskAssignee.user_id a =? assigneeId)%string)
      (taskAssignees db) = Some a.

(** [needle] occurs in [hay]. *)
Definition occursIn (needle hay : string) : Prop :=
  exists pre post, hay = pre ++ needle ++ post.

(** A field matches a search query when it contains the query, surrounding
    white space and letter case ignored. *)
Definition matchesQuery (query field : string) : Prop :=
  occursIn (Js.toLowerCase (Js.trim query)) (Js.toLowerCase field).

(** The characters that are not read as themselves in a [LIKE] pattern, and
    the texts free of them. *)
Definition plain_char (c : ascii) : bool :=
  negb (c =? "%")%char && negb (c =? "_")%char && negb (c =? "\")%char.

Fixpoint wildcardFree (s : string) : bool :=
  match s with
  | EmptyString => true
  | String c s' => plain_char c && wildcardFree s'
  end.

(** The e-mail address and the names of a user are ASCII text. *)
Definition asciiUser (u : userService.UserSummary) : bool :=
  Js.isAscii (userService.us_email u)
  && Js.isAscii (userService.us_first_name u)
  && Js.isAscii (userService.us_last_name u).

(** The position an element takes when another element of its scope moves
    from index [old] to index [new]. *)
Definition shiftWithin (old new p : Z) : Z :=
  if (old <? new) && ((old <? p) && (p <=? new)) then p - 1
  else if (new <? old) && ((new <=? p) && (p <? old)) then p + 1
  else p.

(** The lists after list [listId] of board [scope] moved from [old] to
    [new] (and was renamed, when a name was given). *)
Definition listsAfterReorder (listId scope : string) (name : option string)
  (old new : Z) (l : List_.t) : List_.t :=
  if (List_.id l =? listId)%string then
    List_.set_position new (listService.withName name l)
  else if (List_.board_id l =? scope)%string then
    List_.set_position (shiftWithin old new (List_.position l)) l
  else l.

(** The tasks after task [taskId] of list [scope] moved from [old] to [new]
    within its list. *)
Definition tasksAfterReorder (taskId scope : string) (old new : Z)
  (t : Task.t) : Task.t :=
  if (Task.id t =? taskId)%string then
    Task.set_position new (Task.set_list_id scope t)
  else if (Task.list_id t =? scope)%string then
    Task.set_position (shiftWithin old new (Task.position t)) t
  else t.

(** The tasks after task [taskId] moved from index [old] of list [source] to
    index [new] of another list [target]. *)
Definition tasksAfterTransfer (taskId source target : string) (old new : Z)
  (t : Task.t) : Task.t :=
  if (Task.id t =? taskId)%string then
    Task.set_position new (Task.set_list_id target t)
  else if (Task.list_id t =? source)%string && (old <? Task.position t) then
    Task.set_position (Task.position t - 1) t
  else if (Task.list_id t =? target)%string && (new <=? Task.position t) then
    Task.set_position (Task.position t + 1) t
  else t.

(** The position of a sibling after the element at index [old] left its
    scope and the gap was closed, and after an element was inserted at index
    [new] of its scope. *)
Definition closeGap (old p : Z) : Z := if old <? p then p - 1 else p.
Definition openGap (new p : Z) : Z := if new <=? p then p + 1 else p.

(** The operations that maintain positions; deleting a task is treated on
    its own. *)
Inductive Op : Type :=
| CreateList (newId boardId userId name : string)
| UpdateList (listId userId : string) (data : listService.UpdateListData)
| DeleteList (listId userId : string)
| CreateTask (newId userId : string) (data : taskService.CreateTaskData)
| MoveTask (taskId userId : string) (data : taskService.MoveTaskData).

Definition run (op : Op) : Async unit :=
  match op with
  | CreateList newId boardId userId name =>
      _ <- listService.createList newId boardId userId name ;; ret tt
  | UpdateList listId userId data =>
      _ <- listService.updateList listId userId data ;; ret tt
  | DeleteList listId userId => listService.deleteList listId userId
  | CreateTask newId userId data =>
      _ <- taskService.createTask newId userId data ;; ret tt
  | MoveTask taskId userId data =>
      _ <- taskService.moveTask taskId userId data ;; ret tt
  end.

(** The requested position is an index of the scope it addresses: one of the
    [n] indices of the scope the element stays in, or one of the [m + 1]
    insertion points of a list of [m] tasks the task moves into. *)
Definition validIndex (op : Op) (db : Db) : bool :=
  match op with
  | UpdateList listId _ data =>
      match listService.ul_position data,
            Prisma.findUnique (fun l => List_.id l =? listId)%string (lists db)
      with
      | Some new, Some l =>
          (0 <=? new)
          && (new <? Z.of_nat (List.length (listPositions (List_.board_id l) db)))
      | _, _ => true
      end
  | MoveTask taskId _ data =>
      match Prisma.findUnique (fun t => Task.id t =? taskId)%string (tasks db)
      with
      | Some t =>
          let new := taskService.mv_position data in
          let target := taskService.mv_list_id data in
          let n := Z.of_nat (List.length (taskPositions target db)) in
          if (Task.list_id t =? target)%string
          then (0 <=? new) && (new <? n)
          else (0 <=? new) && (new <=? n)
      | None => true
      end
  | _ => true
  end.

(* ------------------------------------------------------------------------- *)
(** ** More vocabulary: members and assignments *)

(** The membership row of a user on a board, and whether it makes the user
    an admin. *)
Definition memberRow (boardId userId : string) (db : Db)
  : option BoardMember.t :=
  Prisma.findUnique
    (fun m => (BoardMember.board_id m =? boardId)%string
              && (BoardMember.user_id m =? userId)%string)
    (boardMembers db).

Definition isAdmin (boardId userId : string) (db : Db) : bool :=
  match memberRow boardId userId db with
  | Some m => (BoardMember.role m =? "admin")%string
  | None => false
  end.

(** The store after [addMember] and after [removeMember] went through. *)
Definition addedMemberDb (newId boardId userId newMemberId role : string)
  (db : Db) : Db :=
  set_activityLogs
    (Prisma.create
       {| ActivityLog.board_id := boardId;
          ActivityLog.user_id := userId;
          ActivityLog.task_id := None;
          ActivityLog.action_type := "create";
          ActivityLog.entity_type := "board";
          ActivityLog.changes :=
            [("action", JString "member_added");
             ("member_id", JString newMemberId);
             ("role", JString role)] |})
    (set_boardMembers
       (Prisma.create (BoardMember.mk newId boardId newMemberId role)) db).

Definition removedMemberDb (boardId userId targetUserId : string)
  (member : BoardMember.t) (db : Db) : Db :=
  set_activityLogs
    (Prisma.create
       {| ActivityLog.board_id := boardId;
          ActivityLog.user_id := userId;
          ActivityLog.task_id := None;
          ActivityLog.action_type := "delete";
          ActivityLog.entity_type := "board";
          ActivityLog.changes :=
            [("action", JString "member_removed");
             ("member_id", JString targetUserId)] |})
    (set_boardMembers
       (Prisma.delete
          (fun m => BoardMember.id m =? BoardMember.id member)%string) db).

(** The assignment row of a user on a task. *)
Definition assignmentRow (taskId assigneeId : string) (db : Db)
  : option TaskAssignee.t :=
  Prisma.findUnique
    (fun a => (TaskAssignee.task_id a =? taskId)%string
              && (TaskAssignee.user_id a =? assigneeId)%string)
    (taskAssignees db).

(* ------------------------------------------------------------------------- *)
(** ** More vocabulary: sequences of operations *)

(** The identifier generated for a new row is not in use. *)
Definition freshIds (op : Op) (db : Db) : bool :=
  match op with
  | CreateList newId _ _ _ =>
      negb (existsb (String.eqb newId) (map List_.id (lists db)))
  | CreateTask newId _ _ =>
      negb (existsb (String.eqb newId) (map Task.id (tasks db)))
  | _ => true
  end.

(** The store after a sequence of operations. *)
Fixpoint runAll (ops : list Op) (db : Db) : Db :=
  match ops with
  | [] => db
  | op :: ops' => runAll ops' (after (run op) db)
  end.

(** Every operation of the sequence, at the time it runs, asks for a valid
    index and is given a fresh identifier. *)
Fixpoint admissible (ops : list Op) (db : Db) : bool :=
  match ops with
  | [] => true
  | op :: ops' =>
      validIndex op db && freshIds op db
      && admissible ops' (after (run op) db)
  end.

(* ------------------------------------------------------------------------- *)
(** ** More vocabulary: ordered results and pages *)

(** The keys are in ascending order. *)
Fixpoint ascending (ks : list Z) : Prop :=
  match ks with
  | [] => True
  | k :: ks' => (forall k', In k' ks' -> k <= k') /\ ascending ks'
  end.

(** The rows [findMany] returns for a page of an ordered result set, with
    the [skip] and [take] that [paginate] computes. *)
Definition pageOf {R : Type} (page limit : Z) (rows : list R)
  : Result (list R) :=
  window (pagination.skip (pagination.paginate page limit))
    (pagination.take (pagination.paginate page limit)) rows.

(** The indices 0, 1, ..., n-1. *)
Definition indices (n : nat) : list Z := map Z.of_nat (seq 0 n).

(* ------------------------------------------------------------------------- *)
(** ** More vocabulary: calls that touch boards and members *)

(** The calls that write to the board table's identifiers and owners or to
    the member table. *)
Definition changesAccess (req : Request) : bool :=
  match req with
  | ReqCreateBoard _ _ _ _ | ReqDeleteBoard _ _
  | ReqAddMember _ _ _ _ _ | ReqRemoveMember _ _ _ => true
  | _ => false
  end.

(* ------------------------------------------------------------------------- *)
(** ** More vocabulary: updates *)

(** Two stores hold the same rows in every table but the activity log. *)
Definition sameTables (db db' : Db) : Prop :=
  profiles db' = profiles db /\ boards db' = boards db
  /\ boardMembers db' = boardMembers db /\ lists db' = lists db
  /\ tasks db' = tasks db /\ taskAssignees db' = taskAssignees db.

(* ------------------------------------------------------------------------- *)
(** ** More vocabulary: the foreign keys *)

(** Every task is in a list of the store and every list on a board of the
    store, as the foreign keys of the two tables have it. *)
Definition linked (db : Db) : Prop :=
  (forall t, In t (tasks db) ->
     exists l, In l (lists db) /\ List_.id l = Task.list_id t)
  /\ (forall l, In l (lists db) ->
        exists b, In b (boards db) /\ Board.id b = List_.board_id l).

(** The calls that delete rows other tables refer to; what becomes of the
    referring rows is decided by the schema. *)
Definition cascades (req : Request) : bool :=
  match req with
  | ReqDeleteBoard _ _ | ReqDeleteList _ _ => true
  | _ => false
  end.


Definition linkedb (db : Db) : bool :=
  forallb (fun t =>
    existsb (fun l => List_.id l =? Task.list_id t)%string (lists db))
    (tasks db)
  && forallb (fun l =>
       existsb (fun b => Board.id b =? List_.board_id l)%string (boards db))
       (lists db).

(* ------------------------------------------------------------------------- *)
(** ** More vocabulary: the profiles a search is about *)

(** An active profile of another user that matches the query on its e-mail
    address, first name or last name. *)
Definition matchesProfile (query requesterId : string) (p : Profile.t)
  : bool :=
  let q := Js.toLowerCase (Js.trim query) in
  negb (Profile.id p =? requesterId)%string
  && Profile.is_active p
  && (Js.contains q (Js.toLowerCase (Profile.email p))
      || Js.contains q (Js.toLowerCase (Profile.first_name p))
      || Js.contains q (Js.toLowerCase (Profile.last_name p))).

(* ------------------------------------------------------------------------- *)
(** ** More vocabulary: the tasks a query is about *)



(* ------------------------------------------------------------------------- *)
(** ** More vocabulary: calls that delete what activity entries refer to *)

(** The calls that delete a board, a list or a task.  Activity entries refer
    to boards and tasks; what becomes of the entries of a deleted board or
    task is decided by the schema. *)
Definition deletesLoggedRows (req : Request) : bool :=
  match req with
  | ReqDeleteBoard _ _ | ReqDeleteList _ _ | ReqDeleteTask _ _ => true
  | _ => false
  end.

(* ------------------------------------------------------------------------- *)
(** ** Sample stores *)

Definition emptyDb : Db :=
  {| profiles := []; boards := []; boardMembers := []; lists := [];
     tasks := []; taskAssignees := []; activityLogs := [] |}.

Definition mkProfile (id first last mail : string) : Profile.t :=
  {| Profile.id := id; Profile.email := mail; Profile.first_name := first;
     Profile.last_name := last; Profile.avatar_url := None;
     Profile.is_active := true |}.

Definition mkTask (id title list : string) (pos : Z) : Task.t :=
  {| Task.id := id; Task.title := title; Task.description := None;
     Task.priority := "medium"; Task.due_date := None; Task.position := pos;
     Task.list_id := list; Task.created_by := "owner" |}.

(** Three users; a board of [owner] with its three default lists, [ed] as an
    editor; three tasks in the first list and one in the second. *)
Definition sampleDb : Db :=
  {| profiles :=
       [ mkProfile "owner" "Olivia" "Owner" "olivia@example.com";
         mkProfile "ed" "Edgar" "Editor" "edgar@example.com";
         mkProfile "al" "Alice" "Johnson" "alice@example.com" ];
     boards :=
       [ Board.mk "b1" "Board" None "#4472C4" "owner" false;
         Board.mk "b2" "Other" None "#4472C4" "al" false ];
     boardMembers := [ BoardMember.mk "m1" "b1" "ed" "editor" ];
     lists :=
       [ List_.mk "l0" "To Do" 0 "b1";
         List_.mk "l1" "In Progress" 1 "b1";
         List_.mk "l2" "Done" 2 "b1";
         List_.mk "x0" "To Do" 0 "b2" ];
     tasks :=
       [ mkTask "t0" "Write" "l0" 0;
         mkTask "t1" "Review" "l0" 1;
         mkTask "t2" "Ship" "l0" 2;
         mkTask "u0" "Plan" "l1" 0 ];
     taskAssignees := [ TaskAssignee.mk "a1" "t0" "ed" ];
     activityLogs := [] |}.

(** Rows of the sample store that the examples name. *)
Definition sampleBoard : Board.t :=
  Board.mk "b1" "Board" None "#4472C4" "owner" false.
Definition sampleList0 : List_.t := List_.mk "l0" "To Do" 0 "b1".
Definition sampleList1 : List_.t := List_.mk "l1" "In Progress" 1 "b1".
Definition sampleListX : List_.t := List_.mk "x0" "To Do" 0 "b2".

(* ------------------------------------------------------------------------- *)
(** ** Facts about lists of rows *)

Section ListFacts.
Context {A B : Type}.

Lemma NoDup_map_eq (f : A -> B) (l : list A) (x y : A) :
  NoDup (map f l) -> In x l -> In y l -> f x = f y -> x = y.
Proof.
  induction l as [|a l IH]; simpl; intros Hnd Hx Hy Hxy; [contradiction|].
  inversion Hnd as [|? ? Hnotin Hnd']; subst.
  destruct Hx as [->|Hx], Hy as [->|Hy]; auto.
  - exfalso. apply Hnotin. rewrite Hxy. now apply in_map.
  - exfalso. apply Hnotin. rewrite <- Hxy. now apply in_map.
Qed.

Lemma map_filter_agree (f : A -> B) (p : A -> bool) (q : B -> bool)
  (l : list A) :
  (forall r, In r l -> q (f r) = p r) ->
  map f (filter p l) = filter q (map f l).
Proof.
  induction l as [|a l IH]; simpl; intros H; [reflexivity|].
  rewrite (H a (or_introl eq_refl)).
  destruct (p a); simpl; rewrite IH; auto.
Qed.

Lemma filter_none (p : A -> bool) (l : list A) :
  (forall r, In r l -> p r = false) -> filter p l = [].
Proof.
  induction l as [|a l IH]; simpl; intros H; [reflexivity|].
  rewrite (H a (or_introl eq_refl)). apply IH. auto.
Qed.

Lemma filter_all (p : A -> bool) (l : list A) :
  (forall r, In r l -> p r = true) -> filter p l = l.
Proof.
  induction l as [|a l IH]; simpl; intros H; [reflexivity|].
  rewrite (H a (or_introl eq_refl)). f_equal. apply IH. auto.
Qed.

Lemma filter_comm (p q : A -> bool) (l : list A) :
  filter p (filter q l) = filter q (filter p l).
Proof.
  induction l as [|a l IH]; simpl; [reflexivity|].
  destruct (p a) eqn:Hp, (q a) eqn:Hq; simpl; rewrite ?Hp, ?Hq, IH;
    reflexivity.
Qed.

Lemma filter_andb (p q : A -> bool) (l : list A) :
  filter (fun r => p r && q r) l = filter p (filter q l).
Proof.
  induction l as [|a l IH]; simpl; [reflexivity|].
  destruct (p a) eqn:Hp, (q a) eqn:Hq; simpl; rewrite ?Hp, IH; reflexivity.
Qed.

Lemma filter_or_perm (p q : A -> bool) (l : list A) :
  (forall r, In r l -> p r = true -> q r = false) ->
  Permutation (filter (fun r => p r || q r) l) (filter q l ++ filter p l).
Proof.
  induction l as [|a l IH]; simpl; intros H; [constructor|].
  specialize (IH (fun r Hr => H r (or_intror Hr))).
  pose proof (H a (or_introl eq_refl)) as Ha.
  destruct (p a) eqn:Hp; simpl.
  - rewrite (Ha eq_refl). now apply Permutation_cons_app.
  - destruct (q a); simpl; [now constructor | exact IH].
Qed.

End ListFacts.

Section MaxBy.
Context {R : Type} (key : R -> Z).

Lemma maxBy_none (rows : list R) : Prisma.maxBy key rows = None -> rows = [].
Proof.
  destruct rows as [|r rows]; simpl; [reflexivity|].
  destruct (Prisma.maxBy key rows) as [m|]; [|discriminate].
  destruct (key m <? key r); discriminate.
Qed.

Lemma maxBy_some (rows : list R) (m : R) :
  Prisma.maxBy key rows = Some m ->
  In m rows /\ forall r, In r rows -> key r <= key m.
Proof.
  revert m. induction rows as [|a rows IH]; simpl; intros m H; [discriminate|].
  destruct (Prisma.maxBy key rows) as [m'|] eqn:E.
  - destruct (IH m' eq_refl) as [Hin Hmax].
    destruct (key m' <? key a) eqn:Hlt; inversion H; subst; clear H.
    + apply Z.ltb_lt in Hlt. split; [now left|].
      intros r [->|Hr]; [lia|]. specialize (Hmax r Hr). lia.
    + apply Z.ltb_ge in Hlt. split; [now right|].
      intros r [->|Hr]; [lia|]. now apply Hmax.
  - apply maxBy_none in E. subst rows. inversion H; subst.
    split; [now left|]. intros r [->|[]]. lia.
Qed.

End MaxBy.

(* ------------------------------------------------------------------------- *)
(** ** Facts about dense position lists *)

Lemma bounded_NoDup_dense (ps : list Z) :
  NoDup ps ->
  (forall p, In p ps -> 0 <= p < Z.of_nat (List.length ps)) ->
  dense ps.
Proof.
  intros Hnd Hb. split; [exact Hnd|]. intros p. split; [apply Hb|].
  intros Hp.
  assert (Hincl : incl (map Z.of_nat (seq 0 (List.length ps))) ps).
  { apply NoDup_length_incl; [exact Hnd | |].
    - rewrite length_map, length_seq. apply Nat.le_refl.
    - intros q Hq. specialize (Hb q Hq). apply in_map_iff.
      exists (Z.to_nat q). split; [lia|]. apply in_seq. lia. }
  apply Hincl. apply in_map_iff. exists (Z.to_nat p).
  split; [lia|]. apply in_seq. lia.
Qed.

Lemma distinctZ_NoDup (ps : list Z) : distinctZ ps = true <-> NoDup ps.
Proof.
  induction ps as [|p ps IH]; simpl.
  - split; [constructor | reflexivity].
  - rewrite andb_true_iff, negb_true_iff, IH. split.
    + intros [Hex Hnd]. constructor; [|exact Hnd]. intros Hin.
      assert (existsb (Z.eqb p) ps = true) as E; [|congruence].
      apply existsb_exists. exists p. split; [exact Hin | apply Z.eqb_refl].
    + intros Hnd. inversion Hnd as [|? ? Hnotin Hnd']; subst.
      split; [|exact Hnd'].
      destruct (existsb (Z.eqb p) ps) eqn:E; [|reflexivity].
      apply existsb_exists in E. destruct E as [q [Hq Heq]].
      apply Z.eqb_eq in Heq. subst q. contradiction.
Qed.

Lemma distinct_NoDup (xs : list string) : distinct xs = true <-> NoDup xs.
Proof.
  induction xs as [|x xs IH]; simpl.
  - split; [constructor | reflexivity].
  - rewrite andb_true_iff, negb_true_iff, IH. split.
    + intros [Hex Hnd]. constructor; [|exact Hnd]. intros Hin.
      assert (existsb (String.eqb x) xs = true) as E; [|congruence].
      apply existsb_exists. exists x. split; [exact Hin | apply String.eqb_refl].
    + intros Hnd. inversion Hnd as [|? ? Hnotin Hnd']; subst.
      split; [|exact Hnd'].
      destruct (existsb (String.eqb x) xs) eqn:E; [|reflexivity].
      apply existsb_exists in E. destruct E as [y [Hy Heq]].
      apply String.eqb_eq in Heq. subst y. contradiction.
Qed.

Lemma denseb_dense (ps : list Z) : denseb ps = true <-> dense ps.
Proof.
  unfold denseb. rewrite andb_true_iff, distinctZ_NoDup, forallb_forall.
  split.
  - intros [Hnd Hb]. apply bounded_NoDup_dense; [exact Hnd|].
    intros p Hp. specialize (Hb p Hp). lia.
  - intros [Hnd Hd]. split; [exact Hnd|]. intros p Hp.
    apply Hd in Hp. lia.
Qed.

Lemma dense_nil : dense [].
Proof. apply denseb_dense. reflexivity. Qed.

Lemma dense_perm (ps qs : list Z) : Permutation ps qs -> dense ps -> dense qs.
Proof.
  intros HP [Hnd Hd]. split; [eapply Permutation_NoDup; eauto|].
  intros p. rewrite <- (Permutation_length HP), <- Hd.
  split; apply Permutation_in; [now apply Permutation_sym | exact HP].
Qed.

(** Re-indexing a dense scope by a map that is injective on the indices and
    keeps them in range leaves it dense. *)
Lemma dense_map (g : Z -> Z) (ps : list Z) :
  dense ps ->
  (forall p, In p ps -> 0 <= g p < Z.of_nat (List.length ps)) ->
  (forall p q, In p ps -> In q ps -> g p = g q -> p = q) ->
  dense (map g ps).
Proof.
  intros [Hnd Hd] Hrange Hinj. apply bounded_NoDup_dense.
  - now apply Finite.Injective_map_NoDup_in.
  - intros p Hp. rewrite length_map. apply in_map_iff in Hp.
    destruct Hp as [q [<- Hq]]. now apply Hrange.
Qed.

Lemma dense_shiftWithin (old new : Z) (ps : list Z) :
  dense ps ->
  0 <= old < Z.of_nat (List.length ps) ->
  0 <= new < Z.of_nat (List.length ps) ->
  dense (map (fun p => if p =? old then new else shiftWithin old new p) ps).
Proof.
  intros Hd Ho Hn. apply dense_map; [exact Hd | |].
  - intros p Hp. apply Hd in Hp. unfold shiftWithin.
    destruct (Z.eqb_spec p old); [lia|].
    destruct (Z.ltb_spec old new), (Z.ltb_spec old p), (Z.leb_spec p new),
      (Z.ltb_spec new old), (Z.leb_spec new p), (Z.ltb_spec p old);
      simpl; lia.
  - intros p q Hp Hq. apply Hd in Hp. apply Hd in Hq. unfold shiftWithin.
    destruct (Z.eqb_spec p old), (Z.eqb_spec q old);
    destruct (Z.ltb_spec old new), (Z.ltb_spec new old); try lia;
    destruct (Z.ltb_spec old p), (Z.leb_spec p new),
      (Z.leb_spec new p), (Z.ltb_spec p old); try lia;
    destruct (Z.ltb_spec old q), (Z.leb_spec q new),
      (Z.leb_spec new q), (Z.ltb_spec q old); simpl; lia.
Qed.

Lemma NoDup_remove_perm (old : Z) (ps : list Z) :
  NoDup ps -> In old ps ->
  Permutation ps (old :: filter (fun p => negb (p =? old)) ps).
Proof.
  induction ps as [|a ps IH]; simpl; intros Hnd Hin; [contradiction|].
  inversion Hnd as [|? ? Hnotin Hnd']; subst.
  destruct (a =? old) eqn:E; simpl.
  - apply Z.eqb_eq in E. subst a. constructor.
    rewrite filter_all; [reflexivity|].
    intros r Hr. apply negb_true_iff, Z.eqb_neq. intros ->. contradiction.
  - apply Z.eqb_neq in E. destruct Hin as [Hin|Hin]; [contradiction|].
    eapply perm_trans; [apply perm_skip, IH; assumption | apply perm_swap].
Qed.

Lemma dense_closeGap (old : Z) (ps : list Z) :
  dense ps -> In old ps ->
  dense (map (closeGap old) (filter (fun p => negb (p =? old)) ps)).
Proof.
  intros [Hnd Hd] Hin.
  pose proof (Permutation_length (NoDup_remove_perm old ps Hnd Hin)) as Hlen.
  simpl in Hlen.
  assert (Hmem : forall p, In p (filter (fun p => negb (p =? old)) ps) ->
                           p <> old /\ 0 <= p < Z.of_nat (List.length ps)).
  { intros p Hp. apply filter_In in Hp. destruct Hp as [Hp Hne].
    apply negb_true_iff, Z.eqb_neq in Hne. apply Hd in Hp. tauto. }
  apply Hd in Hin.
  apply bounded_NoDup_dense.
  - apply Finite.Injective_map_NoDup_in; [|now apply NoDup_filter].
    intros p q Hp Hq. apply Hmem in Hp. apply Hmem in Hq. unfold closeGap.
    destruct (old <? p) eqn:E1, (old <? q) eqn:E2; lia.
  - intros p Hp. rewrite length_map. apply in_map_iff in Hp.
    destruct Hp as [q [<- Hq]]. apply Hmem in Hq. unfold closeGap.
    destruct (old <? q) eqn:E; lia.
Qed.

Lemma dense_openGap (new : Z) (ps : list Z) :
  dense ps -> 0 <= new <= Z.of_nat (List.length ps) ->
  dense (new :: map (openGap new) ps).
Proof.
  intros [Hnd Hd] Hn. apply bounded_NoDup_dense.
  - constructor.
    + intros Hin. apply in_map_iff in Hin. destruct Hin as [p [Hp _]].
      unfold openGap in Hp. destruct (new <=? p) eqn:E; lia.
    + apply Finite.Injective_map_NoDup_in; [|exact Hnd].
      intros p q _ _. unfold openGap.
      destruct (new <=? p) eqn:E1, (new <=? q) eqn:E2; lia.
  - simpl List.length. rewrite length_map. intros p [<-|Hp]; [lia|].
    apply in_map_iff in Hp. destruct Hp as [q [<- Hq]]. apply Hd in Hq.
    unfold openGap. destruct (new <=? q) eqn:E; lia.
Qed.

Lemma dense_append (ps : list Z) :
  dense ps -> dense (ps ++ [Z.of_nat (List.length ps)])%list.
Proof.
  intros Hd. apply dense_perm with (Z.of_nat (List.length ps) :: ps).
  - change (Z.of_nat (List.length ps) :: ps)
      with ([Z.of_nat (List.length ps)] ++ ps)%list.
    apply Permutation_app_comm.
  - assert (map (openGap (Z.of_nat (List.length ps))) ps = ps) as E.
    { rewrite <- (map_id ps) at 3. apply map_ext_in. intros p Hp.
      apply Hd in Hp. unfold openGap.
      destruct (Z.of_nat (List.length ps) <=? p) eqn:E; lia. }
    rewrite <- E at 2. apply dense_openGap; [exact Hd | lia].
Qed.

(** In a dense scope the greatest position is the last index. *)
Lemma dense_max (ps : list Z) (m : Z) :
  dense ps -> In m ps -> (forall p, In p ps -> p <= m) ->
  m + 1 = Z.of_nat (List.length ps).
Proof.
  intros [_ Hd] Hm Hmax. apply Hd in Hm.
  assert (In (Z.of_nat (List.length ps) - 1) ps) as Hlast by (apply Hd; lia).
  apply Hmax in Hlast. lia.
Qed.

(* ------------------------------------------------------------------------- *)
(** ** Running service code *)

Ltac run_async :=
  unfold outcome, after, bind, gets, modify, orThrow, throwIf, throw, ret,
    transaction, logActivity, Prisma.findUnique in *; simpl in *.

Lemma failsWith_createError {A : Type} (status : Z) (c msg : string) :
  c <> "" -> failsWith (A := A) c (Threw (createError status c msg)).
Proof.
  intros Hc. exists (createError status c msg). split; [reflexivity|].
  simpl. apply String.eqb_neq in Hc. now rewrite Hc.
Qed.

Lemma failsWith_inv {A : Type} (c : string) (e : AppError) :
  failsWith (A := A) c (Threw e) -> snd (errorHandler e) = c.
Proof. intros [e' [He Hc]]. now inversion He; subst. Qed.

Ltac fails_now := apply failsWith_createError; discriminate.

Lemma bind_ok {A B : Type} (m : Async A) (k : A -> Async B) (db db' : Db)
  (a : A) :
  m db = (Ok a, db') -> bind m k db = k a db'.
Proof. intros H. unfold bind. now rewrite H. Qed.

Lemma includes_In (xs : list string) (x : string) :
  Js.includes xs x = true <-> In x xs.
Proof.
  unfold Js.includes. rewrite existsb_exists. split.
  - intros [y [Hy E]]. apply String.eqb_eq in E. now subst.
  - intros H. exists x. split; [exact H | apply String.eqb_refl].
Qed.

(* ------------------------------------------------------------------------- *)
(** ** The services on small inputs *)

Example trim_example :
  Js.trim "  To Do  " = "To Do" /\ Js.trim "   " = "" /\ Js.trim "a b" = "a b".
Proof. repeat split. Qed.

Example toLowerCase_example : Js.toLowerCase "Alice@Example.COM" = "alice@example.com".
Proof. reflexivity. Qed.

(** The life of a board in the design document: a new board has its three
    lists at 0, 1, 2; a fourth list "X" is created at 3; deleting the list at
    position 1 re-indexes the rest to 0, 1, 2, with "X" at 2. *)
Example board_lifecycle_example :
  let db1 :=
    after (boardService.createBoard "b" ("i0", "i1", "i2") "o"
             (boardService.mkCreateBoardData "B" None None)) emptyDb in
  let db2 := after (listService.createList "x" "b" "o" "X") db1 in
  let db3 := after (listService.deleteList "i1" "o") db2 in
  map (fun l => (List_.name l, List_.position l)) (lists db1)
  = [("To Do", 0); ("In Progress", 1); ("Done", 2)]
  /\ outcome (listService.createList "x" "b" "o" "X") db1
     = Ok (List_.mk "x" "X" 3 "b")
  /\ map (fun l => (List_.name l, List_.position l)) (lists db3)
     = [("To Do", 0); ("Done", 1); ("X", 2)].
Proof. repeat split. Qed.

(** Moving a task down its list, and to the head of another list. *)
Example moveTask_example :
  map (fun t => (Task.id t, Task.list_id t, Task.position t))
    (tasks (after (taskService.moveTask "t0" "owner"
                     (taskService.mkMoveTaskData "l0" 2)) sampleDb))
  = [("t0", "l0", 2); ("t1", "l0", 0); ("t2", "l0", 1); ("u0", "l1", 0)]
  /\ map (fun t => (Task.id t, Task.list_id t, Task.position t))
       (tasks (after (taskService.moveTask "t0" "owner"
                        (taskService.mkMoveTaskData "l1" 0)) sampleDb))
     = [("t0", "l1", 0); ("t1", "l0", 0); ("t2", "l0", 1); ("u0", "l1", 1)].
Proof. split; reflexivity. Qed.

(* ------------------------------------------------------------------------- *)
(** ** The authorization gate *)

(** The guard that comes first: a request that carries no user is answered
    BAD_REQUEST before the board is looked up.  The routes put the
    authentication middleware in front of the gate, so that a request that
    reaches the gate carries a user. *)
Lemma authorize_missing_user_not_NOT_FOUND :
  Prisma.findUnique (fun b => Board.id b =? "b9")%string (boards sampleDb) = None
  /\ outcome (authorize [] (Some "b9") None) sampleDb
     = Threw (createError 400 "BAD_REQUEST" "Missing board ID or user ID")
  /\ ~ failsWith "NOT_FOUND" (outcome (authorize [] (Some "b9") None) sampleDb).
Proof.
  split; [reflexivity|]. split; [reflexivity|].
  intros H. apply failsWith_inv in H. discriminate.
Qed.

(** C5: for a call that carries a board id and a user id: a missing board
    gives NOT_FOUND; the board's owner is let through whatever the required roles
    and whether or not a membership row exists; any other user without a
    membership row gets FORBIDDEN; a member whose role is not among the
    non-empty required roles gets FORBIDDEN; every other member is let
    through.  (A call that lacks the board id or the user id is answered
    BAD_REQUEST.)  The gate never writes to the store. *)
Theorem authorize_decision (allowedRoles : list string)
  (boardId userId : option string) (db : Db) :
  let r := outcome (authorize allowedRoles boardId userId) db in
  after (authorize allowedRoles boardId userId) db = db
  /\ (Js.truthy boardId = false \/ Js.truthy userId = false ->
      failsWith "BAD_REQUEST" r)
  /\ forall bid uid,
       boardId = Some bid -> userId = Some uid -> bid <> "" -> uid <> "" ->
       let board :=
         Prisma.findUnique (fun b => Board.id b =? bid)%string (boards db) in
       let member :=
         Prisma.findUnique
           (fun m => (BoardMember.board_id m =? bid)%string
                     && (BoardMember.user_id m =? uid)%string)
           (boardMembers db) in
       (board = None -> failsWith "NOT_FOUND" r)
       /\ (forall b, board = Some b -> Board.owner_id b = uid -> r = Ok tt)
       /\ (forall b, board = Some b -> Board.owner_id b <> uid ->
           member = None -> failsWith "FORBIDDEN" r)
       /\ (forall b m, board = Some b -> Board.owner_id b <> uid ->
           member = Some m -> allowedRoles <> [] ->
           ~ In (BoardMember.role m) allowedRoles -> failsWith "FORBIDDEN" r)
       /\ (forall b m, board = Some b -> Board.owner_id b <> uid ->
           member = Some m ->
           allowedRoles = [] \/ In (BoardMember.role m) allowedRoles ->
           r = Ok tt).
Proof.
  intros r. subst r. split; [|split].
  - unfold authorize.
    destruct (negb (Js.truthy boardId) || negb (Js.truthy userId));
      [reflexivity|].
    run_async.
    destruct (find _ (boards db)) as [b|]; [|reflexivity]. simpl.
    destruct (Board.owner_id b =? _)%string; [reflexivity|]. simpl.
    destruct (find _ (boardMembers db)) as [m|]; [|reflexivity]. simpl.
    destruct (_ && _); reflexivity.
  - intros H. unfold authorize, outcome.
    replace (negb (Js.truthy boardId) || negb (Js.truthy userId)) with true
      by (destruct H as [-> | ->]; simpl; now rewrite ?orb_true_r).
    fails_now.
  - intros bid uid -> -> Hb Hu board member.
    apply String.eqb_neq in Hb, Hu.
    unfold authorize, Js.truthy. rewrite Hb, Hu. subst board member.
    run_async.
    destruct (find _ (boards db)) as [b|]; simpl.
    2:{ split; [intros _; fails_now|].
        repeat split; intros; discriminate. }
    split; [discriminate|].
    destruct (String.eqb_spec (Board.owner_id b) uid) as [Hown|Hown]; simpl.
    { split; [reflexivity|].
      repeat split; intros ? ? ? Hne; inversion H; subst; contradiction. }
    split; [intros ? H; inversion H; subst; contradiction|].
    destruct (find _ (boardMembers db)) as [m|]; simpl.
    2:{ split; [intros; fails_now|].
        split; intros; discriminate. }
    split; [discriminate|].
    destruct (Js.includes allowedRoles (BoardMember.role m)) eqn:Hinc.
    + apply includes_In in Hinc. rewrite andb_false_r. simpl. split.
      * intros ? ? _ _ H _ Hnot. inversion H; subst. contradiction.
      * reflexivity.
    + assert (~ In (BoardMember.role m) allowedRoles) as Hnot.
      { rewrite <- includes_In. congruence. }
      destruct allowedRoles as [|a roles]; simpl.
      * split; [intros ? ? _ _ _ Hne; contradiction | reflexivity].
      * split; [intros; fails_now|].
        intros ? ? _ _ H [Hnil|Hin]; [discriminate|].
        inversion H; subst. contradiction.
Qed.

(* ------------------------------------------------------------------------- *)
(** ** Member management *)

Lemma findUnique_board_id (boardId : string) (db : Db) (b : Board.t) :
  Prisma.findUnique (fun b => Board.id b =? boardId)%string (boards db) = Some b ->
  Board.id b = boardId.
Proof.
  intros H. apply find_some in H. destruct H as [_ H].
  now apply String.eqb_eq in H.
Qed.

Lemma requireAdmin_spec (b : Board.t) (userId : string) (e : AppError)
  (db : Db) :
  userId <> Board.owner_id b ->
  boardService.requireAdmin (Board.id b) userId e db
  = ((if match Prisma.findUnique
               (fun m => (BoardMember.board_id m =? Board.id b)%string
                         && (BoardMember.user_id m =? userId)%string)
               (boardMembers db) with
         | Some m => (BoardMember.role m =? "admin")%string
         | None => false
         end then Ok tt else Threw e), db)
  /\ (canManageMembers b userId db <->
      match Prisma.findUnique
              (fun m => (BoardMember.board_id m =? Board.id b)%string
                        && (BoardMember.user_id m =? userId)%string)
              (boardMembers db) with
      | Some m => (BoardMember.role m =? "admin")%string
      | None => false
      end = true).
Proof.
  intros Hne. unfold boardService.requireAdmin, canManageMembers. run_async.
  destruct (find _ (boardMembers db)) as [m|]; simpl.
  - destruct (String.eqb_spec (BoardMember.role m) "admin") as [Hr|Hr]; simpl.
    + split; [reflexivity|]. split; [reflexivity|].
      intros _. right. exists m. now split.
    + split; [reflexivity|]. split; [|discriminate].
      intros [H|[m' [H1 H2]]]; [contradiction|].
      inversion H1; subst. contradiction.
  - split; [reflexivity|]. split; [|discriminate].
    intros [H|[m' [H1 _]]]; [contradiction | discriminate].
Qed.

(** C8, as stated, fails: an editor who asks to remove the owner is turned
    away with FORBIDDEN by the permission check that comes first, not with
    BAD_REQUEST. *)
Lemma removeMember_owner_by_editor_FORBIDDEN :
  option_map Board.owner_id
    (Prisma.findUnique (fun b => Board.id b =? "b1")%string (boards sampleDb))
  = Some "owner"
  /\ outcome (boardService.removeMember "b1" "ed" "owner") sampleDb
     = Threw (createError 403 "FORBIDDEN"
                "Insufficient permissions to remove members")
  /\ ~ failsWith "BAD_REQUEST"
         (outcome (boardService.removeMember "b1" "ed" "owner") sampleDb).
Proof.
  split; [reflexivity|]. split; [reflexivity|].
  intros H. apply failsWith_inv in H. discriminate.
Qed.

(** C8 (amended): on an existing board, [removeMember] aimed at the owner and
    [addMember] naming the owner always fail and leave the store, hence the
    member set, unchanged.  The failure is BAD_REQUEST when the requester is
    the owner or an admin of the board (for [addMember], given that the
    owner's profile exists) and FORBIDDEN when the requester is neither. *)
Theorem owner_is_never_a_member_row (boardId userId : string) (db : Db)
  (b : Board.t) :
  Prisma.findUnique (fun b => Board.id b =? boardId)%string (boards db) = Some b ->
  let owner := Board.owner_id b in
  (let m := boardService.removeMember boardId userId owner in
   after m db = db
   /\ (canManageMembers b userId db -> failsWith "BAD_REQUEST" (outcome m db))
   /\ (~ canManageMembers b userId db -> failsWith "FORBIDDEN" (outcome m db)))
  /\ (forall newId role,
        let m := boardService.addMember newId boardId userId owner role in
        after m db = db
        /\ (exists e, outcome m db = Threw e)
        /\ (canManageMembers b userId db ->
            (exists p, In p (profiles db) /\ Profile.id p = owner) ->
            failsWith "BAD_REQUEST" (outcome m db))
        /\ (~ canManageMembers b userId db ->
            failsWith "FORBIDDEN" (outcome m db))).
Proof.
  intros Hb owner. pose proof (findUnique_board_id _ _ _ Hb) as Hid.
  subst boardId. subst owner. split.
  - unfold boardService.removeMember. run_async. rewrite Hb. simpl.
    destruct (String.eqb_spec (Board.owner_id b) userId) as [Hu|Hu]; simpl.
    + rewrite String.eqb_refl. simpl. split; [reflexivity|].
      split; [intros _; fails_now|].
      intros H. exfalso. apply H. left. auto.
    + assert (userId <> Board.owner_id b) as Hu' by auto.
      apply String.eqb_neq in Hu'. rewrite Hu'. simpl.
      apply String.eqb_neq in Hu'.
      destruct (requireAdmin_spec b userId
                  (createError 403 "FORBIDDEN"
                     "Insufficient permissions to remove members") db Hu')
        as [E Hiff].
      run_async. rewrite E. clear E.
      destruct (match find _ (boardMembers db) with
                | Some m => _ | None => false end).
      * simpl. rewrite String.eqb_refl. simpl. split; [reflexivity|].
        split; [intros _; fails_now|].
        intros H. exfalso. apply H, Hiff. reflexivity.
      * split; [reflexivity|]. split; [|intros _; fails_now].
        intros H. apply Hiff in H. discriminate.
  - intros newId role. unfold boardService.addMember. run_async.
    rewrite Hb. simpl.
    destruct (String.eqb_spec (Board.owner_id b) userId) as [Hu|Hu]; simpl.
    + destruct (find _ (profiles db)) as [p|] eqn:Hp; simpl.
      * rewrite String.eqb_refl. simpl. split; [reflexivity|].
        split; [eexists; reflexivity|].
        split; [intros _ _; fails_now|].
        intros H. exfalso. apply H. left. auto.
      * split; [reflexivity|]. split; [eexists; reflexivity|]. split.
        -- intros _ [p [Hin Hpid]]. exfalso.
           pose proof (find_none _ _ Hp p Hin) as Hf. simpl in Hf.
           apply String.eqb_neq in Hf. contradiction.
        -- intros H. exfalso. apply H. left. auto.
    + assert (userId <> Board.owner_id b) as Hu' by auto.
      destruct (requireAdmin_spec b userId
                  (createError 403 "FORBIDDEN"
                     "Only the owner or admin can add members") db Hu')
        as [E Hiff].
      run_async. rewrite E. clear E.
      destruct (match find _ (boardMembers db) with
                | Some m => _ | None => false end).
      * simpl. destruct (find _ (profiles db)) as [p|] eqn:Hp; simpl.
        -- rewrite String.eqb_refl. simpl. split; [reflexivity|].
           split; [eexists; reflexivity|].
           split; [intros _ _; fails_now|].
           intros H. exfalso. apply H, Hiff. reflexivity.
        -- split; [reflexivity|]. split; [eexists; reflexivity|]. split.
           ++ intros _ [p [Hin Hpid]]. exfalso.
              pose proof (find_none _ _ Hp p Hin) as Hf. simpl in Hf.
              apply String.eqb_neq in Hf. contradiction.
           ++ intros H. exfalso. apply H, Hiff. reflexivity.
      * split; [reflexivity|]. split; [eexists; reflexivity|].
        split; [|intros _; fails_now].
        intros H. apply Hiff in H. discriminate.
Qed.

(* ------------------------------------------------------------------------- *)
(** ** Task assignment *)

Lemma findTaskWithList_found (taskId : string) (db : Db) (task : Task.t)
  (list : List_.t) :
  Prisma.findUnique (fun t => Task.id t =? taskId)%string (tasks db) = Some task ->
  Prisma.findUnique (fun l => List_.id l =? Task.list_id task)%string (lists db)
  = Some list ->
  taskService.findTaskWithList taskId db = (Ok (task, list), db).
Proof.
  intros Ht Hl. unfold taskService.findTaskWithList. run_async.
  rewrite Ht. simpl. rewrite Hl. reflexivity.
Qed.

(** C7, as stated, fails: a user who was assigned to a task and then removed
    from the board is still in the assignment table, and assigning the same
    pair again is answered BAD_REQUEST by the membership check that comes
    first, not CONFLICT. *)
Lemma assignUser_former_member_not_CONFLICT :
  let db1 := after (taskService.assignUser "a2" "t1" "owner" "ed") sampleDb in
  let db2 := after (boardService.removeMember "b1" "owner" "ed") db1 in
  outcome (taskService.assignUser "a2" "t1" "owner" "ed") sampleDb
  = Ok (TaskAssignee.mk "a2" "t1" "ed")
  /\ outcome (boardService.removeMember "b1" "owner" "ed") db1 = Ok tt
  /\ assigned "t1" "ed" db2
  /\ outcome (taskService.assignUser "a3" "t1" "owner" "ed") db2
     = Threw (createError 400 "BAD_REQUEST" "User is not a member of this board")
  /\ ~ failsWith "CONFLICT"
         (outcome (taskService.assignUser "a3" "t1" "owner" "ed") db2).
Proof.
  split; [reflexivity|]. split; [reflexivity|].
  split; [eexists; reflexivity|]. split; [reflexivity|].
  intros H. apply failsWith_inv in H. discriminate.
Qed.

(** C7 (amended): for a task of a board, [assignUser] of a user who is
    neither the board's owner nor one of its members fails with BAD_REQUEST;
    [assignUser] of an owner or member who is already assigned to the task
    fails with CONFLICT; [unassignUser] of a pair that is not assigned fails
    with NOT_FOUND.  None of the three changes the store, so no assignment is
    created or removed. *)
Theorem assignment_errors (newId taskId userId assigneeId : string) (db : Db)
  (task : Task.t) (list : List_.t) (board : Board.t) :
  Prisma.findUnique (fun t => Task.id t =? taskId)%string (tasks db) = Some task ->
  Prisma.findUnique (fun l => List_.id l =? Task.list_id task)%string (lists db)
  = Some list ->
  Prisma.findUnique (fun b => Board.id b =? List_.board_id list)%string (boards db)
  = Some board ->
  let assign := taskService.assignUser newId taskId userId assigneeId in
  let unassign := taskService.unassignUser taskId userId assigneeId in
  (~ assignable board assigneeId db ->
   failsWith "BAD_REQUEST" (outcome assign db) /\ after assign db = db)
  /\ (assignable board assigneeId db -> assigned taskId assigneeId db ->
      failsWith "CONFLICT" (outcome assign db) /\ after assign db = db)
  /\ (~ assigned taskId assigneeId db ->
      failsWith "NOT_FOUND" (outcome unassign db) /\ after unassign db = db).
Proof.
  intros Ht Hl Hb assign unassign. subst assign unassign.
  pose proof (findTaskWithList_found _ _ _ _ Ht Hl) as Hfound.
  pose proof (findUnique_board_id _ _ _ Hb) as Hbid.
  unfold assignable, assigned. rewrite Hbid.
  unfold outcome, after, taskService.assignUser, taskService.unassignUser.
  rewrite !(bind_ok _ _ _ _ _ Hfound).
  run_async. rewrite Hb. simpl.
  destruct (String.eqb_spec (Board.owner_id board) assigneeId) as [Ho|Ho];
    simpl;
    destruct (find _ (boardMembers db)) as [m|] eqn:Hm; simpl;
    destruct (find _ (taskAssignees db)) as [a|] eqn:Ha; simpl;
    (split; [intros Hna | split; [intros Hal [a' Ha'] | intros Hna]]);
    try discriminate;
    try (split; [fails_now | reflexivity]);
    try (exfalso; apply Hna;
         solve [now left | right; eexists; reflexivity | eexists; reflexivity]);
    try (exfalso; destruct Hal as [Hal|[m' Hal]];
         [contradiction | discriminate]).
Qed.

(* ------------------------------------------------------------------------- *)
(** ** Moving a task to another board *)

Lemma moveTask_rejects_other_board (taskId userId : string)
  (data : taskService.MoveTaskData) (db : Db) (task : Task.t)
  (list targetList : List_.t) :
  Prisma.findUnique (fun t => Task.id t =? taskId)%string (tasks db) = Some task ->
  Prisma.findUnique (fun l => List_.id l =? Task.list_id task)%string (lists db)
  = Some list ->
  Prisma.findUnique
    (fun l => List_.id l =? taskService.mv_list_id data)%string (lists db)
  = Some targetList ->
  List_.board_id targetList <> List_.board_id list ->
  taskService.moveTask taskId userId data db
  = (Threw (createError 400 "BAD_REQUEST"
              "Cannot move task to a list on a different board"), db).
Proof.
  intros Ht Hl Htl Hne.
  pose proof (findTaskWithList_found _ _ _ _ Ht Hl) as Hfound.
  unfold taskService.moveTask.
  rewrite (bind_ok _ _ _ _ _ Hfound).
  apply String.eqb_neq in Hne.
  run_async. rewrite Htl. simpl. now rewrite Hne.
Qed.

(** C10: when the target list of a move exists but lies on another board than
    the task's current list, [moveTask] fails with BAD_REQUEST and the store
    is as it was: no position was updated and every task has the list and
    the position it had. *)
Theorem moveTask_other_board_rejected (taskId userId : string)
  (data : taskService.MoveTaskData) (db : Db) (task : Task.t)
  (list targetList : List_.t) :
  Prisma.findUnique (fun t => Task.id t =? taskId)%string (tasks db) = Some task ->
  Prisma.findUnique (fun l => List_.id l =? Task.list_id task)%string (lists db)
  = Some list ->
  Prisma.findUnique
    (fun l => List_.id l =? taskService.mv_list_id data)%string (lists db)
  = Some targetList ->
  List_.board_id targetList <> List_.board_id list ->
  failsWith "BAD_REQUEST" (outcome (taskService.moveTask taskId userId data) db)
  /\ after (taskService.moveTask taskId userId data) db = db
  /\ tasks (after (taskService.moveTask taskId userId data) db) = tasks db.
Proof.
  intros Ht Hl Htl Hne. unfold outcome, after.
  rewrite (moveTask_rejects_other_board _ _ _ _ _ _ _ Ht Hl Htl Hne). simpl.
  split; [fails_now | split; reflexivity].
Qed.

(* ------------------------------------------------------------------------- *)
(** ** Creating a board *)

(** C6: a board is always created, and with exactly three lists, "To Do",
    "In Progress" and "Done", at positions 0, 1 and 2: these are the lists
    returned with the board, and the only lists the store holds for it.  The
    hypothesis says the generated board identifier is new: no list refers to
    it yet. *)
Theorem createBoard_default_lists (newId id0 id1 id2 userId : string)
  (data : boardService.CreateBoardData) (db : Db) :
  (forall l, In l (lists db) -> List_.board_id l <> newId) ->
  let m := boardService.createBoard newId (id0, id1, id2) userId data in
  let seeded :=
    [ List_.mk id0 "To Do" 0 newId;
      List_.mk id1 "In Progress" 1 newId;
      List_.mk id2 "Done" 2 newId ] in
  (exists board,
     outcome m db = Ok (board, seeded)
     /\ Board.id board = newId /\ Board.owner_id board = userId)
  /\ filter (fun l => List_.board_id l =? newId)%string (lists (after m db))
     = seeded
  /\ listPositions newId (after m db) = [0; 1; 2].
Proof.
  intros Hfresh m seeded. subst m seeded.
  assert (filter (fun l => List_.board_id l =? newId)%string (lists db) = [])
    as Hnone.
  { apply filter_none. intros l Hl. apply String.eqb_neq. now apply Hfresh. }
  unfold boardService.createBoard, listPositions, positionsIn. run_async.
  unfold Prisma.createMany. rewrite !filter_app, !Hnone. simpl.
  rewrite !String.eqb_refl. simpl.
  split; [|split; reflexivity].
  eexists. split; [reflexivity|]. split; reflexivity.
Qed.

(* ------------------------------------------------------------------------- *)
(** ** Searching users *)

Lemma lower_char_idem (c : ascii) :
  Js.lower_char (Js.lower_char c) = Js.lower_char c.
Proof.
  destruct c as [[] [] [] [] [] [] [] []]; vm_compute; reflexivity.
Qed.

Lemma toLowerCase_idem (s : string) :
  Js.toLowerCase (Js.toLowerCase s) = Js.toLowerCase s.
Proof.
  induction s as [|c s IH]; simpl; [reflexivity|].
  now rewrite lower_char_idem, IH.
Qed.

Section OrderBy.
Context {R : Type} (le : R -> R -> bool).

Lemma insertAsc_In (x y : R) (rows : list R) :
  In x (Prisma.insertAsc le y rows) <-> x = y \/ In x rows.
Proof.
  induction rows as [|r rows IH]; simpl.
  - intuition.
  - destruct (le y r); simpl; [|rewrite IH]; intuition.
Qed.

Lemma orderByAsc_In (x : R) (rows : list R) :
  In x (Prisma.orderByAsc le rows) <-> In x rows.
Proof.
  unfold Prisma.orderByAsc. induction rows as [|r rows IH]; simpl.
  - reflexivity.
  - rewrite insertAsc_In, IH. intuition.
Qed.

End OrderBy.

Lemma firstn_incl {R : Type} (n : nat) (rows : list R) (x : R) :
  In x (firstn n rows) -> In x rows.
Proof.
  revert rows. induction n as [|n IH]; intros [|r rows]; simpl; try tauto.
  intros [->|H]; [now left | right; now apply IH].
Qed.

Lemma like_percent (p s : string) :
  Prisma.like (String "%" p) s = true
  <-> exists pre post, s = pre ++ post /\ Prisma.like p post = true.
Proof.
  change (Prisma.like (String "%" p)) with
    (fix anySuffix (s : string) : bool :=
       Prisma.like p s
       || match s with
          | EmptyString => false
          | String _ s' => anySuffix s'
          end).
  induction s as [|c s IH].
  - rewrite orb_false_r. split.
    + intros H. exists "", "". now split.
    + intros [pre [post [E H]]]. destruct pre; [|discriminate].
      simpl in E. now subst.
  - rewrite orb_true_iff, IH. split.
    + intros [H|[pre [post [E H]]]].
      * exists "", (String c s). now split.
      * exists (String c pre), post. split; [now rewrite E | exact H].
    + intros [pre [post [E H]]]. destruct pre as [|d pre]; simpl in E.
      * left. now subst.
      * right. injection E as -> ->. now exists pre, post.
Qed.

Lemma like_plain (c : ascii) (p s : string) :
  plain_char c = true ->
  Prisma.like (String c p) s
  = match s with
    | EmptyString => false
    | String e s' => (e =? c)%char && Prisma.like p s'
    end.
Proof.
  unfold plain_char. intros H.
  apply andb_true_iff in H. destruct H as [H H3].
  apply andb_true_iff in H. destruct H as [H1 H2].
  apply negb_true_iff in H1, H2, H3. simpl. rewrite H1, H2, H3.
  reflexivity.
Qed.

Lemma like_literal (q p s : string) :
  wildcardFree q = true ->
  (Prisma.like (q ++ p) s = true
   <-> exists post, s = q ++ post /\ Prisma.like p post = true).
Proof.
  revert s. induction q as [|c q IH]; intros s Hq.
  - simpl. split; [intros H; now exists s | now intros [post [-> H]]].
  - simpl in Hq. apply andb_true_iff in Hq. destruct Hq as [Hc Hq].
    change (String c q ++ p) with (String c (q ++ p)).
    rewrite (like_plain c _ _ Hc). destruct s as [|e s].
    + split; [discriminate | intros [post [E _]]; discriminate E].
    + rewrite andb_true_iff, (IH s Hq). split.
      * intros [E [post [-> H]]]. apply Ascii.eqb_eq in E. subst e.
        now exists post.
      * intros [post [E H]]. injection E as -> ->.
        split; [apply Ascii.eqb_refl | now exists post].
Qed.

Lemma like_any (s : string) : Prisma.like "%" s = true.
Proof.
  apply like_percent. exists s, "". split; [|reflexivity].
  induction s as [|c s IH]; simpl; [reflexivity | now rewrite <- IH].
Qed.

(** For a query without wildcards, [LIKE '%q%'] is containment. *)
Lemma like_contains (q s : string) :
  wildcardFree q = true ->
  (Prisma.like ("%" ++ q ++ "%") s = true <-> occursIn q s).
Proof.
  intros Hq. change ("%" ++ q ++ "%") with (String "%" (q ++ "%")).
  rewrite like_percent. unfold occursIn. split.
  - intros [pre [post [-> H]]]. apply (like_literal q "%" post Hq) in H.
    destruct H as [post' [-> _]]. now exists pre, post'.
  - intros [pre [post ->]]. exists pre, (q ++ post). split; [reflexivity|].
    apply (like_literal q "%" _ Hq). exists post.
    split; [reflexivity | apply like_any].
Qed.

Lemma prefix_spec (n h : string) :
  String.prefix n h = true <-> exists post, h = n ++ post.
Proof.
  revert h. induction n as [|c n IH]; intros h.
  - split; [intros _; now exists h | now destruct h].
  - destruct h as [|d h]; simpl.
    + split; [discriminate | intros [post E]; discriminate E].
    + destruct (Ascii.ascii_dec c d) as [->|Hne].
      * rewrite IH. split; intros [post E]; exists post;
          [now rewrite E | now injection E].
      * split; [discriminate|]. intros [post E]. injection E as E _.
        congruence.
Qed.

Lemma contains_occursIn (n h : string) :
  Js.contains n h = true <-> occursIn n h.
Proof.
  unfold occursIn. induction h as [|c h IH].
  - cbn [Js.contains]. rewrite orb_false_r, prefix_spec. split.
    + intros [post E]. now exists "", post.
    + intros [pre [post E]]. destruct pre; [|discriminate]. now exists post.
  - cbn [Js.contains]. rewrite orb_true_iff, IH, prefix_spec. split.
    + intros [[post E]|[pre [post E]]].
      * now exists "", post.
      * exists (String c pre), post. now rewrite E.
    + intros [pre [post E]]. destruct pre as [|d pre]; simpl in E.
      * left. now exists post.
      * right. injection E as _ E. now exists pre, post.
Qed.

Lemma like_is_contains (q s : string) :
  wildcardFree q = true -> Prisma.like ("%" ++ q ++ "%") s = Js.contains q s.
Proof.
  intros Hq. pose proof (like_contains q s Hq) as H1.
  pose proof (contains_occursIn q s) as H2.
  destruct (Prisma.like _ s), (Js.contains q s); try reflexivity.
  - symmetry. apply (proj2 H2), (proj1 H1). reflexivity.
  - apply (proj2 H1), (proj1 H2). reflexivity.
Qed.

Lemma plain_lower_char (c : ascii) :
  plain_char (Js.lower_char c) = plain_char c.
Proof.
  destruct c as [[] [] [] [] [] [] [] []]; vm_compute; reflexivity.
Qed.

Lemma wildcardFree_lower (s : string) :
  wildcardFree (Js.toLowerCase s) = wildcardFree s.
Proof.
  induction s as [|c s IH]; simpl; [reflexivity|].
  now rewrite plain_lower_char, IH.
Qed.

Lemma wildcardFree_trimStart (s : string) :
  wildcardFree s = true -> wildcardFree (Js.trimStart s) = true.
Proof.
  induction s as [|c s IH]; simpl; [reflexivity|]. intros H.
  destruct (Js.is_space c); [|exact H].
  apply andb_true_iff in H. now apply IH.
Qed.

Lemma wildcardFree_trimEnd (s : string) :
  wildcardFree s = true -> wildcardFree (Js.trimEnd s) = true.
Proof.
  induction s as [|c s IH]; [reflexivity|]. intros H.
  cbn [wildcardFree] in H. apply andb_true_iff in H. destruct H as [Hc Hs].
  specialize (IH Hs). cbn [Js.trimEnd].
  destruct (Js.trimEnd s) as [|d rest].
  - destruct (Js.is_space c); [reflexivity|]. simpl. now rewrite Hc.
  - cbn [wildcardFree] in *. now rewrite Hc.
Qed.

Lemma wildcardFree_trim (s : string) :
  wildcardFree s = true -> wildcardFree (Js.trim s) = true.
Proof.
  intros H. unfold Js.trim. now apply wildcardFree_trimEnd, wildcardFree_trimStart.
Qed.



(* ------------------------------------------------------------------------- *)
(** ** What a move does to the rows of a table *)

Lemma list_set_position_same (l : List_.t) :
  List_.set_position (List_.position l) l = l.
Proof. now destruct l. Qed.

Lemma task_set_position_same (t : Task.t) :
  Task.set_position (Task.position t) t = t.
Proof. now destruct t. Qed.

Lemma updateList_reorder (listId userId : string) (name : option string)
  (new : Z) (db : Db) (l : List_.t) :
  Prisma.findUnique (fun l => List_.id l =? listId)%string (lists db) = Some l ->
  new <> List_.position l ->
  let m := listService.updateList listId userId
             (listService.mkUpdateListData name (Some new)) in
  outcome m db
  = Ok (Prisma.findUnique (fun l => List_.id l =? listId)%string
          (lists (after m db)))
  /\ lists (after m db)
     = map (listsAfterReorder listId (List_.board_id l) name
              (List_.position l) new) (lists db)
  /\ tasks (after m db) = tasks db.
Proof.
  intros Hl Hne m. subst m. apply Z.eqb_neq in Hne.
  unfold listService.updateList. run_async. rewrite Hl. simpl.
  rewrite Hne. simpl.
  destruct (new >? List_.position l) eqn:Hgt; simpl.
  all: split; [reflexivity|]; split; [|reflexivity].
  all: unfold Prisma.update, Prisma.updateMany; rewrite map_map.
  all: apply map_ext; intros r; unfold listsAfterReorder, shiftWithin.
  all: rewrite ?Z.gtb_ltb, ?Z.geb_leb in *.
  all: destruct (String.eqb_spec (List_.id r) listId) as [Hid|Hid];
    rewrite ?andb_false_r, ?andb_true_r; simpl;
    [rewrite Hid, String.eqb_refl; reflexivity|].
  all: apply String.eqb_neq in Hid.
  all: destruct (List_.board_id r =? List_.board_id l)%string; simpl;
    [|now rewrite Hid].
  all: apply Z.eqb_neq in Hne.
  all: destruct (Z.ltb_spec (List_.position l) new),
         (Z.ltb_spec (List_.position l) (List_.position r)),
         (Z.leb_spec (List_.position r) new),
         (Z.ltb_spec new (List_.position l)),
         (Z.leb_spec new (List_.position r)),
         (Z.ltb_spec (List_.position r) (List_.position l));
    simpl; rewrite ?Hid, ?list_set_position_same; try reflexivity;
    try discriminate; try lia.
Qed.

Lemma moveTask_reorder (taskId userId : string) (new : Z) (db : Db)
  (task : Task.t) (list : List_.t) :
  Prisma.findUnique (fun t => Task.id t =? taskId)%string (tasks db) = Some task ->
  Prisma.findUnique (fun l => List_.id l =? Task.list_id task)%string (lists db)
  = Some list ->
  let m := taskService.moveTask taskId userId
             (taskService.mkMoveTaskData (Task.list_id task) new) in
  outcome m db
  = Ok (Prisma.findUnique (fun t => Task.id t =? taskId)%string
          (tasks (after m db)))
  /\ tasks (after m db)
     = map (tasksAfterReorder taskId (Task.list_id task)
              (Task.position task) new) (tasks db)
  /\ lists (after m db) = lists db.
Proof.
  intros Ht Hl m. subst m.
  pose proof (findTaskWithList_found _ _ _ _ Ht Hl) as Hfound.
  unfold outcome, after, taskService.moveTask.
  rewrite (bind_ok _ _ _ _ _ Hfound).
  run_async. rewrite Hl. simpl. rewrite !String.eqb_refl. simpl.
  rewrite !Z.gtb_ltb.
  destruct (Z.ltb_spec (Task.position task) new) as [Hlt|Hge]; simpl;
    [|destruct (Z.ltb_spec new (Task.position task)) as [Hlt|Hge']; simpl].
  all: split; [reflexivity|]; split; [|reflexivity].
  all: unfold Prisma.update, Prisma.updateMany; rewrite ?map_map.
  all: apply map_ext; intros r; unfold tasksAfterReorder, shiftWithin.
  all: rewrite ?Z.gtb_ltb, ?Z.geb_leb in *.
  all: destruct (String.eqb_spec (Task.id r) taskId) as [Hid|Hid];
    rewrite ?andb_false_r, ?andb_true_r; simpl;
    [rewrite ?Hid, ?String.eqb_refl; reflexivity|].
  all: apply String.eqb_neq in Hid.
  all: destruct (Task.list_id r =? Task.list_id task)%string; simpl;
    [|now rewrite ?Hid].
  all: destruct (Z.ltb_spec (Task.position task) new),
         (Z.ltb_spec (Task.position task) (Task.position r)),
         (Z.leb_spec (Task.position r) new),
         (Z.ltb_spec new (Task.position task)),
         (Z.leb_spec new (Task.position r)),
         (Z.ltb_spec (Task.position r) (Task.position task));
    simpl; rewrite ?Hid, ?task_set_position_same; try reflexivity;
    try discriminate; try lia.
Qed.

Lemma moveTask_transfer (taskId userId target : string) (new : Z) (db : Db)
  (task : Task.t) (list targetList : List_.t) :
  Prisma.findUnique (fun t => Task.id t =? taskId)%string (tasks db) = Some task ->
  Prisma.findUnique (fun l => List_.id l =? Task.list_id task)%string (lists db)
  = Some list ->
  Prisma.findUnique (fun l => List_.id l =? target)%string (lists db)
  = Some targetList ->
  List_.board_id targetList = List_.board_id list ->
  Task.list_id task <> target ->
  let m := taskService.moveTask taskId userId
             (taskService.mkMoveTaskData target new) in
  outcome m db
  = Ok (Prisma.findUnique (fun t => Task.id t =? taskId)%string
          (tasks (after m db)))
  /\ tasks (after m db)
     = map (tasksAfterTransfer taskId (Task.list_id task) target
              (Task.position task) new) (tasks db)
  /\ lists (after m db) = lists db.
Proof.
  intros Ht Hl Htl Hboard Hne m. subst m.
  pose proof (findTaskWithList_found _ _ _ _ Ht Hl) as Hfound.
  unfold outcome, after, taskService.moveTask.
  rewrite (bind_ok _ _ _ _ _ Hfound).
  run_async. rewrite Htl. simpl. rewrite Hboard, String.eqb_refl. simpl.
  pose proof Hne as Hne'. apply String.eqb_neq in Hne'. rewrite Hne'. simpl.
  split; [reflexivity|]; split; [|reflexivity].
  unfold Prisma.update, Prisma.updateMany; rewrite ?map_map.
  apply map_ext; intros r; unfold tasksAfterTransfer.
  rewrite ?Z.gtb_ltb, ?Z.geb_leb in *.
  destruct (String.eqb_spec (Task.id r) taskId) as [Hid|Hid].
  - destruct (_ && _); simpl; destruct (_ && _); simpl;
      rewrite Hid, String.eqb_refl; reflexivity.
  - apply String.eqb_neq in Hid.
    destruct (String.eqb_spec (Task.list_id r) (Task.list_id task)) as [Hs|Hs].
    + assert ((Task.list_id r =? target)%string = false) as Hnt
        by (apply String.eqb_neq; congruence).
      destruct (Task.position task <? Task.position r); simpl;
        rewrite Hnt; simpl; now rewrite Hid.
    + simpl. destruct (_ && _); simpl; now rewrite Hid.
Qed.


(* ------------------------------------------------------------------------- *)
(** ** Positions of a scope under updates of its table *)

Section Scoped.
Context {R : Type} (rid scope : R -> string) (pos : R -> Z).

Lemma positionsIn_app (s : string) (rows rows' : list R) :
  positionsIn scope pos s (rows ++ rows')%list
  = (positionsIn scope pos s rows ++ positionsIn scope pos s rows')%list.
Proof. unfold positionsIn. now rewrite filter_app, map_app. Qed.

Lemma positionsIn_In (s : string) (rows : list R) (x : R) :
  In x rows -> scope x = s -> In (pos x) (positionsIn scope pos s rows).
Proof.
  intros Hx Hs. apply in_map, filter_In. split; [exact Hx|].
  now apply String.eqb_eq.
Qed.

(** Rows of a scope are told apart by their position as well as by their
    identifier. *)
Lemma same_row_iff (s : string) (rows : list R) (x r : R) :
  NoDup (map rid rows) -> NoDup (positionsIn scope pos s rows) ->
  In x rows -> scope x = s -> In r rows -> scope r = s ->
  (rid r = rid x <-> pos r = pos x).
Proof.
  intros Hids Hpos Hx Hsx Hr Hsr. split; intros H.
  - now rewrite (NoDup_map_eq rid rows r x Hids Hr Hx H).
  - assert (r = x) as ->; [|reflexivity].
    apply (NoDup_map_eq pos (filter (fun r => scope r =? s)%string rows));
      auto; apply filter_In; split; auto; now apply String.eqb_eq.
Qed.

Lemma filter_unique (rows : list R) (x : R) :
  NoDup (map rid rows) -> In x rows ->
  filter (fun r => rid r =? rid x)%string rows = [x].
Proof.
  induction rows as [|a rows IH]; simpl; intros Hnd Hin; [contradiction|].
  inversion Hnd as [|? ? Hnotin Hnd']; subst.
  destruct (String.eqb_spec (rid a) (rid x)) as [E|E].
  - assert (a = x) as ->.
    { destruct Hin as [H|H]; [exact H|]. exfalso. apply Hnotin.
      rewrite E. now apply in_map. }
    f_equal. apply filter_none. intros r Hr. apply String.eqb_neq.
    intros E'. apply Hnotin. rewrite <- E'. now apply in_map.
  - destruct Hin as [H|H]; [congruence|]. now apply IH.
Qed.

(** A row-wise update that keeps every row in its scope re-indexes the scope
    by [g]. *)
Lemma positionsIn_map (T : R -> R) (g : Z -> Z) (s : string) (rows : list R) :
  (forall r, In r rows -> (scope (T r) =? s)%string = (scope r =? s)%string) ->
  (forall r, In r rows -> scope r = s -> pos (T r) = g (pos r)) ->
  positionsIn scope pos s (map T rows) = map g (positionsIn scope pos s rows).
Proof.
  intros Hscope Hpos. unfold positionsIn.
  rewrite filter_map_swap, !map_map.
  rewrite (filter_ext_in _ (fun r => scope r =? s)%string rows Hscope).
  apply map_ext_in. intros r Hr. apply filter_In in Hr. destruct Hr as [Hr Hs].
  apply String.eqb_eq in Hs. now apply Hpos.
Qed.

Lemma positionsIn_map_same (T : R -> R) (s : string) (rows : list R) :
  (forall r, In r rows -> (scope (T r) =? s)%string = (scope r =? s)%string) ->
  (forall r, In r rows -> scope r = s -> pos (T r) = pos r) ->
  positionsIn scope pos s (map T rows) = positionsIn scope pos s rows.
Proof.
  intros Hscope Hpos.
  rewrite (positionsIn_map T (fun p => p)); auto. apply map_id.
Qed.

(** Deleting a row takes its position out of its scope. *)
Lemma positionsIn_delete (s : string) (rows : list R) (x : R) :
  NoDup (map rid rows) -> NoDup (positionsIn scope pos s rows) ->
  In x rows -> scope x = s ->
  positionsIn scope pos s (filter (fun r => negb (rid r =? rid x)%string) rows)
  = filter (fun p => negb (p =? pos x)) (positionsIn scope pos s rows).
Proof.
  intros Hids Hpos Hx Hsx. unfold positionsIn.
  rewrite <- (map_filter_agree pos
                (fun r => negb (rid r =? rid x)%string)).
  - f_equal. apply filter_comm.
  - intros r Hr. apply filter_In in Hr. destruct Hr as [Hr Hsr].
    apply String.eqb_eq in Hsr.
    pose proof (same_row_iff s rows x r Hids Hpos Hx Hsx Hr Hsr) as Hiff.
    destruct (String.eqb_spec (rid r) (rid x)) as [E|E],
             (Z.eqb_spec (pos r) (pos x)) as [E'|E']; simpl; tauto.
Qed.

Lemma positionsIn_other_delete (s : string) (rows : list R)
  (p : R -> bool) :
  (forall r, In r rows -> scope r = s -> p r = true) ->
  positionsIn scope pos s (filter p rows) = positionsIn scope pos s rows.
Proof.
  intros H. unfold positionsIn. f_equal.
  induction rows as [|a rows IH]; simpl; [reflexivity|].
  destruct (String.eqb_spec (scope a) s) as [E|E].
  - rewrite (H a (or_introl eq_refl) E). simpl.
    apply String.eqb_eq in E. rewrite E. f_equal. apply IH.
    intros r Hr. apply H. now right.
  - destruct (p a); simpl.
    + apply String.eqb_neq in E. rewrite E. apply IH.
      intros r Hr. apply H. now right.
    + apply IH. intros r Hr. apply H. now right.
Qed.

(** Moving element [x] of scope [s] to index [new] of the same scope. *)
Lemma dense_reordered (T : R -> R) (s : string) (rows : list R) (x : R)
  (new : Z) :
  NoDup (map rid rows) -> dense (positionsIn scope pos s rows) ->
  In x rows -> scope x = s ->
  0 <= new < Z.of_nat (List.length (positionsIn scope pos s rows)) ->
  (forall r, In r rows -> (scope (T r) =? s)%string = (scope r =? s)%string) ->
  (forall r, In r rows -> scope r = s ->
     pos (T r) = if (rid r =? rid x)%string then new
                 else shiftWithin (pos x) new (pos r)) ->
  dense (positionsIn scope pos s (map T rows)).
Proof.
  intros Hids Hd Hx Hsx Hnew Hscope Hpos.
  rewrite (positionsIn_map T
             (fun p => if p =? pos x then new else shiftWithin (pos x) new p));
    auto.
  - apply dense_shiftWithin; auto. apply Hd. now apply positionsIn_In.
  - intros r Hr Hsr. rewrite (Hpos r Hr Hsr).
    pose proof (same_row_iff s rows x r Hids (proj1 Hd) Hx Hsx Hr Hsr) as Hiff.
    destruct (String.eqb_spec (rid r) (rid x)) as [E|E],
             (Z.eqb_spec (pos r) (pos x)) as [E'|E']; tauto.
Qed.

(** Element [x] leaves scope [s], by deletion or for another scope, and the
    gap is closed. *)
Lemma dense_moved_out (T : R -> R) (s : string) (rows : list R) (x : R) :
  NoDup (map rid rows) -> dense (positionsIn scope pos s rows) ->
  In x rows -> scope x = s ->
  (forall r, In r rows ->
     (scope (T r) =? s)%string
     = (scope r =? s)%string && negb (rid r =? rid x)%string) ->
  (forall r, In r rows -> scope r = s -> rid r <> rid x ->
     pos (T r) = closeGap (pos x) (pos r)) ->
  dense (positionsIn scope pos s (map T rows)).
Proof.
  intros Hids Hd Hx Hsx Hscope Hpos.
  assert (positionsIn scope pos s (map T rows)
          = map (closeGap (pos x))
              (filter (fun p => negb (p =? pos x))
                 (positionsIn scope pos s rows))) as ->.
  { rewrite <- (positionsIn_delete s rows x Hids (proj1 Hd) Hx Hsx).
    unfold positionsIn. rewrite filter_map_swap, !map_map.
    rewrite (filter_ext_in _ _ rows Hscope), filter_andb.
    apply map_ext_in. intros r Hr. apply filter_In in Hr.
    destruct Hr as [Hr Hsr]. apply filter_In in Hr. destruct Hr as [Hr Hne].
    apply String.eqb_eq in Hsr. apply negb_true_iff, String.eqb_neq in Hne.
    now apply Hpos. }
  apply dense_closeGap; auto. now apply positionsIn_In.
Qed.

(** Element [x] of another scope enters scope [s] at index [new]. *)
Lemma dense_moved_in (T : R -> R) (s : string) (rows : list R) (x : R)
  (new : Z) :
  NoDup (map rid rows) -> dense (positionsIn scope pos s rows) ->
  In x rows -> scope x <> s ->
  0 <= new <= Z.of_nat (List.length (positionsIn scope pos s rows)) ->
  (forall r, In r rows ->
     (scope (T r) =? s)%string
     = (scope r =? s)%string || (rid r =? rid x)%string) ->
  (forall r, In r rows -> scope r = s -> pos (T r) = openGap new (pos r)) ->
  pos (T x) = new ->
  dense (positionsIn scope pos s (map T rows)).
Proof.
  intros Hids Hd Hx Hsx Hnew Hscope Hpos Hposx.
  apply dense_perm with (new :: map (openGap new) (positionsIn scope pos s rows));
    [|now apply dense_openGap].
  unfold positionsIn. rewrite filter_map_swap, !map_map.
  rewrite (filter_ext_in _ _ rows Hscope).
  apply Permutation_sym.
  eapply perm_trans;
    [apply Permutation_map, filter_or_perm|].
  - intros r Hr Hsr. apply String.eqb_eq in Hsr.
    destruct (String.eqb_spec (rid r) (rid x)) as [E|E]; [|reflexivity].
    exfalso. apply Hsx.
    now rewrite <- (NoDup_map_eq rid rows r x Hids Hr Hx E).
  - rewrite (filter_unique rows x Hids Hx). simpl. rewrite Hposx.
    apply perm_skip.
    erewrite map_ext_in; [reflexivity|].
    intros r Hr. apply filter_In in Hr. destruct Hr as [Hr Hsr].
    apply String.eqb_eq in Hsr. now apply Hpos.
Qed.

(** A new element appended after the last one. *)
Lemma dense_created (s : string) (rows : list R) (x : R) :
  dense (positionsIn scope pos s rows) ->
  scope x = s ->
  pos x
  = Js.nullish
      (option_map pos
         (Prisma.findFirstDesc (fun r => scope r =? s)%string pos rows)) (-1)
    + 1 ->
  dense (positionsIn scope pos s (Prisma.create x rows)).
Proof.
  intros Hd Hsx Hpx. unfold Prisma.create. rewrite positionsIn_app.
  unfold positionsIn at 2. simpl.
  apply String.eqb_eq in Hsx. rewrite Hsx. simpl.
  replace (pos x)
    with (Z.of_nat (List.length (positionsIn scope pos s rows)));
    [now apply dense_append|].
  rewrite Hpx. unfold Prisma.findFirstDesc.
  destruct (Prisma.maxBy pos _) as [m|] eqn:E; simpl.
  - apply maxBy_some in E. destruct E as [Hin Hmax].
    symmetry. apply dense_max; auto.
    + now apply in_map.
    + intros p Hp. apply in_map_iff in Hp. destruct Hp as [r [<- Hr]].
      now apply Hmax.
  - apply maxBy_none in E. unfold positionsIn. now rewrite E.
Qed.

Lemma positionsIn_created_other (s : string) (rows : list R) (x : R) :
  scope x <> s ->
  positionsIn scope pos s (Prisma.create x rows) = positionsIn scope pos s rows.
Proof.
  intros Hsx. unfold Prisma.create. rewrite positionsIn_app.
  unfold positionsIn at 2. simpl.
  apply String.eqb_neq in Hsx. rewrite Hsx. apply app_nil_r.
Qed.

End Scoped.

(* ------------------------------------------------------------------------- *)
(** ** Moves within one scope *)

Lemma find_map_same {R : Type} (p : R -> bool) (T : R -> R) (rows : list R) :
  (forall r, p (T r) = p r) ->
  find p (map T rows) = option_map T (find p rows).
Proof.
  intros H. induction rows as [|a rows IH]; simpl; [reflexivity|].
  rewrite H. destruct (p a); [reflexivity | exact IH].
Qed.

Lemma listsAfterReorder_id (listId scope : string) (name : option string)
  (old new : Z) (l : List_.t) :
  List_.id (listsAfterReorder listId scope name old new l) = List_.id l
  /\ List_.board_id (listsAfterReorder listId scope name old new l)
     = List_.board_id l.
Proof.
  unfold listsAfterReorder.
  destruct (List_.id l =? listId)%string; [destruct name; now simpl|].
  destruct (List_.board_id l =? scope)%string; now simpl.
Qed.

Lemma tasksAfterReorder_id (taskId scope : string) (old new : Z) (t : Task.t) :
  Task.id (tasksAfterReorder taskId scope old new t) = Task.id t.
Proof.
  unfold tasksAfterReorder.
  destruct (Task.id t =? taskId)%string; [now simpl|].
  destruct (Task.list_id t =? scope)%string; now simpl.
Qed.

Lemma tasksAfterTransfer_id (taskId source target : string) (old new : Z)
  (t : Task.t) :
  Task.id (tasksAfterTransfer taskId source target old new t) = Task.id t.
Proof.
  unfold tasksAfterTransfer.
  destruct (Task.id t =? taskId)%string; [now simpl|].
  destruct (_ && _); [now simpl|]. destruct (_ && _); now simpl.
Qed.

(** C3: moving an element within its scope, from index [old] to index [new].
    For a list reorder through [updateList] and for a task move that keeps
    the task's list, the call succeeds, the moved element ends at [new], and
    the table afterwards is the one [listsAfterReorder] / [tasksAfterReorder]
    describes: when [new > old] exactly the other elements of the scope with
    [old < position <= new] are one lower, when [new < old] exactly those with
    [new <= position < old] are one higher, and every other row is as it
    was. *)
Theorem move_within_scope :
  (forall (listId userId : string) (name : option string) (new : Z) (db : Db)
          (l : List_.t),
     Prisma.findUnique (fun l => List_.id l =? listId)%string (lists db)
     = Some l ->
     new <> List_.position l ->
     let m := listService.updateList listId userId
                (listService.mkUpdateListData name (Some new)) in
     outcome m db
     = Ok (Some (List_.set_position new (listService.withName name l)))
     /\ lists (after m db)
        = map (listsAfterReorder listId (List_.board_id l) name
                 (List_.position l) new) (lists db))
  /\ (forall (taskId userId : string) (new : Z) (db : Db) (task : Task.t)
             (list : List_.t),
        Prisma.findUnique (fun t => Task.id t =? taskId)%string (tasks db)
        = Some task ->
        Prisma.findUnique (fun l => List_.id l =? Task.list_id task)%string
          (lists db) = Some list ->
        new <> Task.position task ->
        let m := taskService.moveTask taskId userId
                   (taskService.mkMoveTaskData (Task.list_id task) new) in
        outcome m db = Ok (Some (Task.set_position new task))
        /\ tasks (after m db)
           = map (tasksAfterReorder taskId (Task.list_id task)
                    (Task.position task) new) (tasks db)).
Proof.
  split.
  - intros listId userId name new db l Hl Hne m.
    destruct (updateList_reorder listId userId name new db l Hl Hne)
      as [Hout [Hlists _]].
    fold m in Hout, Hlists. split; [|exact Hlists].
    rewrite Hout, Hlists. unfold Prisma.findUnique in *.
    rewrite find_map_same
      by (intros r; now rewrite (proj1 (listsAfterReorder_id _ _ _ _ _ r))).
    rewrite Hl. simpl. unfold listsAfterReorder.
    apply find_some in Hl. destruct Hl as [_ Hl]. now rewrite Hl.
  - intros taskId userId new db task list Ht Hl _ m.
    destruct (moveTask_reorder taskId userId new db task list Ht Hl)
      as [Hout [Htasks _]].
    fold m in Hout, Htasks. split; [|exact Htasks].
    rewrite Hout, Htasks. unfold Prisma.findUnique in *.
    rewrite find_map_same
      by (intros r; now rewrite tasksAfterReorder_id).
    rewrite Ht. simpl. unfold tasksAfterReorder.
    apply find_some in Ht. destruct Ht as [_ Ht]. rewrite Ht.
    now destruct task.
Qed.

(* ------------------------------------------------------------------------- *)
(** ** Density is kept by the operations *)

Lemma findUnique_In {R : Type} (p : R -> bool) (rows : list R) (x : R) :
  Prisma.findUnique p rows = Some x -> In x rows /\ p x = true.
Proof. apply find_some. Qed.

Lemma createList_allDense (newId boardId userId name : string) (db : Db) :
  allDense db ->
  allDense (after (listService.createList newId boardId userId name) db).
Proof.
  intros [Hl Ht]. unfold listService.createList, after, bind, gets, orThrow.
  destruct (Prisma.findUnique _ (boards db)) as [b|]; [|now split].
  cbn [throw ret bind modify logActivity fst snd].
  unfold bind, modify, logActivity, ret, modify. cbn [fst snd].
  split; [|exact Ht]. intros s. unfold listPositions. cbn [lists set_activityLogs set_lists].
  destruct (String.eqb_spec boardId s) as [->|Hne].
  - apply dense_created; [apply Hl | reflexivity | reflexivity].
  - rewrite positionsIn_created_other; [apply Hl | exact Hne].
Qed.

Lemma createTask_allDense (newId userId : string)
  (data : taskService.CreateTaskData) (db : Db) :
  allDense db ->
  allDense (after (taskService.createTask newId userId data) db).
Proof.
  intros [Hl Ht]. unfold taskService.createTask, after, bind, gets, orThrow.
  destruct (Prisma.findUnique _ (lists db)) as [l|]; [|now split].
  cbn [throw ret bind modify logActivity fst snd].
  unfold bind, modify, logActivity, ret, modify. cbn [fst snd].
  split; [exact Hl|]. intros s. unfold taskPositions.
  cbn [tasks set_activityLogs set_tasks].
  destruct (String.eqb_spec (taskService.ct_list_id data) s) as [<-|Hne].
  - apply dense_created; [apply Ht | reflexivity | reflexivity].
  - rewrite positionsIn_created_other; [apply Ht | exact Hne].
Qed.

Lemma deleteList_allDense (listId userId : string) (db : Db) :
  uniqueKeys db -> allDense db ->
  allDense (after (listService.deleteList listId userId) db).
Proof.
  intros [Hids _] [Hl Ht].
  unfold listService.deleteList, after, bind, gets, orThrow.
  destruct (Prisma.findUnique _ (lists db)) as [l|] eqn:Hfind; [|now split].
  apply findUnique_In in Hfind. destruct Hfind as [Hin Hid].
  apply String.eqb_eq in Hid.
  unfold transaction, bind, modify, logActivity, ret, modify, deleteListRow.
  cbn [fst snd]. split.
  - intros s. unfold listPositions.
    cbn [lists set_activityLogs set_lists set_tasks set_taskAssignees].
    unfold Prisma.updateMany, Prisma.delete. rewrite <- Hid.
    destruct (String.eqb_spec (List_.board_id l) s) as [<-|Hne].
    + rewrite (positionsIn_map _ _ _ (closeGap (List_.position l))).
      * rewrite (positionsIn_delete List_.id); auto; try apply Hl.
        apply dense_closeGap; [apply Hl|].
        now apply positionsIn_In.
      * intros r _. now destruct (_ && _).
      * intros r _ Hs. apply String.eqb_eq in Hs. rewrite Hs. simpl.
        unfold closeGap. rewrite Z.gtb_ltb.
        now destruct (List_.position l <? List_.position r).
    + rewrite positionsIn_map_same.
      * rewrite positionsIn_other_delete; [apply Hl|].
        intros r Hr Hs. apply negb_true_iff, String.eqb_neq. intros E.
        apply Hne. rewrite <- Hs.
        now rewrite (NoDup_map_eq List_.id _ r l Hids Hr Hin E).
      * intros r _. now destruct (_ && _).
      * intros r _ Hs.
        assert ((List_.board_id r =? List_.board_id l)%string = false) as ->
          by (apply String.eqb_neq; congruence).
        reflexivity.
  - intros s. unfold taskPositions.
    cbn [tasks set_activityLogs set_lists set_tasks set_taskAssignees].
    unfold Prisma.delete.
    destruct (String.eqb_spec listId s) as [<-|Hne].
    + unfold positionsIn. rewrite <- filter_andb, filter_none; [apply dense_nil|].
      intros r _. now destruct (Task.list_id r =? listId)%string.
    + rewrite positionsIn_other_delete; [apply Ht|].
      intros r _ Hs. apply negb_true_iff, String.eqb_neq. congruence.
Qed.

Lemma withName_fields (name : option string) (l : List_.t) :
  List_.id (listService.withName name l) = List_.id l
  /\ List_.board_id (listService.withName name l) = List_.board_id l
  /\ List_.position (listService.withName name l) = List_.position l.
Proof. destruct name; now simpl. Qed.

Lemma updateList_rename (listId userId : string)
  (data : listService.UpdateListData) (db : Db) (l : List_.t) :
  Prisma.findUnique (fun l => List_.id l =? listId)%string (lists db) = Some l ->
  listService.ul_position data = None
  \/ listService.ul_position data = Some (List_.position l) ->
  let m := listService.updateList listId userId data in
  lists (after m db)
  = map (fun r => if (List_.id r =? listId)%string
                  then listService.withName (listService.ul_name data) r
                  else r) (lists db)
  /\ tasks (after m db) = tasks db.
Proof.
  intros Hl Hpos m. subst m. unfold listService.updateList. run_async.
  rewrite Hl. simpl.
  destruct Hpos as [-> | ->]; [|rewrite Z.eqb_refl]; simpl; now split.
Qed.

Lemma updateList_missing (listId userId : string)
  (data : listService.UpdateListData) (db : Db) :
  Prisma.findUnique (fun l => List_.id l =? listId)%string (lists db) = None ->
  after (listService.updateList listId userId data) db = db.
Proof.
  intros Hl. unfold listService.updateList. run_async. now rewrite Hl.
Qed.

Lemma updateList_allDense (listId userId : string)
  (data : listService.UpdateListData) (db : Db) :
  uniqueKeys db -> allDense db ->
  validIndex (UpdateList listId userId data) db = true ->
  allDense (after (listService.updateList listId userId data) db).
Proof.
  intros [Hids _] [Hl Ht] Hvalid. unfold validIndex in Hvalid.
  destruct (Prisma.findUnique _ (lists db)) as [l|] eqn:Hfind.
  2:{ rewrite updateList_missing by exact Hfind. now split. }
  pose proof (findUnique_In _ _ _ Hfind) as [Hin Hid].
  apply String.eqb_eq in Hid.
  destruct data as [name [new|]]; cbn [listService.ul_position] in Hvalid.
  - destruct (Z.eq_dec new (List_.position l)) as [Heq|Hne].
    + destruct (updateList_rename listId userId
                  (listService.mkUpdateListData name (Some new)) db l Hfind)
        as [Hlists Htasks]; [right; now subst|].
      split; intros s; unfold listPositions, taskPositions;
        rewrite ?Hlists, ?Htasks; [|apply Ht].
      rewrite positionsIn_map_same; [apply Hl | |].
      * intros r _. destruct (_ =? listId)%string; [|reflexivity].
        now rewrite (proj1 (proj2 (withName_fields _ r))).
      * intros r _ _. destruct (_ =? listId)%string; [|reflexivity].
        now rewrite (proj2 (proj2 (withName_fields _ r))).
    + destruct (updateList_reorder listId userId name new db l Hfind Hne)
        as [_ [Hlists Htasks]].
      split; intros s; unfold listPositions, taskPositions;
        rewrite ?Hlists, ?Htasks; [|apply Ht].
      destruct (String.eqb_spec (List_.board_id l) s) as [<-|Hs].
      * apply (dense_reordered List_.id List_.board_id List_.position _ _ _ l
                 new Hids (Hl _) Hin eq_refl).
        -- unfold listPositions in Hvalid. lia.
        -- intros r _. now rewrite (proj2 (listsAfterReorder_id _ _ _ _ _ r)).
        -- intros r _ Hs. unfold listsAfterReorder. rewrite Hid.
           destruct (List_.id r =? listId)%string; [reflexivity|].
           apply String.eqb_eq in Hs. now rewrite Hs.
      * rewrite positionsIn_map_same; [apply Hl | |].
        -- intros r _. now rewrite (proj2 (listsAfterReorder_id _ _ _ _ _ r)).
        -- intros r Hr Hsr. unfold listsAfterReorder.
           destruct (String.eqb_spec (List_.id r) listId) as [E|E].
           ++ exfalso. apply Hs. rewrite <- Hsr. rewrite <- Hid in E.
              now rewrite (NoDup_map_eq List_.id _ r l Hids Hr Hin E).
           ++ assert ((List_.board_id r =? List_.board_id l)%string = false)
                as -> by (apply String.eqb_neq; congruence).
              reflexivity.
  - destruct (updateList_rename listId userId
                (listService.mkUpdateListData name None) db l Hfind)
      as [Hlists Htasks]; [now left|].
    split; intros s; unfold listPositions, taskPositions;
      rewrite ?Hlists, ?Htasks; [|apply Ht].
    rewrite positionsIn_map_same; [apply Hl | |].
    + intros r _. destruct (_ =? listId)%string; [|reflexivity].
      now rewrite (proj1 (proj2 (withName_fields _ r))).
    + intros r _ _. destruct (_ =? listId)%string; [|reflexivity].
      now rewrite (proj2 (proj2 (withName_fields _ r))).
Qed.

Lemma tasksAfterReorder_fields (taskId scope : string) (old new : Z)
  (t : Task.t) :
  Task.list_id (tasksAfterReorder taskId scope old new t)
  = (if (Task.id t =? taskId)%string then scope else Task.list_id t)
  /\ Task.position (tasksAfterReorder taskId scope old new t)
     = (if (Task.id t =? taskId)%string then new
        else if (Task.list_id t =? scope)%string
             then shiftWithin old new (Task.position t)
             else Task.position t).
Proof.
  unfold tasksAfterReorder.
  destruct (Task.id t =? taskId)%string; [now simpl|].
  destruct (Task.list_id t =? scope)%string; now simpl.
Qed.

Lemma tasksAfterTransfer_fields (taskId source target : string) (old new : Z)
  (t : Task.t) :
  source <> target ->
  Task.list_id (tasksAfterTransfer taskId source target old new t)
  = (if (Task.id t =? taskId)%string then target else Task.list_id t)
  /\ Task.position (tasksAfterTransfer taskId source target old new t)
     = (if (Task.id t =? taskId)%string then new
        else if (Task.list_id t =? source)%string
             then closeGap old (Task.position t)
             else if (Task.list_id t =? target)%string
                  then openGap new (Task.position t)
                  else Task.position t).
Proof.
  intros Hne. unfold tasksAfterTransfer, closeGap, openGap.
  destruct (Task.id t =? taskId)%string; [now simpl|].
  destruct (String.eqb_spec (Task.list_id t) source) as [Hs|Hs]; simpl.
  - destruct (old <? Task.position t); simpl; [now split|].
    assert ((Task.list_id t =? target)%string = false) as ->
      by (apply String.eqb_neq; congruence).
    now simpl.
  - destruct (Task.list_id t =? target)%string; simpl; [|now split].
    destruct (new <=? Task.position t); now simpl.
Qed.

(** The list a task is moved out of stays dense. *)
Lemma transfer_source_dense (taskId target : string) (new : Z)
  (rows : list Task.t) (task : Task.t) :
  NoDup (map Task.id rows) -> In task rows -> Task.id task = taskId ->
  Task.list_id task <> target ->
  dense (positionsIn Task.list_id Task.position (Task.list_id task) rows) ->
  dense (positionsIn Task.list_id Task.position (Task.list_id task)
           (map (tasksAfterTransfer taskId (Task.list_id task) target
                   (Task.position task) new) rows)).
Proof.
  intros Hids Hin Hid Hcross Hd.
  apply (dense_moved_out Task.id Task.list_id Task.position _ _ _ task
           Hids Hd Hin eq_refl).
  - intros r Hr.
    rewrite (proj1 (tasksAfterTransfer_fields _ _ _ _ _ r Hcross)), Hid.
    destruct (Task.id r =? taskId)%string; simpl.
    + rewrite andb_false_r. apply String.eqb_neq. congruence.
    + now rewrite andb_true_r.
  - intros r Hr Hsr Hne.
    rewrite (proj2 (tasksAfterTransfer_fields _ _ _ _ _ r Hcross)).
    rewrite Hid in Hne. apply String.eqb_neq in Hne. rewrite Hne.
    apply String.eqb_eq in Hsr. now rewrite Hsr.
Qed.

Lemma moveTask_allDense (taskId userId : string)
  (data : taskService.MoveTaskData) (db : Db) :
  uniqueKeys db -> allDense db ->
  validIndex (MoveTask taskId userId data) db = true ->
  allDense (after (taskService.moveTask taskId userId data) db).
Proof.
  intros [_ Hids] [Hl Ht] Hvalid. unfold validIndex in Hvalid.
  destruct (Prisma.findUnique _ (tasks db)) as [task|] eqn:Hft.
  2:{ replace (after (taskService.moveTask taskId userId data) db) with db;
        [now split|].
      unfold taskService.moveTask, taskService.findTaskWithList. run_async.
      now rewrite Hft. }
  destruct (Prisma.findUnique
              (fun l => List_.id l =? Task.list_id task)%string (lists db))
    as [list|] eqn:Hfl.
  2:{ replace (after (taskService.moveTask taskId userId data) db) with db;
        [now split|].
      unfold taskService.moveTask, taskService.findTaskWithList. run_async.
      rewrite Hft. simpl. now rewrite Hfl. }
  pose proof (findTaskWithList_found _ _ _ _ Hft Hfl) as Hfound.
  destruct (Prisma.findUnique
              (fun l => List_.id l =? taskService.mv_list_id data)%string
              (lists db)) as [targetList|] eqn:Hftl.
  2:{ replace (after (taskService.moveTask taskId userId data) db) with db;
        [now split|].
      unfold after, taskService.moveTask. rewrite (bind_ok _ _ _ _ _ Hfound).
      run_async. now rewrite Hftl. }
  destruct (String.eqb_spec (List_.board_id targetList) (List_.board_id list))
    as [Hboard|Hboard].
  2:{ unfold after.
      rewrite (moveTask_rejects_other_board taskId userId data db task list
                 targetList Hft Hfl Hftl Hboard).
      now split. }
  pose proof (findUnique_In _ _ _ Hft) as [Hin Hid].
  apply String.eqb_eq in Hid.
  destruct data as [target new].
  cbn [taskService.mv_list_id taskService.mv_position] in *.
  destruct (String.eqb_spec (Task.list_id task) target) as [<-|Hcross].
  - destruct (moveTask_reorder taskId userId new db task list Hft Hfl)
      as [_ [Htasks Hlists]].
    split; intros s; unfold listPositions, taskPositions;
      rewrite ?Hlists, ?Htasks; [apply Hl|].
    destruct (String.eqb_spec (Task.list_id task) s) as [<-|Hs].
    + apply (dense_reordered Task.id Task.list_id Task.position _ _ _ task
               new Hids (Ht _) Hin eq_refl).
      * unfold taskPositions in Hvalid. lia.
      * intros r Hr. rewrite (proj1 (tasksAfterReorder_fields _ _ _ _ r)).
        destruct (String.eqb_spec (Task.id r) taskId) as [E|E]; [|reflexivity].
        rewrite <- Hid in E.
        now rewrite (NoDup_map_eq Task.id _ r task Hids Hr Hin E).
      * intros r _ Hsr. rewrite (proj2 (tasksAfterReorder_fields _ _ _ _ r)).
        rewrite Hid. apply String.eqb_eq in Hsr. now rewrite Hsr.
    + rewrite positionsIn_map_same; [apply Ht | |].
      * intros r Hr. rewrite (proj1 (tasksAfterReorder_fields _ _ _ _ r)).
        destruct (String.eqb_spec (Task.id r) taskId) as [E|E]; [|reflexivity].
        rewrite <- Hid in E.
        now rewrite (NoDup_map_eq Task.id _ r task Hids Hr Hin E).
      * intros r Hr Hsr. rewrite (proj2 (tasksAfterReorder_fields _ _ _ _ r)).
        destruct (String.eqb_spec (Task.id r) taskId) as [E|E].
        -- exfalso. apply Hs. rewrite <- Hsr. rewrite <- Hid in E.
           now rewrite (NoDup_map_eq Task.id _ r task Hids Hr Hin E).
        -- assert ((Task.list_id r =? Task.list_id task)%string = false) as ->
             by (apply String.eqb_neq; congruence).
           reflexivity.
  - destruct (moveTask_transfer taskId userId target new db task list
                targetList Hft Hfl Hftl Hboard Hcross)
      as [_ [Htasks Hlists]].
    split; intros s; unfold listPositions, taskPositions;
      rewrite ?Hlists, ?Htasks; [apply Hl|].
    assert (Hrow : forall r, In r (tasks db) ->
                     (Task.id r =? taskId)%string = true -> r = task).
    { intros r Hr E. apply String.eqb_eq in E. rewrite <- Hid in E.
      exact (NoDup_map_eq Task.id _ r task Hids Hr Hin E). }
    destruct (String.eqb_spec (Task.list_id task) s) as [<-|Hsrc].
    + apply transfer_source_dense; auto. apply Ht.
    + destruct (String.eqb_spec target s) as [<-|Htgt].
      * apply (dense_moved_in Task.id Task.list_id Task.position _ _ _ task
                 new Hids (Ht _) Hin Hcross).
        -- unfold taskPositions in Hvalid. lia.
        -- intros r Hr.
           rewrite (proj1 (tasksAfterTransfer_fields _ _ _ _ _ r Hcross)), Hid.
           destruct (Task.id r =? taskId)%string eqn:E; simpl.
           ++ rewrite String.eqb_refl. now rewrite orb_true_r.
           ++ now rewrite orb_false_r.
        -- intros r Hr Hsr.
           rewrite (proj2 (tasksAfterTransfer_fields _ _ _ _ _ r Hcross)).
           destruct (Task.id r =? taskId)%string eqn:E.
           ++ exfalso. apply Hcross. rewrite <- Hsr.
              now rewrite (Hrow r Hr E).
           ++ assert ((Task.list_id r =? Task.list_id task)%string = false)
                as -> by (apply String.eqb_neq; congruence).
              apply String.eqb_eq in Hsr. now rewrite Hsr.
        -- rewrite (proj2 (tasksAfterTransfer_fields _ _ _ _ _ task Hcross)).
           apply String.eqb_eq in Hid. now rewrite Hid.
      * rewrite positionsIn_map_same; [apply Ht | |].
        -- intros r Hr.
           rewrite (proj1 (tasksAfterTransfer_fields _ _ _ _ _ r Hcross)).
           destruct (Task.id r =? taskId)%string eqn:E; [|reflexivity].
           rewrite (Hrow r Hr E).
           transitivity false; [|symmetry]; now apply String.eqb_neq.
        -- intros r Hr Hsr.
           rewrite (proj2 (tasksAfterTransfer_fields _ _ _ _ _ r Hcross)).
           destruct (Task.id r =? taskId)%string eqn:E.
           ++ exfalso. apply Hsrc. rewrite <- Hsr. now rewrite (Hrow r Hr E).
           ++ assert ((Task.list_id r =? Task.list_id task)%string = false)
                as -> by (apply String.eqb_neq; congruence).
              assert ((Task.list_id r =? target)%string = false)
                as -> by (apply String.eqb_neq; congruence).
              reflexivity.
Qed.

(* ------------------------------------------------------------------------- *)
(** ** Moving a task to another list *)

(** C4: moving a task to a different list of its board succeeds; the task
    ends in the target list at the requested position; every other task of
    the source list with a position above the task's old one is one lower,
    every task of the target list with a position at or above the requested
    one is one higher, and no other row changes ([tasksAfterTransfer]).  In
    particular a dense source list is dense again after the move: no position
    is left orphaned. *)
Theorem moveTask_across_lists (taskId userId target : string) (new : Z)
  (db : Db) (task : Task.t) (list targetList : List_.t) :
  Prisma.findUnique (fun t => Task.id t =? taskId)%string (tasks db) = Some task ->
  Prisma.findUnique (fun l => List_.id l =? Task.list_id task)%string (lists db)
  = Some list ->
  Prisma.findUnique (fun l => List_.id l =? target)%string (lists db)
  = Some targetList ->
  List_.board_id targetList = List_.board_id list ->
  Task.list_id task <> target ->
  let m := taskService.moveTask taskId userId
             (taskService.mkMoveTaskData target new) in
  let source := Task.list_id task in
  outcome m db = Ok (Some (Task.set_position new (Task.set_list_id target task)))
  /\ tasks (after m db)
     = map (tasksAfterTransfer taskId source target (Task.position task) new)
         (tasks db)
  /\ (NoDup (map Task.id (tasks db)) ->
      dense (taskPositions source db) ->
      dense (taskPositions source (after m db))).
Proof.
  intros Ht Hl Htl Hboard Hcross m source. subst source.
  destruct (moveTask_transfer taskId userId target new db task list targetList
              Ht Hl Htl Hboard Hcross) as [Hout [Htasks _]].
  fold m in Hout, Htasks.
  pose proof (findUnique_In _ _ _ Ht) as [Hin Hid].
  split; [|split; [exact Htasks|]].
  - rewrite Hout, Htasks. unfold Prisma.findUnique in *.
    rewrite find_map_same by (intros r; now rewrite tasksAfterTransfer_id).
    rewrite Ht. simpl. unfold tasksAfterTransfer. now rewrite Hid.
  - intros Hids Hd. unfold taskPositions in *. rewrite Htasks.
    apply String.eqb_eq in Hid. now apply transfer_source_dense.
Qed.

(* ------------------------------------------------------------------------- *)
(** ** Checking a concrete store *)

Lemma uniqueKeysb_ok (db : Db) : uniqueKeysb db = true -> uniqueKeys db.
Proof.
  unfold uniqueKeysb, uniqueKeys. rewrite andb_true_iff, !distinct_NoDup.
  tauto.
Qed.

Lemma scopes_dense {R : Type} (scope : R -> string) (pos : R -> Z)
  (rows : list R) :
  forallb (fun r => denseb (positionsIn scope pos (scope r) rows)) rows = true ->
  forall s, dense (positionsIn scope pos s rows).
Proof.
  intros H s. rewrite forallb_forall in H.
  destruct (filter (fun r => scope r =? s)%string rows) as [|r rest] eqn:E.
  - unfold positionsIn. rewrite E. apply dense_nil.
  - assert (In r (filter (fun r => scope r =? s)%string rows)) as Hr
      by (rewrite E; now left).
    apply filter_In in Hr. destruct Hr as [Hr Hs].
    apply String.eqb_eq in Hs. subst s. apply denseb_dense. now apply H.
Qed.

Lemma allDenseb_ok (db : Db) : allDenseb db = true -> allDense db.
Proof.
  unfold allDenseb, allDense, listPositions, taskPositions.
  rewrite andb_true_iff. intros [Hl Ht].
  split; now apply scopes_dense.
Qed.

Lemma after_discard {A : Type} (m : Async A) (db : Db) :
  after (bind m (fun _ => ret tt)) db = after m db.
Proof. unfold after, bind, ret. destruct (m db) as [[a|e] db']; reflexivity. Qed.

(* ------------------------------------------------------------------------- *)
(** ** The density invariant *)

(** C1, as stated, fails: no bound is put on the requested position, so
    moving the first of three lists to position 5 leaves the board with the
    positions 5, 0 and 1. *)
Lemma updateList_beyond_last_index_leaves_gap :
  let m := listService.updateList "l0" "owner"
             (listService.mkUpdateListData None (Some 5)) in
  uniqueKeys sampleDb /\ allDense sampleDb
  /\ outcome m sampleDb = Ok (Some (List_.mk "l0" "To Do" 5 "b1"))
  /\ listPositions "b1" (after m sampleDb) = [5; 0; 1]
  /\ ~ dense (listPositions "b1" (after m sampleDb)).
Proof.
  split; [apply uniqueKeysb_ok; reflexivity|].
  split; [apply allDenseb_ok; reflexivity|].
  split; [reflexivity|]. split; [reflexivity|].
  intros H. apply denseb_dense in H. discriminate.
Qed.

(** C1 (amended): [createList], [updateList], [deleteList], [createTask] and
    [moveTask], applied to a store whose positions are dense, leave the
    positions of every board's lists and of every list's tasks dense, so
    they form exactly 0, 1, ..., n-1 in each scope, provided a requested
    position is an index of the scope it addresses ([validIndex]): one of
    the n indices when the element stays in its scope, one of the m + 1
    insertion points when a task enters a list of m tasks.  This holds
    whether the call succeeds or is rejected.  Deleting a task is not
    covered. *)
Theorem positions_stay_dense (op : Op) (db : Db) :
  uniqueKeys db -> allDense db -> validIndex op db = true ->
  allDense (after (run op) db).
Proof.
  intros Hkeys Hdense Hvalid. destruct op; unfold run.
  - rewrite after_discard. now apply createList_allDense.
  - rewrite after_discard. now apply updateList_allDense.
  - now apply deleteList_allDense.
  - rewrite after_discard. now apply createTask_allDense.
  - rewrite after_discard. now apply moveTask_allDense.
Qed.

(* ------------------------------------------------------------------------- *)
(** ** Deleting a list and deleting a task *)

(** Deleting a list removes its row and closes the gap among the lists of
    its board. *)
Lemma deleteList_closes_gap (listId userId : string) (db : Db) (l : List_.t) :
  Prisma.findUnique (fun l => List_.id l =? listId)%string (lists db) = Some l ->
  outcome (listService.deleteList listId userId) db = Ok tt
  /\ lists (after (listService.deleteList listId userId) db)
     = map (fun r => if (List_.board_id r =? List_.board_id l)%string
                     then List_.set_position
                            (closeGap (List_.position l) (List_.position r)) r
                     else r)
         (filter (fun r => negb (List_.id r =? listId)%string) (lists db)).
Proof.
  intros Hl. unfold listService.deleteList. run_async. rewrite Hl. simpl.
  split; [reflexivity|]. unfold Prisma.updateMany, Prisma.delete.
  apply map_ext. intros r. unfold closeGap. rewrite Z.gtb_ltb.
  destruct (List_.board_id r =? List_.board_id l)%string; simpl;
    [|reflexivity].
  destruct (List_.position l <? List_.position r); [reflexivity|].
  now rewrite list_set_position_same.
Qed.

(** Deleting a task removes its row and nothing else in the task table: the
    remaining tasks keep the positions they had. *)
Lemma deleteTask_keeps_positions (taskId userId : string) (db : Db)
  (task : Task.t) (list : List_.t) :
  Prisma.findUnique (fun t => Task.id t =? taskId)%string (tasks db) = Some task ->
  Prisma.findUnique (fun l => List_.id l =? Task.list_id task)%string (lists db)
  = Some list ->
  outcome (taskService.deleteTask taskId userId) db = Ok tt
  /\ tasks (after (taskService.deleteTask taskId userId) db)
     = filter (fun t => negb (Task.id t =? taskId)%string) (tasks db).
Proof.
  intros Ht Hl. pose proof (findTaskWithList_found _ _ _ _ Ht Hl) as Hfound.
  unfold outcome, after, taskService.deleteTask.
  rewrite (bind_ok _ _ _ _ _ Hfound). run_async. now split.
Qed.

(** C2, on the code: deleting the first of the three tasks of a list leaves
    the other two at positions 1 and 2; the claim has them at 0 and 1. *)
Lemma deleteTask_leaves_gap :
  let m := taskService.deleteTask "t0" "owner" in
  allDense sampleDb
  /\ outcome m sampleDb = Ok tt
  /\ map (fun t => (Task.id t, Task.position t))
       (filter (fun t => Task.list_id t =? "l0")%string (tasks sampleDb))
     = [("t0", 0); ("t1", 1); ("t2", 2)]
  /\ map (fun t => (Task.id t, Task.position t))
       (filter (fun t => Task.list_id t =? "l0")%string
          (tasks (after m sampleDb)))
     = [("t1", 1); ("t2", 2)]
  /\ ~ dense (taskPositions "l0" (after m sampleDb)).
Proof.
  split; [apply allDenseb_ok; reflexivity|].
  split; [reflexivity|]. split; [reflexivity|]. split; [reflexivity|].
  intros H. apply denseb_dense in H. discriminate.
Qed.

(* ------------------------------------------------------------------------- *)
(** ** The theorems at work on the sample store *)

(** Moving task [t0] to the head of list [l1] keeps every scope dense. *)
Lemma positions_stay_dense_witness :
  let op := MoveTask "t0" "owner" (taskService.mkMoveTaskData "l1" 0) in
  uniqueKeys sampleDb /\ allDense sampleDb /\ validIndex op sampleDb = true
  /\ allDense (after (run op) sampleDb).
Proof.
  intros op.
  assert (Hk : uniqueKeys sampleDb) by (apply uniqueKeysb_ok; reflexivity).
  assert (Hd : allDense sampleDb) by (apply allDenseb_ok; reflexivity).
  exact (conj Hk (conj Hd (conj eq_refl
           (positions_stay_dense op sampleDb Hk Hd eq_refl)))).
Defined.

(** List [l0] moved from 0 to 2, and task [t2] moved from 2 to 0. *)
Lemma move_within_scope_witness :
  (outcome (listService.updateList "l0" "owner"
              (listService.mkUpdateListData None (Some 2))) sampleDb
   = Ok (Some (List_.mk "l0" "To Do" 2 "b1"))
   /\ lists (after (listService.updateList "l0" "owner"
                      (listService.mkUpdateListData None (Some 2))) sampleDb)
      = map (listsAfterReorder "l0" "b1" None 0 2) (lists sampleDb))
  /\ (outcome (taskService.moveTask "t2" "owner"
                 (taskService.mkMoveTaskData "l0" 0)) sampleDb
      = Ok (Some (mkTask "t2" "Ship" "l0" 0))
      /\ tasks (after (taskService.moveTask "t2" "owner"
                         (taskService.mkMoveTaskData "l0" 0)) sampleDb)
         = map (tasksAfterReorder "t2" "l0" 2 0) (tasks sampleDb)).
Proof.
  destruct move_within_scope as [Hlists Htasks]. split.
  - apply (Hlists "l0" "owner" None 2 sampleDb sampleList0 eq_refl).
    discriminate.
  - apply (Htasks "t2" "owner" 0 sampleDb (mkTask "t2" "Ship" "l0" 2)
             sampleList0 eq_refl eq_refl).
    discriminate.
Defined.

(** Task [t0] moved from the head of [l0] to the head of [l1]. *)
Lemma moveTask_across_lists_witness :
  let m := taskService.moveTask "t0" "owner"
             (taskService.mkMoveTaskData "l1" 0) in
  outcome m sampleDb = Ok (Some (mkTask "t0" "Write" "l1" 0))
  /\ tasks (after m sampleDb)
     = map (tasksAfterTransfer "t0" "l0" "l1" 0 0) (tasks sampleDb)
  /\ (NoDup (map Task.id (tasks sampleDb)) ->
      dense (taskPositions "l0" sampleDb) ->
      dense (taskPositions "l0" (after m sampleDb))).
Proof.
  apply (moveTask_across_lists "t0" "owner" "l1" 0 sampleDb
           (mkTask "t0" "Write" "l0" 0) sampleList0 sampleList1
           eq_refl eq_refl eq_refl eq_refl).
  discriminate.
Defined.

(** The editor [ed] is turned away where [admin] is required. *)
Lemma authorize_decision_witness :
  failsWith "FORBIDDEN"
    (outcome (authorize ["admin"] (Some "b1") (Some "ed")) sampleDb).
Proof.
  destruct (authorize_decision ["admin"] (Some "b1") (Some "ed") sampleDb)
    as [_ [_ H]].
  destruct (H "b1" "ed" eq_refl eq_refl) as [_ [_ [_ [Hrole _]]]];
    [discriminate | discriminate |].
  apply (Hrole sampleBoard (BoardMember.mk "m1" "b1" "ed" "editor")
           eq_refl).
  - discriminate.
  - reflexivity.
  - discriminate.
  - simpl. intros [H'|[]]. discriminate.
Defined.

(** A board created with a new identifier. *)
Lemma createBoard_default_lists_witness :
  let m := boardService.createBoard "b3" ("n0", "n1", "n2") "al"
             (boardService.mkCreateBoardData "Plans" None None) in
  (exists board,
     outcome m sampleDb
     = Ok (board, [ List_.mk "n0" "To Do" 0 "b3";
                    List_.mk "n1" "In Progress" 1 "b3";
                    List_.mk "n2" "Done" 2 "b3" ])
     /\ Board.id board = "b3" /\ Board.owner_id board = "al")
  /\ filter (fun l => List_.board_id l =? "b3")%string (lists (after m sampleDb))
     = [ List_.mk "n0" "To Do" 0 "b3";
         List_.mk "n1" "In Progress" 1 "b3";
         List_.mk "n2" "Done" 2 "b3" ]
  /\ listPositions "b3" (after m sampleDb) = [0; 1; 2].
Proof.
  apply (createBoard_default_lists "b3" "n0" "n1" "n2" "al"
           (boardService.mkCreateBoardData "Plans" None None) sampleDb).
  simpl. intros l [<-|[<-|[<-|[<-|[]]]]]; discriminate.
Defined.

(** [ed] is a member of the board and already assigned to [t0]. *)
Lemma assignment_errors_witness :
  failsWith "CONFLICT"
    (outcome (taskService.assignUser "a2" "t0" "owner" "ed") sampleDb)
  /\ after (taskService.assignUser "a2" "t0" "owner" "ed") sampleDb = sampleDb.
Proof.
  destruct (assignment_errors "a2" "t0" "owner" "ed" sampleDb
              (mkTask "t0" "Write" "l0" 0) sampleList0 sampleBoard
              eq_refl eq_refl eq_refl) as [_ [H _]].
  apply H.
  - right. exists (BoardMember.mk "m1" "b1" "ed" "editor"). reflexivity.
  - exists (TaskAssignee.mk "a1" "t0" "ed"). reflexivity.
Defined.

(** The owner asks to remove the owner. *)
Lemma owner_is_never_a_member_row_witness :
  failsWith "BAD_REQUEST"
    (outcome (boardService.removeMember "b1" "owner" "owner") sampleDb)
  /\ after (boardService.removeMember "b1" "owner" "owner") sampleDb = sampleDb.
Proof.
  destruct (owner_is_never_a_member_row "b1" "owner" sampleDb sampleBoard
              eq_refl) as [[Hsame [Hbad _]] _].
  split; [|exact Hsame]. apply Hbad. left. reflexivity.
Defined.


(** Task [t0] of board [b1] cannot move to list [x0] of board [b2]. *)
Lemma moveTask_other_board_rejected_witness :
  let m := taskService.moveTask "t0" "owner"
             (taskService.mkMoveTaskData "x0" 0) in
  failsWith "BAD_REQUEST" (outcome m sampleDb)
  /\ after m sampleDb = sampleDb
  /\ tasks (after m sampleDb) = tasks sampleDb.
Proof.
  apply (moveTask_other_board_rejected "t0" "owner"
           (taskService.mkMoveTaskData "x0" 0) sampleDb
           (mkTask "t0" "Write" "l0" 0) sampleList0 sampleListX
           eq_refl eq_refl eq_refl).
  discriminate.
Defined.

(* ------------------------------------------------------------------------- *)
(** ** Further properties: failures, the activity log and the gate *)

Ltac unfold_services :=
  unfold perform, boardService.createBoard, boardService.updateBoard,
    boardService.deleteBoard, boardService.addMember,
    boardService.removeMember, boardService.requireAdmin,
    listService.createList, listService.updateList, listService.deleteList,
    taskService.createTask, taskService.updateTask, taskService.deleteTask,
    taskService.moveTask, taskService.assignUser, taskService.unassignUser,
    taskService.findTaskWithList in *.

Ltac split_if :=
  match goal with
  | |- context [if ?c then _ else _] =>
      lazymatch c with
      | context [if _ then _ else _] => fail
      | context [match _ with _ => _ end] => fail
      | _ => destruct c eqn:?
      end
  | |- context [match find ?p ?l with _ => _ end] => destruct (find p l) eqn:?
  | |- context [match ?x with Some _ => _ | None => _ end] =>
      lazymatch x with
      | context [match _ with _ => _ end] => fail
      | _ => destruct x eqn:?
      end
  end.

(** X1: a call that one of the service's own checks refuses leaves the store
    exactly as it was: no row is written, changed or deleted, and no
    activity entry is added.  Such a refusal is an error made by
    [createError], which carries the status the service chose; every check
    of every service function comes before its first write. *)
Theorem rejected_request_changes_nothing (req : Request) (db : Db)
  (e : AppError) :
  outcome (perform req) db = Threw e -> statusCode e <> None ->
  after (perform req) db = db.
Proof.
  destruct req; unfold_services; run_async;
    repeat (split_if; simpl in * ); intros H; try discriminate H;
    try reflexivity.
  all: destruct listIds as [[? ?] ?]; simpl in *; discriminate.
Qed.

(** X2: every successful mutating call that deletes no board, list or task
    adds exactly one entry to the activity log, made out to the calling
    user, and leaves the earlier entries in place. *)
Theorem successful_request_is_logged (req : Request) (db : Db) :
  deletesLoggedRows req = false ->
  outcome (perform req) db = Ok tt ->
  exists entry,
    activityLogs (after (perform req) db)
    = (activityLogs db ++ [entry])%list
    /\ ActivityLog.user_id entry = requester req.
Proof.
  intros Hnd.
  destruct req; try discriminate Hnd;
    unfold_services; run_async;
    repeat (split_if; simpl in * ); intros H; try discriminate H;
    try (eexists; split; reflexivity).
  all: destruct listIds as [[? ?] ?]; simpl in *; eexists; split; reflexivity.
Qed.

(** X3: the task routes run the plain membership gate and then the gate of
    the route; the two in a row decide, answer and leave the store exactly
    as the second gate alone. *)
Theorem authorize_twice (allowedRoles : list string)
  (boardId userId : option string) (db : Db) :
  bind (authorize [] boardId userId)
    (fun _ => authorize allowedRoles boardId userId) db
  = authorize allowedRoles boardId userId db.
Proof.
  unfold authorize.
  destruct (negb (Js.truthy boardId) || negb (Js.truthy userId));
    [reflexivity|].
  run_async.
  destruct (find _ (boards db)) as [b|] eqn:Eb; simpl; [|reflexivity].
  destruct (Board.owner_id b =? _)%string eqn:Eo; simpl.
  { rewrite Eb. simpl. now rewrite Eo. }
  destruct (find _ (boardMembers db)) as [m|] eqn:Em; simpl; [|reflexivity].
  rewrite Eb. simpl. rewrite Eo. simpl. now rewrite Em.
Qed.

(** X4: a user let through a gate is let through the gate without role
    restriction, and, when the gate names roles, through every gate that
    names at least the same roles. *)
Theorem authorize_more_roles (roles roles' : list string)
  (boardId userId : option string) (db : Db) :
  outcome (authorize roles boardId userId) db = Ok tt ->
  (outcome (authorize [] boardId userId) db = Ok tt)
  /\ (roles <> [] -> incl roles roles' ->
      outcome (authorize roles' boardId userId) db = Ok tt).
Proof.
  unfold authorize. run_async.
  destruct (negb (Js.truthy boardId) || negb (Js.truthy userId)); simpl;
    [intros H; discriminate H|].
  destruct (find _ (boards db)) as [b|]; simpl; [|intros H; discriminate H].
  destruct (Board.owner_id b =? _)%string; simpl; [now split|].
  destruct (find _ (boardMembers db)) as [m|]; simpl; [|intros H; discriminate H].
  intros H. split; [reflexivity|]. intros Hne Hincl.
  destruct (Js.includes roles (BoardMember.role m)) eqn:Hinc.
  - apply includes_In, Hincl in Hinc. apply includes_In in Hinc.
    rewrite Hinc. now rewrite andb_false_r.
  - destruct roles as [|r roles]; [contradiction|]. discriminate H.
Qed.

Lemma rejected_request_changes_nothing_witness :
  let req := ReqMoveTask "t0" "owner" (taskService.mkMoveTaskData "x0" 0) in
  outcome (perform req) sampleDb
  = Threw (createError 400 "BAD_REQUEST"
             "Cannot move task to a list on a different board")
  /\ after (perform req) sampleDb = sampleDb.
Proof.
  intros req. split; [reflexivity|].
  apply (rejected_request_changes_nothing req sampleDb _ eq_refl).
  discriminate.
Defined.

Lemma successful_request_is_logged_witness :
  let req := ReqCreateList "l9" "b1" "owner" "Later" in
  exists entry,
    activityLogs (after (perform req) sampleDb)
    = (activityLogs sampleDb ++ [entry])%list
    /\ ActivityLog.user_id entry = "owner".
Proof.
  intros req.
  apply (successful_request_is_logged req sampleDb); reflexivity.
Defined.

Lemma authorize_more_roles_witness :
  outcome (authorize [] (Some "b1") (Some "ed")) sampleDb = Ok tt
  /\ outcome (authorize ["admin"; "editor"] (Some "b1") (Some "ed")) sampleDb
     = Ok tt.
Proof.
  destruct (authorize_more_roles ["editor"] ["admin"; "editor"] (Some "b1")
              (Some "ed") sampleDb eq_refl) as [H1 H2].
  split; [exact H1|]. apply H2; [discriminate|].
  intros r [<-|[]]. right. left. reflexivity.
Defined.

(* ------------------------------------------------------------------------- *)
(** ** Further properties: members and assignments *)

Lemma find_app_none {R : Type} (p : R -> bool) (rows : list R) (x : R) :
  find p rows = None -> find p (rows ++ [x])%list = if p x then Some x else None.
Proof.
  induction rows as [|a rows IH]; simpl; [reflexivity|].
  destruct (p a); [discriminate | exact IH].
Qed.

Lemma find_app_some {R : Type} (p : R -> bool) (rows rows' : list R) (x : R) :
  find p rows = Some x -> find p (rows ++ rows')%list = Some x.
Proof.
  induction rows as [|a rows IH]; simpl; [discriminate|].
  destruct (p a); [auto | exact IH].
Qed.

Lemma delete_created {R : Type} (p : R -> bool) (rows : list R) (x : R) :
  (forall r, In r rows -> p r = false) -> p x = true ->
  Prisma.delete p (Prisma.create x rows) = rows.
Proof.
  intros Hrows Hx. unfold Prisma.delete, Prisma.create.
  rewrite filter_app. simpl. rewrite Hx. simpl. rewrite app_nil_r.
  apply filter_all. intros r Hr. now rewrite (Hrows r Hr).
Qed.

(** [addMember] as one decision. *)
Lemma addMember_run (newId boardId userId newMemberId : string)
  (role : option string) (db : Db) :
  boardService.addMember newId boardId userId newMemberId role db
  = match Prisma.findUnique (fun b => Board.id b =? boardId)%string (boards db)
    with
    | None => (Threw (createError 404 "NOT_FOUND" "Board not found"), db)
    | Some b =>
        if negb (Board.owner_id b =? userId)%string
           && negb (isAdmin boardId userId db)
        then (Threw (createError 403 "FORBIDDEN"
                       "Only the owner or admin can add members"), db)
        else
          match Prisma.findUnique
                  (fun p => Profile.id p =? newMemberId)%string (profiles db)
          with
          | None => (Threw (createError 404 "NOT_FOUND" "User not found"), db)
          | Some _ =>
              if (newMemberId =? Board.owner_id b)%string
              then (Threw (createError 400 "BAD_REQUEST"
                             "Cannot add the board owner as a member"), db)
              else
                match memberRow boardId newMemberId db with
                | Some _ => (Threw uniqueConstraintError, db)
                | None =>
                    (Ok (BoardMember.mk newId boardId newMemberId
                           (Js.nullish role "editor")),
                     addedMemberDb newId boardId userId newMemberId
                       (Js.nullish role "editor") db)
                end
          end
    end.
Proof.
  unfold boardService.addMember, boardService.requireAdmin, isAdmin, memberRow,
    addedMemberDb.
  run_async.
  destruct (find _ (boards db)) as [b|]; simpl; [|reflexivity].
  destruct (Board.owner_id b =? userId)%string; simpl.
  - destruct (find _ (profiles db)); simpl; [|reflexivity].
    destruct (newMemberId =? Board.owner_id b)%string; simpl; [reflexivity|].
    destruct (find _ (boardMembers db)); reflexivity.
  - destruct (find (fun m => (BoardMember.board_id m =? boardId)%string
                             && (BoardMember.user_id m =? userId)%string)
                (boardMembers db)) as [r|]; simpl; [|reflexivity].
    destruct (BoardMember.role r =? "admin")%string; simpl; [|reflexivity].
    destruct (find _ (profiles db)); simpl; [|reflexivity].
    destruct (newMemberId =? Board.owner_id b)%string; simpl; [reflexivity|].
    destruct (find _ (boardMembers db)); reflexivity.
Qed.

(** [removeMember] as one decision. *)
Lemma removeMember_run (boardId userId targetUserId : string) (db : Db) :
  boardService.removeMember boardId userId targetUserId db
  = match Prisma.findUnique (fun b => Board.id b =? boardId)%string (boards db)
    with
    | None => (Threw (createError 404 "NOT_FOUND" "Board not found"), db)
    | Some b =>
        if negb (Board.owner_id b =? userId)%string
           && negb (userId =? targetUserId)%string
           && negb (isAdmin boardId userId db)
        then (Threw (createError 403 "FORBIDDEN"
                       "Insufficient permissions to remove members"), db)
        else if (targetUserId =? Board.owner_id b)%string
        then (Threw (createError 400 "BAD_REQUEST"
                       "Cannot remove the board owner"), db)
        else
          match memberRow boardId targetUserId db with
          | None => (Threw (createError 404 "NOT_FOUND" "Member not found"), db)
          | Some member =>
              (Ok tt, removedMemberDb boardId userId targetUserId member db)
          end
    end.
Proof.
  unfold boardService.removeMember, boardService.requireAdmin, isAdmin,
    memberRow, removedMemberDb.
  run_async.
  destruct (find _ (boards db)) as [b|]; simpl; [|reflexivity].
  destruct (negb (Board.owner_id b =? userId)%string
            && negb (userId =? targetUserId)%string); simpl.
  - destruct (find (fun m => (BoardMember.board_id m =? boardId)%string
                             && (BoardMember.user_id m =? userId)%string)
                (boardMembers db)) as [r|]; simpl; [|reflexivity].
    destruct (BoardMember.role r =? "admin")%string; simpl; [|reflexivity].
    destruct (targetUserId =? Board.owner_id b)%string; simpl; [reflexivity|].
    destruct (find _ (boardMembers db)); reflexivity.
  - destruct (targetUserId =? Board.owner_id b)%string; simpl; [reflexivity|].
    destruct (find _ (boardMembers db)); reflexivity.
Qed.

(** X5: adding a user who already is a member of the board is refused by the
    store's unique key on (board, user): the call fails with status 500, not
    with CONFLICT, and the store is unchanged. *)
Theorem addMember_existing_member_is_500 (newId boardId userId newMemberId : string)
  (role : option string) (db : Db) (b : Board.t) (p : Profile.t)
  (m : BoardMember.t) :
  Prisma.findUnique (fun b => Board.id b =? boardId)%string (boards db) = Some b ->
  Board.owner_id b = userId \/ isAdmin boardId userId db = true ->
  Prisma.findUnique (fun p => Profile.id p =? newMemberId)%string (profiles db)
  = Some p ->
  memberRow boardId newMemberId db = Some m ->
  newMemberId <> Board.owner_id b ->
  let call := boardService.addMember newId boardId userId newMemberId role in
  (exists e, outcome call db = Threw e /\ fst (errorHandler e) = 500)
  /\ ~ failsWith "CONFLICT" (outcome call db)
  /\ after call db = db.
Proof.
  intros Hb Hcan Hp Hm Hne call. subst call. unfold outcome, after.
  rewrite addMember_run, Hb, Hp, Hm.
  replace (negb (Board.owner_id b =? userId)%string
           && negb (isAdmin boardId userId db)) with false.
  2:{ destruct Hcan as [<- | ->];
        [rewrite String.eqb_refl | rewrite andb_false_r]; reflexivity. }
  apply String.eqb_neq in Hne. rewrite Hne. simpl.
  split; [eexists; split; reflexivity|]. split; [|reflexivity].
  intros H. apply failsWith_inv in H. discriminate.
Qed.

(** X6: after a successful [addMember] the new member holds the given role
    ("editor" when none is given) and is let through exactly the gates that
    name no role or name that role. *)
Theorem added_member_passes_gate (newId boardId userId newMemberId : string)
  (role : option string) (db : Db) (member : BoardMember.t) :
  outcome (boardService.addMember newId boardId userId newMemberId role) db
  = Ok member ->
  boardId <> "" -> newMemberId <> "" ->
  let db' :=
    after (boardService.addMember newId boardId userId newMemberId role) db in
  BoardMember.role member = Js.nullish role "editor"
  /\ forall roles,
       (roles = [] \/ In (BoardMember.role member) roles ->
        outcome (authorize roles (Some boardId) (Some newMemberId)) db' = Ok tt)
       /\ (roles <> [] -> ~ In (BoardMember.role member) roles ->
           failsWith "FORBIDDEN"
             (outcome (authorize roles (Some boardId) (Some newMemberId)) db')).
Proof.
  unfold outcome, after. rewrite addMember_run.
  destruct (Prisma.findUnique _ (boards db)) as [b|] eqn:Hb; [|discriminate].
  destruct (_ && _); [discriminate|].
  destruct (Prisma.findUnique _ (profiles db)); [|discriminate].
  destruct (String.eqb_spec newMemberId (Board.owner_id b)) as [Ho|Ho];
    [discriminate|].
  destruct (memberRow boardId newMemberId db) eqn:Hm; [discriminate|].
  simpl. intros H Hbid Hnid. inversion H; subst member; clear H. simpl.
  split; [reflexivity|]. intros roles.
  apply String.eqb_neq in Hbid, Hnid.
  unfold authorize, Js.truthy. rewrite Hbid, Hnid. run_async.
  unfold Prisma.findUnique in Hb. rewrite Hb. simpl.
  assert ((Board.owner_id b =? newMemberId)%string = false) as ->
    by (apply String.eqb_neq; congruence).
  simpl. unfold memberRow, Prisma.findUnique in Hm.
  unfold Prisma.create. rewrite (find_app_none _ _ _ Hm). simpl.
  rewrite !String.eqb_refl. simpl.
  destruct (Js.includes roles (Js.nullish role "editor")) eqn:Hinc.
  - rewrite andb_false_r. simpl. split; [reflexivity|].
    intros _ Hnot. exfalso. apply Hnot. now apply includes_In.
  - assert (~ In (Js.nullish role "editor") roles) as Hnot.
    { rewrite <- includes_In. congruence. }
    destruct roles as [|r roles]; simpl.
    + split; [reflexivity | intros Hne; contradiction].
    + split; [intros [Hnil|Hin]; [discriminate | contradiction]|].
      intros _ _. fails_now.
Qed.

(** X7: [addMember] followed by [removeMember] of the same user, by the same
    requester, succeeds and restores the member table; the only trace is in
    the activity log.  The hypothesis says the generated row identifier is
    new. *)
Theorem addMember_removeMember_round_trip
  (newId boardId userId newMemberId : string) (role : option string)
  (db : Db) (member : BoardMember.t) :
  outcome (boardService.addMember newId boardId userId newMemberId role) db
  = Ok member ->
  (forall m, In m (boardMembers db) -> BoardMember.id m <> newId) ->
  let db1 :=
    after (boardService.addMember newId boardId userId newMemberId role) db in
  let db2 :=
    after (boardService.removeMember boardId userId newMemberId) db1 in
  outcome (boardService.removeMember boardId userId newMemberId) db1 = Ok tt
  /\ boardMembers db2 = boardMembers db
  /\ profiles db2 = profiles db /\ boards db2 = boards db
  /\ lists db2 = lists db /\ tasks db2 = tasks db
  /\ taskAssignees db2 = taskAssignees db.
Proof.
  unfold outcome, after. rewrite addMember_run.
  destruct (Prisma.findUnique _ (boards db)) as [b|] eqn:Hb; [|discriminate].
  destruct (negb (Board.owner_id b =? userId)%string
            && negb (isAdmin boardId userId db)) eqn:Hgate; [discriminate|].
  destruct (Prisma.findUnique _ (profiles db)); [|discriminate].
  destruct (String.eqb_spec newMemberId (Board.owner_id b)) as [Ho|Ho];
    [discriminate|].
  destruct (memberRow boardId newMemberId db) eqn:Hm; [discriminate|].
  simpl. intros H Hfresh. inversion H; subst member; clear H.
  rewrite removeMember_run. simpl. rewrite Hb.
  assert (memberRow boardId newMemberId
            (addedMemberDb newId boardId userId newMemberId
               (Js.nullish role "editor") db)
          = Some (BoardMember.mk newId boardId newMemberId
                    (Js.nullish role "editor"))) as Hrow.
  { unfold memberRow, Prisma.findUnique in *. simpl. unfold Prisma.create.
    rewrite (find_app_none _ _ _ Hm). simpl. now rewrite !String.eqb_refl. }
  assert (negb (Board.owner_id b =? userId)%string
          && negb (userId =? newMemberId)%string
          && negb (isAdmin boardId userId
                     (addedMemberDb newId boardId userId newMemberId
                        (Js.nullish role "editor") db)) = false) as ->.
  { destruct (negb (Board.owner_id b =? userId)%string); [|reflexivity].
    simpl in *. apply negb_false_iff in Hgate.
    destruct (String.eqb_spec userId newMemberId) as [E|E]; [reflexivity|].
    simpl. apply negb_false_iff.
    unfold isAdmin, memberRow, Prisma.findUnique in *. simpl.
    unfold Prisma.create.
    destruct (find _ (boardMembers db)) as [r|] eqn:Hr; [|discriminate].
    erewrite find_app_some; eauto. }
  apply String.eqb_neq in Ho. rewrite Ho, Hrow. simpl.
  split; [reflexivity|]. split; [|repeat split].
  apply delete_created; [|apply String.eqb_refl].
  intros r Hr. apply String.eqb_neq. now apply Hfresh.
Qed.

(** X8: [removeMember] succeeds exactly when the board exists, the target is
    not its owner, the target has a membership row, and the requester is the
    owner, the target itself, or an admin of the board (who may remove any
    member, other admins included). *)
Theorem removeMember_succeeds_iff (boardId userId targetUserId : string)
  (db : Db) :
  outcome (boardService.removeMember boardId userId targetUserId) db = Ok tt
  <-> exists b member,
        Prisma.findUnique (fun b => Board.id b =? boardId)%string (boards db)
        = Some b
        /\ targetUserId <> Board.owner_id b
        /\ memberRow boardId targetUserId db = Some member
        /\ (userId = Board.owner_id b \/ userId = targetUserId
            \/ isAdmin boardId userId db = true).
Proof.
  unfold outcome. rewrite removeMember_run.
  destruct (Prisma.findUnique _ (boards db)) as [b|].
  2:{ split; [discriminate | intros [b [m [H _]]]; discriminate]. }
  destruct (String.eqb_spec (Board.owner_id b) userId) as [Eo|Eo];
    destruct (String.eqb_spec userId targetUserId) as [Et|Et];
    destruct (isAdmin boardId userId db) eqn:Ea;
    destruct (String.eqb_spec targetUserId (Board.owner_id b)) as [Ew|Ew];
    destruct (memberRow boardId targetUserId db) as [member|] eqn:Hm;
    simpl; split; try discriminate;
    try (intros _; exists b, member; repeat split; auto; fail);
    intros [b' [m' [Hb [Hne [Hrow Hperm]]]]]; inversion Hb; subst b';
    try contradiction; try discriminate;
    destruct Hperm as [H|[H|H]]; try congruence.
Qed.

(** X9: with one membership row per (board, user), a user removed by a
    successful [removeMember] has no membership row left and is refused by
    every gate of the board with FORBIDDEN. *)
Theorem removed_member_is_shut_out (boardId userId targetUserId : string)
  (roles : list string) (db : Db) :
  NoDup (map (fun m => (BoardMember.board_id m, BoardMember.user_id m))
           (boardMembers db)) ->
  outcome (boardService.removeMember boardId userId targetUserId) db = Ok tt ->
  boardId <> "" -> targetUserId <> "" ->
  let db' := after (boardService.removeMember boardId userId targetUserId) db in
  memberRow boardId targetUserId db' = None
  /\ failsWith "FORBIDDEN"
       (outcome (authorize roles (Some boardId) (Some targetUserId)) db').
Proof.
  intros Hpairs. unfold outcome, after. rewrite removeMember_run.
  destruct (Prisma.findUnique _ (boards db)) as [b|] eqn:Hb; [|discriminate].
  destruct (_ && _); [discriminate|].
  destruct (String.eqb_spec targetUserId (Board.owner_id b)) as [Ew|Ew];
    [discriminate|].
  destruct (memberRow boardId targetUserId db) as [member|] eqn:Hm;
    [|discriminate].
  simpl. intros _ Hbid Htid.
  assert (memberRow boardId targetUserId
            (removedMemberDb boardId userId targetUserId member db) = None)
    as Hgone.
  { unfold memberRow, Prisma.findUnique in *. simpl. unfold Prisma.delete.
    destruct (find _ (filter _ (boardMembers db))) as [r|] eqn:Hr;
      [|reflexivity].
    exfalso. apply find_some in Hr. destruct Hr as [Hin Hpair].
    apply filter_In in Hin. destruct Hin as [Hin Hid].
    apply find_some in Hm. destruct Hm as [Hmin Hmpair].
    apply andb_true_iff in Hpair, Hmpair.
    destruct Hpair as [P1 P2], Hmpair as [Q1 Q2].
    apply String.eqb_eq in P1, P2, Q1, Q2.
    assert (r = member) as ->.
    { apply (NoDup_map_eq
               (fun m => (BoardMember.board_id m, BoardMember.user_id m))
               (boardMembers db)); auto. simpl. congruence. }
    rewrite String.eqb_refl in Hid. discriminate. }
  split; [exact Hgone|].
  apply String.eqb_neq in Hbid, Htid.
  unfold authorize, Js.truthy. rewrite Hbid, Htid. run_async.
  unfold Prisma.findUnique in Hb. rewrite Hb. simpl.
  assert ((Board.owner_id b =? targetUserId)%string = false) as ->
    by (apply String.eqb_neq; congruence).
  simpl. unfold memberRow, Prisma.findUnique in Hgone. simpl in Hgone.
  rewrite Hgone. simpl. fails_now.
Qed.

(** What a successful [assignUser] found and did. *)
Lemma assignUser_ok_inv (newId taskId userId assigneeId : string) (db : Db)
  (a : TaskAssignee.t) :
  outcome (taskService.assignUser newId taskId userId assigneeId) db = Ok a ->
  exists task list board,
    Prisma.findUnique (fun t => Task.id t =? taskId)%string (tasks db)
    = Some task
    /\ Prisma.findUnique (fun l => List_.id l =? Task.list_id task)%string
         (lists db) = Some list
    /\ Prisma.findUnique (fun b => Board.id b =? List_.board_id list)%string
         (boards db) = Some board
    /\ (Board.owner_id board = assigneeId
        \/ memberRow (List_.board_id list) assigneeId db <> None)
    /\ assignmentRow taskId assigneeId db = None
    /\ a = TaskAssignee.mk newId taskId assigneeId
    /\ exists entry,
         after (taskService.assignUser newId taskId userId assigneeId) db
         = set_activityLogs (Prisma.create entry)
             (set_taskAssignees (Prisma.create a) db).
Proof.
  unfold taskService.assignUser, taskService.findTaskWithList, memberRow,
    assignmentRow.
  run_async.
  destruct (find _ (tasks db)) as [task|] eqn:Ht; simpl; [|discriminate].
  destruct (find _ (lists db)) as [list|] eqn:Hl; simpl; [|discriminate].
  destruct (find _ (boards db)) as [board|] eqn:Hb; simpl; [|discriminate].
  destruct (String.eqb_spec (Board.owner_id board) assigneeId) as [Ho|Ho];
    simpl.
  - destruct (find _ (taskAssignees db)) eqn:Ha; simpl; [discriminate|].
    intros H. inversion H; subst a. exists task, list, board.
    split; [reflexivity|]. split; [exact Hl|]. split; [exact Hb|].
    split; [now left|]. split; [reflexivity|].
    split; [reflexivity|]. eexists. reflexivity.
  - destruct (find _ (boardMembers db)) as [m|] eqn:Hm; simpl; [|discriminate].
    destruct (find _ (taskAssignees db)) eqn:Ha; simpl; [discriminate|].
    intros H. inversion H; subst a. exists task, list, board.
    split; [reflexivity|]. split; [exact Hl|]. split; [exact Hb|].
    split; [right; congruence|]. split; [reflexivity|].
    split; [reflexivity|]. eexists. reflexivity.
Qed.

(** X10: right after a successful [assignUser], assigning the same user to
    the same task again, by whichever requester, fails with CONFLICT and
    changes nothing. *)
Theorem assignUser_twice_conflicts (newId newId' taskId userId userId'
  assigneeId : string) (db : Db) (a : TaskAssignee.t) :
  outcome (taskService.assignUser newId taskId userId assigneeId) db = Ok a ->
  let db' := after (taskService.assignUser newId taskId userId assigneeId) db in
  failsWith "CONFLICT"
    (outcome (taskService.assignUser newId' taskId userId' assigneeId) db')
  /\ after (taskService.assignUser newId' taskId userId' assigneeId) db' = db'.
Proof.
  intros Hok db'. subst db'.
  destruct (assignUser_ok_inv _ _ _ _ _ _ Hok)
    as (task & list & board & Ht & Hl & Hb & Hallowed & Hnone & -> & entry & ->).
  pose proof (findTaskWithList_found taskId
                (set_activityLogs (Prisma.create entry)
                   (set_taskAssignees
                      (Prisma.create (TaskAssignee.mk newId taskId assigneeId))
                      db)) task list Ht Hl) as Hfound.
  unfold outcome, after, taskService.assignUser.
  rewrite (bind_ok _ _ _ _ _ Hfound). run_async.
  unfold Prisma.findUnique in Hb. rewrite Hb. simpl.
  unfold assignmentRow, Prisma.findUnique in Hnone.
  assert (Hdup : find
            (fun r => (TaskAssignee.task_id r =? taskId)%string
                      && (TaskAssignee.user_id r =? assigneeId)%string)
            (Prisma.create (TaskAssignee.mk newId taskId assigneeId)
               (taskAssignees db))
          = Some (TaskAssignee.mk newId taskId assigneeId)).
  { unfold Prisma.create. rewrite (find_app_none _ _ _ Hnone). simpl.
    now rewrite !String.eqb_refl. }
  destruct Hallowed as [Ho|Hm].
  - apply String.eqb_eq in Ho. rewrite Ho. simpl. rewrite Hdup. simpl.
    split; [fails_now | reflexivity].
  - destruct (negb _); simpl.
    + unfold memberRow, Prisma.findUnique in Hm.
      destruct (find _ (boardMembers db)); [|contradiction]. simpl.
      rewrite Hdup. simpl. split; [fails_now | reflexivity].
    + rewrite Hdup. simpl. split; [fails_now | reflexivity].
Qed.

(** X11: [assignUser] followed by [unassignUser] of the same pair succeeds
    and restores the assignment table.  The hypothesis says the generated
    row identifier is new. *)
Theorem assignUser_unassignUser_round_trip (newId taskId userId userId'
  assigneeId : string) (db : Db) (a : TaskAssignee.t) :
  outcome (taskService.assignUser newId taskId userId assigneeId) db = Ok a ->
  (forall r, In r (taskAssignees db) -> TaskAssignee.id r <> newId) ->
  let db1 := after (taskService.assignUser newId taskId userId assigneeId) db in
  let db2 := after (taskService.unassignUser taskId userId' assigneeId) db1 in
  outcome (taskService.unassignUser taskId userId' assigneeId) db1 = Ok tt
  /\ taskAssignees db2 = taskAssignees db
  /\ tasks db2 = tasks db /\ lists db2 = lists db
  /\ boards db2 = boards db /\ boardMembers db2 = boardMembers db.
Proof.
  intros Hok Hfresh db1 db2. subst db2 db1.
  destruct (assignUser_ok_inv _ _ _ _ _ _ Hok)
    as (task & list & board & Ht & Hl & Hb & Hallowed & Hnone & -> & entry & ->).
  pose proof (findTaskWithList_found taskId
                (set_activityLogs (Prisma.create entry)
                   (set_taskAssignees
                      (Prisma.create (TaskAssignee.mk newId taskId assigneeId))
                      db)) task list Ht Hl) as Hfound.
  unfold outcome, after, taskService.unassignUser.
  rewrite (bind_ok _ _ _ _ _ Hfound). run_async.
  unfold assignmentRow, Prisma.findUnique in Hnone.
  assert (Hdup : find
            (fun r => (TaskAssignee.task_id r =? taskId)%string
                      && (TaskAssignee.user_id r =? assigneeId)%string)
            (Prisma.create (TaskAssignee.mk newId taskId assigneeId)
               (taskAssignees db))
          = Some (TaskAssignee.mk newId taskId assigneeId)).
  { unfold Prisma.create. rewrite (find_app_none _ _ _ Hnone). simpl.
    now rewrite !String.eqb_refl. }
  rewrite Hdup. simpl.
  split; [reflexivity|]. split; [|repeat split].
  apply delete_created; [|apply String.eqb_refl].
  intros r Hr. apply String.eqb_neq. now apply Hfresh.
Qed.

Lemma addMember_existing_member_is_500_witness :
  let call := boardService.addMember "m2" "b1" "owner" "ed" None in
  (exists e, outcome call sampleDb = Threw e /\ fst (errorHandler e) = 500)
  /\ ~ failsWith "CONFLICT" (outcome call sampleDb)
  /\ after call sampleDb = sampleDb.
Proof.
  apply (addMember_existing_member_is_500 "m2" "b1" "owner" "ed" None sampleDb
           sampleBoard (mkProfile "ed" "Edgar" "Editor" "edgar@example.com")
           (BoardMember.mk "m1" "b1" "ed" "editor") eq_refl
           (or_introl eq_refl) eq_refl eq_refl).
  discriminate.
Defined.

Lemma added_member_passes_gate_witness :
  let db' :=
    after (boardService.addMember "m2" "b1" "owner" "al" (Some "viewer"))
      sampleDb in
  outcome (authorize [] (Some "b1") (Some "al")) db' = Ok tt
  /\ failsWith "FORBIDDEN"
       (outcome (authorize ["admin"; "editor"] (Some "b1") (Some "al")) db').
Proof.
  destruct (added_member_passes_gate "m2" "b1" "owner" "al" (Some "viewer")
              sampleDb (BoardMember.mk "m2" "b1" "al" "viewer") eq_refl)
    as [_ H]; [discriminate | discriminate |].
  split.
  - apply (H []). left. reflexivity.
  - apply (H ["admin"; "editor"]); [discriminate|].
    simpl. intros [E|[E|[]]]; discriminate.
Defined.

Lemma addMember_removeMember_round_trip_witness :
  let db1 :=
    after (boardService.addMember "m2" "b1" "owner" "al" None) sampleDb in
  let db2 := after (boardService.removeMember "b1" "owner" "al") db1 in
  outcome (boardService.removeMember "b1" "owner" "al") db1 = Ok tt
  /\ boardMembers db2 = boardMembers sampleDb.
Proof.
  destruct (addMember_removeMember_round_trip "m2" "b1" "owner" "al" None
              sampleDb (BoardMember.mk "m2" "b1" "al" "editor") eq_refl)
    as [H1 [H2 _]].
  - simpl. intros m [<-|[]]. discriminate.
  - split; [exact H1 | exact H2].
Defined.

Lemma removeMember_succeeds_iff_witness :
  outcome (boardService.removeMember "b1" "ed" "ed") sampleDb = Ok tt.
Proof.
  apply (proj2 (removeMember_succeeds_iff "b1" "ed" "ed" sampleDb)).
  exists sampleBoard, (BoardMember.mk "m1" "b1" "ed" "editor").
  split; [reflexivity|]. split; [discriminate|]. split; [reflexivity|].
  right. left. reflexivity.
Defined.

Lemma removed_member_is_shut_out_witness :
  let db' := after (boardService.removeMember "b1" "owner" "ed") sampleDb in
  memberRow "b1" "ed" db' = None
  /\ failsWith "FORBIDDEN" (outcome (authorize [] (Some "b1") (Some "ed")) db').
Proof.
  apply (removed_member_is_shut_out "b1" "owner" "ed" [] sampleDb).
  - simpl. constructor; [intros [] | constructor].
  - reflexivity.
  - discriminate.
  - discriminate.
Defined.

Lemma assignUser_twice_conflicts_witness :
  let db' := after (taskService.assignUser "a2" "t1" "owner" "ed") sampleDb in
  failsWith "CONFLICT"
    (outcome (taskService.assignUser "a3" "t1" "ed" "ed") db')
  /\ after (taskService.assignUser "a3" "t1" "ed" "ed") db' = db'.
Proof.
  exact (assignUser_twice_conflicts "a2" "a3" "t1" "owner" "ed" "ed" sampleDb
           (TaskAssignee.mk "a2" "t1" "ed") eq_refl).
Defined.

Lemma assignUser_unassignUser_round_trip_witness :
  let db1 := after (taskService.assignUser "a2" "t1" "owner" "ed") sampleDb in
  let db2 := after (taskService.unassignUser "t1" "owner" "ed") db1 in
  outcome (taskService.unassignUser "t1" "owner" "ed") db1 = Ok tt
  /\ taskAssignees db2 = taskAssignees sampleDb.
Proof.
  destruct (assignUser_unassignUser_round_trip "a2" "t1" "owner" "owner" "ed"
              sampleDb (TaskAssignee.mk "a2" "t1" "ed") eq_refl)
    as [H1 [H2 _]].
  - simpl. intros r [<-|[]]. discriminate.
  - split; [exact H1 | exact H2].
Defined.

(* ------------------------------------------------------------------------- *)
(** ** Further properties: where new lists and tasks go *)

Section NextPosition.
Context {R : Type} (scope : R -> string) (pos : R -> Z).

(** The position given to a new element lies above every position of its
    scope, and is 0 in an empty scope. *)
Lemma nextPosition_above (s : string) (rows : list R) :
  let next :=
    Js.nullish
      (option_map pos
         (Prisma.findFirstDesc (fun r => scope r =? s)%string pos rows)) (-1)
    + 1 in
  (forall p, In p (positionsIn scope pos s rows) -> p < next)
  /\ (positionsIn scope pos s rows = [] -> next = 0)
  /\ (positionsIn scope pos s rows <> [] ->
      In (next - 1) (positionsIn scope pos s rows)).
Proof.
  unfold Prisma.findFirstDesc, positionsIn.
  destruct (Prisma.maxBy pos _) as [m|] eqn:E; simpl.
  - apply maxBy_some in E. destruct E as [Hin Hmax]. split; [|split].
    + intros p Hp. apply in_map_iff in Hp. destruct Hp as [r [<- Hr]].
      specialize (Hmax r Hr). lia.
    + intros Hnil. apply (in_map pos) in Hin. rewrite Hnil in Hin.
      contradiction.
    + intros _. replace (pos m + 1 - 1) with (pos m) by lia.
      now apply in_map.
  - apply maxBy_none in E. rewrite E. simpl. split; [|split].
    + intros p [].
    + reflexivity.
    + intros H. contradiction.
Qed.

End NextPosition.

(** X12: [createList], [createTask]: where a list or a task is created, the
    new list goes behind the lists of its board and the new task behind the
    tasks of its list.  A call for a board (a list) that does not exist is
    answered NOT_FOUND and changes nothing.  A call that succeeds appends
    exactly one row, with the identifier, the parent and the name (title)
    given, at a position strictly above every position already used in its
    scope, 0 in an empty scope; positions that were distinct stay
    distinct.  No density of the existing positions is needed. *)
Theorem created_elements_go_last (db : Db) :
  (forall (newId boardId userId name : string),
     let call := listService.createList newId boardId userId name in
     (Prisma.findUnique (fun b => Board.id b =? boardId)%string (boards db)
      = None ->
      failsWith "NOT_FOUND" (outcome call db) /\ after call db = db)
     /\ forall l, outcome call db = Ok l ->
          lists (after call db) = (lists db ++ [l])%list
          /\ List_.id l = newId /\ List_.board_id l = boardId
          /\ List_.name l = name
          /\ (forall p, In p (listPositions boardId db) -> p < List_.position l)
          /\ (listPositions boardId db = [] -> List_.position l = 0)
          /\ (NoDup (listPositions boardId db) ->
              NoDup (listPositions boardId (after call db))))
  /\ (forall (newId userId : string) (data : taskService.CreateTaskData),
        let call := taskService.createTask newId userId data in
        let listId := taskService.ct_list_id data in
        (Prisma.findUnique (fun l => List_.id l =? listId)%string (lists db)
         = None ->
         failsWith "NOT_FOUND" (outcome call db) /\ after call db = db)
        /\ forall t, outcome call db = Ok t ->
             tasks (after call db) = (tasks db ++ [t])%list
             /\ Task.id t = newId /\ Task.list_id t = listId
             /\ Task.title t = taskService.ct_title data
             /\ Task.created_by t = userId
             /\ (forall p, In p (taskPositions listId db) -> p < Task.position t)
             /\ (taskPositions listId db = [] -> Task.position t = 0)
             /\ (NoDup (taskPositions listId db) ->
                 NoDup (taskPositions listId (after call db)))).
Proof.
  split.
  - intros newId boardId userId name call. subst call.
    unfold listService.createList. run_async.
    destruct (find _ (boards db)) as [b|]; simpl.
    2:{ split; [intros _; split; [fails_now | reflexivity]|].
        intros l H. discriminate H. }
    split; [intros H; discriminate H|].
    intros l H. injection H as <-. simpl.
    split; [reflexivity|]. split; [reflexivity|].
    split; [reflexivity|]. split; [reflexivity|].
    destruct (nextPosition_above List_.board_id List_.position boardId
                (lists db)) as [Habove [Hzero _]].
    split; [exact Habove|]. split; [exact Hzero|].
    intros Hnd. unfold listPositions, Prisma.create. simpl.
    rewrite positionsIn_app. unfold positionsIn at 2. simpl.
    rewrite String.eqb_refl. simpl.
    apply NoDup_app; [exact Hnd | repeat constructor; intros [] |].
    intros p Hp [<-|[]]. specialize (Habove _ Hp). lia.
  - intros newId userId data call listId. subst call listId.
    unfold taskService.createTask. run_async.
    destruct (find _ (lists db)) as [l|]; simpl.
    2:{ split; [intros _; split; [fails_now | reflexivity]|].
        intros t H. discriminate H. }
    split; [intros H; discriminate H|].
    intros t H. injection H as <-. simpl.
    split; [reflexivity|]. split; [reflexivity|].
    split; [reflexivity|]. split; [reflexivity|]. split; [reflexivity|].
    destruct (nextPosition_above Task.list_id Task.position
                (taskService.ct_list_id data) (tasks db))
      as [Habove [Hzero _]].
    split; [exact Habove|]. split; [exact Hzero|].
    intros Hnd. unfold taskPositions, Prisma.create. simpl.
    rewrite positionsIn_app. unfold positionsIn at 2. simpl.
    rewrite String.eqb_refl. simpl.
    apply NoDup_app; [exact Hnd | repeat constructor; intros [] |].
    intros p Hp [<-|[]]. specialize (Habove _ Hp). lia.
Qed.

Lemma created_elements_go_last_witness :
  let call := listService.createList "l3" "b1" "ed" "Later" in
  let l := List_.mk "l3" "Later" 3 "b1" in
  outcome call sampleDb = Ok l
  /\ lists (after call sampleDb) = (lists sampleDb ++ [l])%list
  /\ (forall p, In p (listPositions "b1" sampleDb) -> p < List_.position l).
Proof.
  intros call l.
  destruct (proj2 (proj1 (created_elements_go_last sampleDb)
                     "l3" "b1" "ed" "Later") l eq_refl)
    as [H1 [_ [_ [_ [H5 _]]]]].
  split; [reflexivity|]. split; [exact H1 | exact H5].
Defined.

(* ------------------------------------------------------------------------- *)
(** ** Further properties: identifiers and sequences of operations *)

Section Ids.
Context {R : Type} (rid : R -> string).

Lemma updateMany_ids (where_ : R -> bool) (data : R -> R) (rows : list R) :
  (forall r, rid (data r) = rid r) ->
  map rid (Prisma.updateMany where_ data rows) = map rid rows.
Proof.
  intros H. unfold Prisma.updateMany. rewrite map_map. apply map_ext.
  intros r. destruct (where_ r); [apply H | reflexivity].
Qed.

Lemma delete_ids_NoDup (where_ : R -> bool) (rows : list R) :
  NoDup (map rid rows) -> NoDup (map rid (Prisma.delete where_ rows)).
Proof.
  unfold Prisma.delete. induction rows as [|a rows IH]; simpl; intros H;
    [constructor|].
  inversion H as [|? ? Hnotin Hnd]; subst.
  destruct (negb (where_ a)); simpl; [|now apply IH].
  constructor; [|now apply IH].
  intros Hin. apply Hnotin. apply in_map_iff in Hin.
  destruct Hin as [r [E Hr]]. apply filter_In in Hr.
  rewrite <- E. apply in_map. tauto.
Qed.

Lemma create_ids_NoDup (x : R) (rows : list R) :
  NoDup (map rid rows) ->
  existsb (String.eqb (rid x)) (map rid rows) = false ->
  NoDup (map rid (Prisma.create x rows)).
Proof.
  intros Hnd Hfresh. unfold Prisma.create. rewrite map_app. simpl.
  apply NoDup_app; [exact Hnd | repeat constructor; intros [] |].
  intros i Hi [<-|[]].
  assert (existsb (String.eqb (rid x)) (map rid rows) = true) as E;
    [|congruence].
  apply existsb_exists. exists (rid x). split; [exact Hi|].
  apply String.eqb_refl.
Qed.

End Ids.

Lemma run_keeps_uniqueKeys (op : Op) (db : Db) :
  uniqueKeys db -> freshIds op db = true -> uniqueKeys (after (run op) db).
Proof.
  intros [Hl Ht] Hfresh. unfold uniqueKeys.
  destruct op; unfold run; rewrite ?after_discard; simpl in Hfresh.
  - unfold listService.createList. run_async.
    destruct (find _ (boards db)); simpl; [|now split].
    split; [|exact Ht].
    apply create_ids_NoDup; [exact Hl|]. simpl.
    now apply negb_true_iff in Hfresh.
  - assert (map List_.id (lists (after (listService.updateList listId userId data) db))
            = map List_.id (lists db)
            /\ tasks (after (listService.updateList listId userId data) db)
               = tasks db) as [E1 E2].
    { unfold listService.updateList. run_async.
      destruct (find _ (lists db)) as [l|]; simpl; [|now split].
      destruct (listService.ul_position data) as [new|]; simpl.
      - destruct (negb (new =? List_.position l)); simpl;
          [destruct (new >? List_.position l); simpl|];
          (split; [|reflexivity]);
          unfold Prisma.update; rewrite ?updateMany_ids; auto;
          intros r; destruct (listService.ul_name data); reflexivity.
      - split; [|reflexivity].
        unfold Prisma.update; rewrite ?updateMany_ids; auto;
          intros r; destruct (listService.ul_name data); reflexivity. }
    rewrite E1, E2. now split.
  - unfold listService.deleteList. run_async.
    destruct (find _ (lists db)) as [l|]; simpl; [|now split].
    split.
    + rewrite updateMany_ids by reflexivity. now apply delete_ids_NoDup.
    + now apply delete_ids_NoDup.
  - unfold taskService.createTask. run_async.
    destruct (find _ (lists db)); simpl; [|now split].
    split; [exact Hl|].
    apply create_ids_NoDup; [exact Ht|]. simpl.
    now apply negb_true_iff in Hfresh.
  - assert (map Task.id (tasks (after (taskService.moveTask taskId userId data) db))
            = map Task.id (tasks db)
            /\ lists (after (taskService.moveTask taskId userId data) db)
               = lists db) as [E1 E2].
    { unfold taskService.moveTask, taskService.findTaskWithList. run_async.
      destruct (find _ (tasks db)) as [t|]; simpl; [|now split].
      destruct (find _ (lists db)) as [l|]; simpl; [|now split].
      destruct (find _ (lists db)) as [tl|]; simpl; [|now split].
      destruct (negb (List_.board_id tl =? List_.board_id l)%string); simpl;
        [now split|].
      destruct (negb (Task.list_id t =? taskService.mv_list_id data)%string);
        simpl;
        [|destruct (taskService.mv_position data >? Task.position t); simpl;
          [|destruct (taskService.mv_position data <? Task.position t); simpl]];
        (split; [|reflexivity]);
        unfold Prisma.update; rewrite ?updateMany_ids; auto. }
    rewrite E1, E2. now split.
Qed.

Lemma run_keeps_dense (op : Op) (db : Db) :
  uniqueKeys db -> allDense db -> validIndex op db = true ->
  allDense (after (run op) db).
Proof.
  intros Hkeys Hdense Hvalid. destruct op; unfold run;
    rewrite ?after_discard.
  - now apply createList_allDense.
  - now apply updateList_allDense.
  - now apply deleteList_allDense.
  - now apply createTask_allDense.
  - now apply moveTask_allDense.
Qed.

(** X13: The invariants along a sequence of calls: starting from a store with
    unique list and task identifiers and dense positions, any sequence of
    [createList], [updateList], [deleteList], [createTask] and [moveTask]
    calls, successful or rejected, ends in such a store again, provided each
    call, at the time it runs, is given an unused identifier for the row it
    creates and asks for an index of the scope it addresses. *)
Theorem sequences_keep_the_invariants (ops : list Op) (db : Db) :
  uniqueKeys db -> allDense db -> admissible ops db = true ->
  uniqueKeys (runAll ops db) /\ allDense (runAll ops db).
Proof.
  revert db. induction ops as [|op ops IH]; simpl; intros db Hk Hd Ha;
    [now split|].
  apply andb_true_iff in Ha. destruct Ha as [Ha Hrest].
  apply andb_true_iff in Ha. destruct Ha as [Hvalid Hfresh].
  apply IH; [now apply run_keeps_uniqueKeys | now apply run_keeps_dense | exact Hrest].
Qed.

Lemma sequences_keep_the_invariants_witness :
  let ops :=
    [ CreateList "l3" "b1" "ed" "Later";
      MoveTask "t0" "owner" (taskService.mkMoveTaskData "l1" 1);
      UpdateList "l3" "ed" (listService.mkUpdateListData None (Some 0));
      DeleteList "l0" "owner";
      CreateTask "t3" "ed"
        (taskService.mkCreateTaskData "l1" "Test" None None None) ] in
  uniqueKeys (runAll ops sampleDb) /\ allDense (runAll ops sampleDb).
Proof.
  apply sequences_keep_the_invariants.
  - apply uniqueKeysb_ok. reflexivity.
  - apply allDenseb_ok. reflexivity.
  - reflexivity.
Defined.

(* ------------------------------------------------------------------------- *)
(** ** Further properties: ordered results and pages *)

Section Ascending.
Context {R : Type} (key : R -> Z).

Lemma insertAsc_Permutation (le : R -> R -> bool) (x : R) (rows : list R) :
  Permutation (x :: rows) (Prisma.insertAsc le x rows).
Proof.
  induction rows as [|r rows IH]; simpl; [reflexivity|].
  destruct (le x r); [reflexivity|].
  rewrite perm_swap. now apply perm_skip.
Qed.

Lemma orderByAsc_Permutation (le : R -> R -> bool) (rows : list R) :
  Permutation rows (Prisma.orderByAsc le rows).
Proof.
  unfold Prisma.orderByAsc. induction rows as [|r rows IH]; simpl;
    [reflexivity|].
  rewrite <- insertAsc_Permutation. now apply perm_skip.
Qed.

Lemma insertAsc_ascending (x : R) (rows : list R) :
  ascending (map key rows) ->
  ascending (map key (Prisma.insertAsc (fun a b => key a <=? key b) x rows)).
Proof.
  induction rows as [|r rows IH]; simpl.
  - intros _. split; [intros k []|exact I].
  - intros [Hr Hrows]. destruct (Z.leb_spec (key x) (key r)) as [Hle|Hlt]; simpl.
    + split; [|split; assumption].
      intros k [<-|Hk]; [exact Hle|]. specialize (Hr k Hk). lia.
    + split; [|now apply IH].
      intros k Hk. apply in_map_iff in Hk. destruct Hk as [y [<- Hy]].
      apply insertAsc_In in Hy. destruct Hy as [->|Hy]; [lia|].
      apply Hr. now apply in_map.
Qed.

Lemma orderByAsc_ascending (rows : list R) :
  ascending
    (map key (Prisma.orderByAsc (fun a b => key a <=? key b) rows)).
Proof.
  unfold Prisma.orderByAsc. induction rows as [|r rows IH]; simpl;
    [exact I|]. now apply insertAsc_ascending.
Qed.

End Ascending.



(** Ascending keys that fill an interval are the interval in order. *)
Lemma ascending_interval (ks : list Z) (a : Z) :
  ascending ks -> NoDup ks ->
  (forall p, In p ks <-> a <= p < a + Z.of_nat (List.length ks)) ->
  ks = map (fun i => a + Z.of_nat i) (seq 0 (List.length ks)).
Proof.
  revert a. induction ks as [|k ks IH]; intros a Hasc Hnd Hin; [reflexivity|].
  destruct Hasc as [Hk Hasc]. inversion Hnd as [|? ? Hnotin Hnd']; subst.
  assert (k = a) as ->.
  { assert (In a (k :: ks)) as Ha by (apply Hin; simpl List.length; lia).
    assert (a <= k) by (apply (Hin k); now left).
    destruct Ha as [->|Ha]; [reflexivity|]. specialize (Hk a Ha). lia. }
  simpl. f_equal; [lia|].
  rewrite <- seq_shift, map_map.
  rewrite (IH (a + 1) Hasc Hnd').
  - rewrite length_map, length_seq. apply map_ext. intros i. lia.
  - intros p. split.
    + intros Hp. assert (p <> a) by (intros ->; contradiction).
      assert (a <= p < a + Z.of_nat (List.length (a :: ks)))
        by (apply Hin; now right).
      simpl List.length in *. lia.
    + intros Hp.
      assert (In p (a :: ks)) as [<-|Hp']
        by (apply Hin; simpl List.length; lia); [lia | exact Hp'].
Qed.

Lemma ascending_dense (ks : list Z) :
  ascending ks -> dense ks -> ks = indices (List.length ks).
Proof.
  intros Hasc [Hnd Hin]. unfold indices.
  rewrite (ascending_interval ks 0 Hasc Hnd) at 1; [reflexivity|].
  intros p. rewrite Hin. lia.
Qed.

Lemma firstn_plus {R : Type} (a b : nat) (rows : list R) :
  firstn (a + b) rows = (firstn a rows ++ firstn b (skipn a rows))%list.
Proof.
  revert rows. induction a as [|a IH]; intros rows; simpl; [reflexivity|].
  destruct rows as [|r rows]; simpl.
  - now rewrite firstn_nil.
  - now rewrite IH.
Qed.

Lemma chunks_concat {R : Type} (size n : nat) (rows : list R) :
  List.concat (map (fun k => firstn size (skipn (k * size) rows)) (seq 0 n))
  = firstn (n * size) rows.
Proof.
  induction n as [|n IH]; [reflexivity|].
  rewrite seq_S, map_app, concat_app, IH. simpl.
  rewrite app_nil_r, (Nat.add_comm size), firstn_plus. reflexivity.
Qed.

Lemma nth_map_seq {A : Type} (f : nat -> A) (n k : nat) (d : A) :
  (k < n)%nat -> nth k (map f (seq 0 n)) d = f k.
Proof.
  intros Hk. rewrite (nth_indep _ d (f 0%nat))
    by (rewrite length_map, length_seq; exact Hk).
  rewrite map_nth, seq_nth by exact Hk. reflexivity.
Qed.

Lemma ceilDiv_bounds (a b : Z) :
  0 <= a -> 1 <= b ->
  exists n : nat,
    pagination.ceilDiv a b = Some (Z.of_nat n)
    /\ (Z.of_nat n - 1) * b < a <= Z.of_nat n * b.
Proof.
  intros Ha Hb. unfold pagination.ceilDiv.
  destruct (Z.eqb_spec b 0) as [->|_]; [lia|].
  pose proof (Z.div_mod (- a) b ltac:(lia)) as E.
  pose proof (Z.mod_pos_bound (- a) b ltac:(lia)) as Hm.
  assert (0 <= - (- a / b)) as Hq by nia.
  exists (Z.to_nat (- (- a / b))). rewrite Z2Nat.id by exact Hq.
  split; [reflexivity|]. nia.
Qed.

Lemma pageOf_chunk {R : Type} (k : nat) (limit : Z) (rows : list R) :
  0 <= limit ->
  pageOf (Z.of_nat k + 1) limit rows
  = Ok (firstn (Z.to_nat limit) (skipn (k * Z.to_nat limit) rows)).
Proof.
  intros Hl. unfold pageOf, window, pagination.paginate. simpl.
  replace (Z.of_nat k + 1 - 1) with (Z.of_nat k) by lia.
  destruct (Z.ltb_spec (Z.of_nat k * limit) 0) as [H|_]; [nia|].
  destruct (Z.leb_spec 0 limit) as [_|H]; [|lia].
  rewrite Z2Nat.inj_mul, Nat2Z.id by lia. reflexivity.
Qed.

(** X14: [paginate], [paginationMeta]: for a limit of at least 1 the page count
    is the number of pages that hold rows.  Pages 1 to [pages] are not
    empty, hold at most [limit] rows each and, one after the other, give the
    result set back; every page behind them is empty. *)
Theorem pages_partition_the_rows {R : Type} (limit : Z) (rows : list R) :
  1 <= limit ->
  exists chunks : list (list R),
    (forall page,
       pagination.pages
         (pagination.paginationMeta page limit (Z.of_nat (List.length rows)))
       = Some (Z.of_nat (List.length chunks)))
    /\ (forall k, (k < List.length chunks)%nat ->
          pageOf (Z.of_nat k + 1) limit rows = Ok (nth k chunks []))
    /\ List.concat chunks = rows
    /\ (forall c, In c chunks ->
          1 <= Z.of_nat (List.length c) <= limit)
    /\ (forall page, Z.of_nat (List.length chunks) < page ->
          pageOf page limit rows = Ok []).
Proof.
  intros Hl.
  destruct (ceilDiv_bounds (Z.of_nat (List.length rows)) limit
              ltac:(lia) Hl) as [n [Hn Hb]].
  set (size := Z.to_nat limit).
  assert (Z.of_nat size = limit) as Hsize by (apply Z2Nat.id; lia).
  exists (map (fun k => firstn size (skipn (k * size) rows)) (seq 0 n)).
  rewrite length_map, length_seq.
  split; [intros page; exact Hn|].
  split; [|split; [|split]].
  - intros k Hk. rewrite pageOf_chunk by lia. f_equal.
    now rewrite nth_map_seq by exact Hk.
  - rewrite chunks_concat. apply firstn_all2. nia.
  - intros c Hc. apply in_map_iff in Hc. destruct Hc as [k [<- Hk]].
    apply in_seq in Hk. rewrite length_firstn, length_skipn. nia.
  - intros page Hp. unfold pageOf, window, pagination.paginate. simpl.
    destruct (Z.ltb_spec ((page - 1) * limit) 0) as [H|_]; [nia|].
    destruct (Z.leb_spec 0 limit) as [_|H]; [|lia].
    rewrite skipn_all2; [now rewrite firstn_nil|]. nia.
Qed.

Lemma pages_partition_the_rows_witness :
  exists chunks : list (list Z),
    (forall page,
       pagination.pages (pagination.paginationMeta page 2 5)
       = Some (Z.of_nat (List.length chunks)))
    /\ (forall k, (k < List.length chunks)%nat ->
          pageOf (Z.of_nat k + 1) 2 [10; 11; 12; 13; 14]
          = Ok (nth k chunks []))
    /\ List.concat chunks = [10; 11; 12; 13; 14]
    /\ (forall c, In c chunks -> 1 <= Z.of_nat (List.length c) <= 2)
    /\ (forall page, Z.of_nat (List.length chunks) < page ->
          pageOf page 2 [10; 11; 12; 13; 14] = Ok []).
Proof.
  apply (pages_partition_the_rows 2 [10; 11; 12; 13; 14]). lia.
Defined.

Lemma truthy_some (x : option string) :
  Js.truthy x = true -> exists s, x = Some s /\ s <> "".
Proof.
  unfold Js.truthy. destruct x as [s|]; [|discriminate].
  destruct s; [discriminate|]. intros _. eexists. split; [reflexivity|].
  discriminate.
Qed.

Lemma truthy_given (s : string) : s <> "" -> Js.truthy (Some s) = true.
Proof. destruct s; [congruence | reflexivity]. Qed.





(** X16: [getBoardWithLists]: NOT_FOUND exactly when the board does not exist.
    Otherwise the answer carries the board, its member rows and exactly its
    lists, in ascending position, each with exactly its tasks, in ascending
    position.  Where the positions of the board's lists are dense, the list
    at index i of the answer is the list at position i. *)
Theorem getBoardWithLists_view (boardId : string) (db : Db) :
  let call := boardService.getBoardWithLists boardId in
  let found :=
    Prisma.findUnique (fun b => Board.id b =? boardId)%string (boards db) in
  after call db = db
  /\ (found = None -> failsWith "NOT_FOUND" (outcome call db))
  /\ forall b, found = Some b ->
       exists v,
         outcome call db = Ok v
         /\ boardService.bv_board v = b
         /\ (forall m, In m (boardService.bv_members v) <->
               In m (boardMembers db) /\ BoardMember.board_id m = boardId)
         /\ (forall l, In l (map boardService.lv_list (boardService.bv_lists v))
               <-> In l (lists db) /\ List_.board_id l = boardId)
         /\ ascending
              (map (fun lv => List_.position (boardService.lv_list lv))
                 (boardService.bv_lists v))
         /\ (dense (listPositions boardId db) ->
             map (fun lv => List_.position (boardService.lv_list lv))
               (boardService.bv_lists v)
             = indices (List.length (boardService.bv_lists v)))
         /\ forall lv, In lv (boardService.bv_lists v) ->
              ascending
                (map (fun tv => Task.position (boardService.tv_task tv))
                   (boardService.lv_tasks lv))
              /\ forall t,
                   In t (map boardService.tv_task (boardService.lv_tasks lv))
                   <-> In t (tasks db)
                       /\ Task.list_id t
                          = List_.id (boardService.lv_list lv).
Proof.
  intros call found. subst call found.
  unfold boardService.getBoardWithLists. run_async.
  destruct (find _ (boards db)) as [b|] eqn:Hb; simpl.
  - split; [reflexivity|]. split; [discriminate|].
    intros b' E. injection E as <-.
    assert (Board.id b = boardId) as Hid
      by (apply find_some in Hb; now apply String.eqb_eq).
    eexists. split; [reflexivity|]. simpl. rewrite Hid.
    split; [reflexivity|].
    split; [|split; [|split; [|split]]].
    + intros m. rewrite filter_In, String.eqb_eq. reflexivity.
    + intros l. rewrite map_map. unfold boardService.listView at 1. simpl.
      rewrite map_id, orderByAsc_In, filter_In, String.eqb_eq. reflexivity.
    + rewrite map_map. unfold boardService.listView at 1. simpl.
      apply (orderByAsc_ascending List_.position).
    + intros Hdense. rewrite length_map, map_map.
      unfold boardService.listView at 1. simpl.
      set (sorted := Prisma.orderByAsc _ _).
      rewrite <- (length_map List_.position sorted).
      apply ascending_dense;
        [apply (orderByAsc_ascending List_.position)|].
      apply (dense_perm (listPositions boardId db)); [|exact Hdense].
      unfold listPositions, positionsIn. apply Permutation_map.
      apply orderByAsc_Permutation.
    + intros lv Hlv. apply in_map_iff in Hlv. destruct Hlv as [l [<- _]].
      unfold boardService.listView. simpl. rewrite !map_map.
      unfold boardService.taskView at 1 2. simpl. split.
      * apply (orderByAsc_ascending Task.position).
      * intros t. rewrite map_id, orderByAsc_In, filter_In, String.eqb_eq.
        reflexivity.
  - split; [reflexivity|]. split; [intros _; fails_now | discriminate].
Qed.

Lemma getBoardWithLists_view_witness :
  exists v,
    outcome (boardService.getBoardWithLists "b1") sampleDb = Ok v
    /\ map (fun lv => List_.position (boardService.lv_list lv))
         (boardService.bv_lists v)
       = indices (List.length (boardService.bv_lists v)).
Proof.
  destruct (getBoardWithLists_view "b1" sampleDb) as [_ [_ H]].
  destruct (H sampleBoard eq_refl) as [v [H1 [_ [_ [_ [_ [H6 _]]]]]]].
  exists v. split; [exact H1|]. apply H6.
  apply denseb_dense. reflexivity.
Defined.

(* ------------------------------------------------------------------------- *)
(** ** Further properties: who may pass the gate, and who owns a board *)

(** The gate reads the owner of the board and the member row of the user on
    that board, and nothing else. *)
Lemma authorize_reads (allowedRoles : list string)
  (boardId userId : option string) (db db' : Db) :
  option_map Board.owner_id
    (find (fun b => Board.id b =? Js.nullish boardId "")%string (boards db'))
  = option_map Board.owner_id
      (find (fun b => Board.id b =? Js.nullish boardId "")%string (boards db)) ->
  find (fun m => (BoardMember.board_id m =? Js.nullish boardId "")%string
                 && (BoardMember.user_id m =? Js.nullish userId "")%string)
    (boardMembers db')
  = find (fun m => (BoardMember.board_id m =? Js.nullish boardId "")%string
                   && (BoardMember.user_id m =? Js.nullish userId "")%string)
      (boardMembers db) ->
  outcome (authorize allowedRoles boardId userId) db'
  = outcome (authorize allowedRoles boardId userId) db.
Proof.
  intros Hb Hm. unfold authorize.
  destruct (negb (Js.truthy boardId) || negb (Js.truthy userId));
    [reflexivity|].
  run_async.
  destruct (find _ (boards db')) as [b'|], (find _ (boards db)) as [b|];
    simpl in *; try discriminate; [|reflexivity].
  injection Hb as ->.
  destruct (Board.owner_id b =? Js.nullish userId "")%string; simpl;
    [reflexivity|].
  rewrite Hm.
  destruct (find _ (boardMembers db)) as [m|]; simpl; [|reflexivity].
  destruct (_ && _); reflexivity.
Qed.

Lemma update_owner (boardId bid : string) (T : Board.t -> Board.t)
  (rows : list Board.t) :
  (forall b, Board.id (T b) = Board.id b) ->
  (forall b, Board.owner_id (T b) = Board.owner_id b) ->
  option_map Board.owner_id
    (find (fun b => Board.id b =? bid)%string
       (Prisma.update (fun b => Board.id b =? boardId)%string T rows))
  = option_map Board.owner_id
      (find (fun b => Board.id b =? bid)%string rows).
Proof.
  intros Hid Hown. unfold Prisma.update, Prisma.updateMany.
  rewrite find_map_same.
  - destruct (find _ rows) as [b|]; simpl; [|reflexivity].
    destruct (Board.id b =? boardId)%string; [now rewrite Hown | reflexivity].
  - intros b. destruct (Board.id b =? boardId)%string;
      [now rewrite Hid | reflexivity].
Qed.

(** X17: The calls on lists and tasks, and [updateBoard], never change what the
    gate decides: after any of them, successful or not, every user gets the
    answer of before, for every board and every set of roles.  Only
    [createBoard], [deleteBoard], [addMember] and [removeMember] can change
    who passes. *)
Theorem gate_unchanged_by_content_calls (req : Request) (db : Db)
  (allowedRoles : list string) (boardId userId : option string) :
  changesAccess req = false ->
  outcome (authorize allowedRoles boardId userId) (after (perform req) db)
  = outcome (authorize allowedRoles boardId userId) db.
Proof.
  intros Hreq. apply authorize_reads.
  - generalize (Js.nullish boardId ""). intros bid.
    destruct req; try discriminate Hreq;
      unfold_services; run_async;
      repeat (split_if; simpl in * ); try reflexivity.
    now apply update_owner.
  - destruct req; try discriminate Hreq;
      unfold_services; run_async;
      repeat (split_if; simpl in * ); reflexivity.
Qed.

Lemma gate_unchanged_by_content_calls_witness :
  let req :=
    ReqUpdateBoard "b1" "owner"
      (boardService.mkUpdateBoardData (Some "Renamed") None None (Some true)) in
  outcome (perform req) sampleDb = Ok tt
  /\ outcome (authorize ["admin"; "editor"] (Some "b1") (Some "ed"))
       (after (perform req) sampleDb)
     = outcome (authorize ["admin"; "editor"] (Some "b1") (Some "ed"))
         sampleDb.
Proof.
  intros req. split; [reflexivity|].
  apply (gate_unchanged_by_content_calls req). reflexivity.
Defined.

(** X18: [updateBoard], [deleteBoard]: the call succeeds exactly when the board
    exists and the caller is its owner.  Every other user is refused with
    FORBIDDEN, also a member with role [admin], who passes the gate that
    asks for that role. *)
Theorem only_the_owner_updates_or_deletes (boardId userId : string)
  (data : boardService.UpdateBoardData) (db : Db) :
  let found :=
    Prisma.findUnique (fun b => Board.id b =? boardId)%string (boards db) in
  let owned := exists b, found = Some b /\ Board.owner_id b = userId in
  ((exists b', outcome (boardService.updateBoard boardId userId data) db
               = Ok b') <-> owned)
  /\ (outcome (boardService.deleteBoard boardId userId) db = Ok tt <-> owned)
  /\ (forall b, found = Some b -> Board.owner_id b <> userId ->
        failsWith "FORBIDDEN"
          (outcome (boardService.updateBoard boardId userId data) db)
        /\ failsWith "FORBIDDEN"
             (outcome (boardService.deleteBoard boardId userId) db)
        /\ (boardId <> "" -> userId <> "" ->
            isAdmin boardId userId db = true ->
            outcome (authorize ["admin"] (Some boardId) (Some userId)) db
            = Ok tt)).
Proof.
  intros found owned. subst found owned.
  unfold boardService.updateBoard, boardService.deleteBoard.
  run_async. destruct (find _ (boards db)) as [b|] eqn:Hfind; simpl.
  - destruct (String.eqb_spec (Board.owner_id b) userId) as [Ho|Ho]; simpl.
    + split; [|split].
      * split; [intros _; now exists b | intros _; eexists; reflexivity].
      * split; [intros _; now exists b | reflexivity].
      * intros b' E. injection E as <-. contradiction.
    + split; [|split].
      * split; [intros [b' H]; discriminate H|].
        intros [b' [E H]]. injection E as <-. contradiction.
      * split; [intros H; discriminate H|].
        intros [b' [E H]]. injection E as <-. contradiction.
      * intros b' E _. injection E as <-.
        split; [fails_now|]. split; [fails_now|].
        intros Hb Hu Hadmin. unfold authorize.
        rewrite (truthy_given _ Hb), (truthy_given _ Hu). run_async.
        rewrite Hfind. simpl.
        apply String.eqb_neq in Ho. rewrite Ho. simpl.
        unfold isAdmin, memberRow, Prisma.findUnique in Hadmin.
        destruct (find _ (boardMembers db)) as [m|]; [|discriminate].
        simpl. rewrite Hadmin. reflexivity.
  - split; [|split].
    + split; [intros [b' H]; discriminate H | intros [b' [E _]]; discriminate E].
    + split; [intros H; discriminate H | intros [b' [E _]]; discriminate E].
    + intros b' E. discriminate E.
Qed.

Lemma only_the_owner_updates_or_deletes_witness :
  let db :=
    after (boardService.addMember "m2" "b1" "owner" "al" (Some "admin"))
      sampleDb in
  failsWith "FORBIDDEN"
    (outcome (boardService.updateBoard "b1" "al"
                (boardService.mkUpdateBoardData (Some "Mine") None None None))
       db)
  /\ failsWith "FORBIDDEN" (outcome (boardService.deleteBoard "b1" "al") db)
  /\ outcome (authorize ["admin"] (Some "b1") (Some "al")) db = Ok tt.
Proof.
  intros db.
  destruct (only_the_owner_updates_or_deletes "b1" "al"
              (boardService.mkUpdateBoardData (Some "Mine") None None None) db)
    as [_ [_ H]].
  destruct (H sampleBoard eq_refl) as [H1 [H2 H3]]; [discriminate|].
  split; [exact H1|]. split; [exact H2|].
  apply H3; [discriminate | discriminate | reflexivity].
Defined.

(** X19: [createBoard]: given an identifier that no board has yet, the new board
    comes into being with the caller as owner: the caller passes its gate
    whatever roles are asked for, and a user without a member row on that
    identifier is refused with FORBIDDEN.  The boards that were there keep
    their owners and members. *)
Theorem creator_owns_the_new_board (newId : string)
  (listIds : string * string * string) (userId : string)
  (data : boardService.CreateBoardData) (db : Db) :
  newId <> "" -> userId <> "" ->
  Prisma.findUnique (fun b => Board.id b =? newId)%string (boards db) = None ->
  let db' := after (boardService.createBoard newId listIds userId data) db in
  (forall allowedRoles,
     outcome (authorize allowedRoles (Some newId) (Some userId)) db' = Ok tt)
  /\ (forall allowedRoles other,
        other <> "" -> other <> userId -> memberRow newId other db = None ->
        failsWith "FORBIDDEN"
          (outcome (authorize allowedRoles (Some newId) (Some other)) db'))
  /\ (forall allowedRoles boardId user,
        boardId <> Some newId ->
        outcome (authorize allowedRoles boardId user) db'
        = outcome (authorize allowedRoles boardId user) db).
Proof.
  intros Hn Hu Hfresh db'. subst db'. destruct listIds as [[id0 id1] id2].
  unfold Prisma.findUnique in Hfresh.
  split; [|split].
  - intros roles. unfold authorize, boardService.createBoard.
    rewrite (truthy_given _ Hn), (truthy_given _ Hu). run_async.
    unfold Prisma.create. rewrite (find_app_none _ _ _ Hfresh). simpl.
    rewrite !String.eqb_refl. reflexivity.
  - intros roles other Ho Hne Hrow. unfold authorize, boardService.createBoard.
    rewrite (truthy_given _ Hn), (truthy_given _ Ho). run_async.
    unfold Prisma.create. rewrite (find_app_none _ _ _ Hfresh). simpl.
    rewrite String.eqb_refl. simpl.
    apply not_eq_sym, String.eqb_neq in Hne. rewrite Hne. simpl.
    unfold memberRow, Prisma.findUnique in Hrow. rewrite Hrow. simpl.
    fails_now.
  - intros roles boardId user Hb. apply authorize_reads; [|reflexivity].
    assert (newId <> Js.nullish boardId "") as Hbid.
    { destruct boardId as [x|]; simpl; [congruence | exact Hn]. }
    unfold boardService.createBoard. run_async. unfold Prisma.create.
    destruct (find (fun b => Board.id b =? Js.nullish boardId "")%string
                (boards db)) as [b|] eqn:E.
    + now rewrite (find_app_some _ _ _ _ E).
    + rewrite (find_app_none _ _ _ E). simpl.
      apply String.eqb_neq in Hbid. now rewrite Hbid.
Qed.

Lemma creator_owns_the_new_board_witness :
  let db' :=
    after (boardService.createBoard "b3" ("n0", "n1", "n2") "ed"
             (boardService.mkCreateBoardData "Mine" None None)) sampleDb in
  outcome (authorize ["admin"] (Some "b3") (Some "ed")) db' = Ok tt
  /\ failsWith "FORBIDDEN"
       (outcome (authorize [] (Some "b3") (Some "owner")) db').
Proof.
  intros db'.
  destruct (creator_owns_the_new_board "b3" ("n0", "n1", "n2") "ed"
              (boardService.mkCreateBoardData "Mine" None None) sampleDb)
    as [H1 [H2 _]]; try discriminate; [reflexivity|].
  split; [apply H1|]. apply H2; [discriminate | discriminate | reflexivity].
Defined.
Lemma find_delete_other {R : Type} (p q : R -> bool) (rows : list R) :
  (forall r, p r = true -> q r = false) ->
  find p (Prisma.delete q rows) = find p rows.
Proof.
  intros H. unfold Prisma.delete. induction rows as [|r rows IH]; simpl;
    [reflexivity|].
  destruct (p r) eqn:Hp.
  - rewrite (H r Hp). simpl. now rewrite Hp.
  - destruct (negb (q r)); simpl; [rewrite Hp|]; exact IH.
Qed.

Lemma find_delete_same {R : Type} (p : R -> bool) (rows : list R) :
  find p (Prisma.delete p rows) = None.
Proof.
  unfold Prisma.delete. induction rows as [|r rows IH]; simpl; [reflexivity|].
  destruct (p r) eqn:Hp; simpl; [exact IH | now rewrite Hp].
Qed.

(** X20: [deleteBoard]: once the owner has deleted a board, the board is gone for
    everyone: the gate, the board view and a second delete all answer
    NOT_FOUND for its identifier.  What the gate decides about the other
    boards is as before. *)
Theorem deleted_board_is_gone (boardId userId : string) (db : Db) :
  outcome (boardService.deleteBoard boardId userId) db = Ok tt ->
  let db' := after (boardService.deleteBoard boardId userId) db in
  (forall allowedRoles user, boardId <> "" -> user <> "" ->
     failsWith "NOT_FOUND"
       (outcome (authorize allowedRoles (Some boardId) (Some user)) db'))
  /\ failsWith "NOT_FOUND" (outcome (boardService.getBoardWithLists boardId) db')
  /\ (forall user,
        failsWith "NOT_FOUND"
          (outcome (boardService.deleteBoard boardId user) db'))
  /\ (forall allowedRoles other user, other <> boardId ->
        outcome (authorize allowedRoles (Some other) user) db'
        = outcome (authorize allowedRoles (Some other) user) db).
Proof.
  intros Hok db'. subst db'.
  assert (after (boardService.deleteBoard boardId userId) db
          = deleteBoardRow boardId db) as ->.
  { revert Hok. unfold boardService.deleteBoard. run_async.
    destruct (find _ (boards db)) as [b|]; simpl; [|discriminate].
    destruct (negb _); simpl; [discriminate | reflexivity]. }
  assert (find (fun b => Board.id b =? boardId)%string
            (boards (deleteBoardRow boardId db)) = None) as Hgone
    by apply find_delete_same.
  split; [|split; [|split]].
  - intros roles user Hb Hu. unfold authorize.
    rewrite (truthy_given _ Hb), (truthy_given _ Hu). run_async.
    unfold Prisma.delete in *. rewrite Hgone. simpl. fails_now.
  - unfold boardService.getBoardWithLists. run_async.
    unfold Prisma.delete in *. rewrite Hgone. simpl. fails_now.
  - intros user. unfold boardService.deleteBoard. run_async.
    unfold Prisma.delete in *. rewrite Hgone. simpl. fails_now.
  - intros roles other user Hne. apply authorize_reads.
    + simpl. f_equal. apply find_delete_other.
      intros b Hb. apply String.eqb_eq in Hb. rewrite Hb.
      now apply String.eqb_neq.
    + simpl. apply find_delete_other.
      intros m Hm. apply andb_true_iff in Hm. destruct Hm as [Hm _].
      apply String.eqb_eq in Hm. rewrite Hm. now apply String.eqb_neq.
Qed.

Lemma deleted_board_is_gone_witness :
  let db' := after (boardService.deleteBoard "b1" "owner") sampleDb in
  failsWith "NOT_FOUND" (outcome (authorize [] (Some "b1") (Some "ed")) db')
  /\ failsWith "NOT_FOUND" (outcome (boardService.getBoardWithLists "b1") db')
  /\ outcome (authorize [] (Some "b2") (Some "al")) db'
     = outcome (authorize [] (Some "b2") (Some "al")) sampleDb.
Proof.
  intros db'.
  destruct (deleted_board_is_gone "b1" "owner" sampleDb eq_refl)
    as [H1 [H2 [_ H4]]].
  split; [apply H1; discriminate|]. split; [exact H2|].
  apply H4. discriminate.
Defined.

(* ------------------------------------------------------------------------- *)
(** ** Further properties: updates *)

Lemma updateTask_tasks (taskId userId : string)
  (data : taskService.UpdateTaskData) (db : Db) :
  let db' := after (taskService.updateTask taskId userId data) db in
  (tasks db'
   = map (fun t => if (Task.id t =? taskId)%string
                   then taskService.applyTaskUpdate data t else t) (tasks db)
   \/ db' = db)
  /\ profiles db' = profiles db /\ boards db' = boards db
  /\ boardMembers db' = boardMembers db /\ lists db' = lists db
  /\ taskAssignees db' = taskAssignees db.
Proof.
  unfold taskService.updateTask, taskService.findTaskWithList. run_async.
  destruct (find _ (tasks db)) as [t|]; simpl; [|now auto 10].
  destruct (find _ (lists db)) as [l|]; simpl; [|now auto 10].
  split; [left; reflexivity | now auto 10].
Qed.

(** X21: [updateTask]: an update, successful or not, never moves a task.  The
    task table keeps its rows in place with the identifier, the list and the
    position each had, every task other than the one addressed is left as it
    was, and no other table than the activity log is written.  So unique
    keys stay unique and dense positions stay dense. *)
Theorem updateTask_never_moves_a_task (taskId userId : string)
  (data : taskService.UpdateTaskData) (db : Db) :
  let db' := after (taskService.updateTask taskId userId data) db in
  map Task.id (tasks db') = map Task.id (tasks db)
  /\ map Task.list_id (tasks db') = map Task.list_id (tasks db)
  /\ map Task.position (tasks db') = map Task.position (tasks db)
  /\ (forall t, In t (tasks db) -> Task.id t <> taskId -> In t (tasks db'))
  /\ lists db' = lists db
  /\ taskAssignees db' = taskAssignees db
  /\ boardMembers db' = boardMembers db
  /\ (uniqueKeys db -> uniqueKeys db')
  /\ (allDense db -> allDense db').
Proof.
  intros db'. subst db'.
  destruct (updateTask_tasks taskId userId data db)
    as [Ht [_ [_ [Hm [Hl Ha]]]]].
  set (db' := after (taskService.updateTask taskId userId data) db) in *.
  set (T := fun t => if (Task.id t =? taskId)%string
                     then taskService.applyTaskUpdate data t else t) in *.
  assert (tasks db' = map T (tasks db) \/ tasks db' = tasks db) as Ht'
    by (destruct Ht as [Ht| ->]; auto).
  assert (forall f : Task.t -> string, (forall t, f (T t) = f t) ->
            map f (tasks db') = map f (tasks db)) as Hstr.
  { intros f Hf. destruct Ht' as [-> | ->]; [|reflexivity].
    rewrite map_map. now apply map_ext. }
  assert (map Task.position (tasks db') = map Task.position (tasks db))
    as Hpos.
  { destruct Ht' as [-> | ->]; [|reflexivity].
    rewrite map_map. apply map_ext. intros t. unfold T.
    now destruct (Task.id t =? taskId)%string. }
  assert (forall t, Task.id (T t) = Task.id t) as Tid
    by (intros t; unfold T; now destruct (Task.id t =? taskId)%string).
  assert (forall t, Task.list_id (T t) = Task.list_id t) as Tlist
    by (intros t; unfold T; now destruct (Task.id t =? taskId)%string).
  assert (forall t, Task.position (T t) = Task.position t) as Tpos
    by (intros t; unfold T; now destruct (Task.id t =? taskId)%string).
  split; [now apply Hstr|]. split; [now apply Hstr|]. split; [exact Hpos|].
  split; [|split; [exact Hl|split; [exact Ha|split; [exact Hm|split]]]].
  - intros t Hin Hne. destruct Ht' as [-> | ->]; [|exact Hin].
    apply in_map_iff. exists t. split; [|exact Hin]. unfold T.
    apply String.eqb_neq in Hne. now rewrite Hne.
  - unfold uniqueKeys. rewrite Hl, (Hstr Task.id Tid). tauto.
  - unfold allDense, listPositions, taskPositions. rewrite Hl.
    intros [Hdl Hdt]. split; [exact Hdl|]. intros s.
    destruct Ht' as [-> | ->]; [|apply Hdt].
    rewrite positionsIn_map_same; [apply Hdt | |].
    + intros t _. now rewrite Tlist.
    + intros t _ _. apply Tpos.
Qed.
Lemma sameTables_refl (db : Db) : sameTables db db.
Proof. unfold sameTables. tauto. Qed.

Lemma outcome_discard {A : Type} (m : Async A) (db : Db) :
  outcome (bind m (fun _ => ret tt)) db
  = match outcome m db with
    | Ok _ => Ok tt
    | Threw e => Threw e
    end.
Proof.
  unfold outcome, bind, ret. destruct (m db) as [[a|e] db']; reflexivity.
Qed.

Lemma update_fixed {R : Type} (p : R -> bool) (T : R -> R) (rows : list R) :
  (forall r, In r rows -> p r = true -> T r = r) ->
  Prisma.update p T rows = rows.
Proof.
  intros H. unfold Prisma.update, Prisma.updateMany.
  rewrite <- (map_id rows) at 2. apply map_ext_in. intros r Hr.
  destruct (p r) eqn:Hp; [now apply H | reflexivity].
Qed.

Lemma find_update {R : Type} (p : R -> bool) (T : R -> R) (rows : list R)
  (x : R) :
  (forall r, p (T r) = p r) -> find p rows = Some x ->
  find p (Prisma.update p T rows) = Some (T x).
Proof.
  intros HT Hx. unfold Prisma.update, Prisma.updateMany.
  rewrite find_map_same.
  - rewrite Hx. simpl. now rewrite (proj2 (find_some _ _ Hx)).
  - intros r. destruct (p r) eqn:E; [now rewrite HT | exact E].
Qed.

(** A call that left the store alone does the same when repeated. *)
Lemma rejected_again {A : Type} (m : Async A) (db : Db) :
  after m db = db ->
  sameTables (after m db) (after m (after m db))
  /\ outcome m (after m db) = outcome m db.
Proof. intros E. rewrite !E. split; [apply sameTables_refl | reflexivity]. Qed.

Lemma applyBoardUpdate_idem (data : boardService.UpdateBoardData)
  (b : Board.t) :
  boardService.applyBoardUpdate data (boardService.applyBoardUpdate data b)
  = boardService.applyBoardUpdate data b.
Proof.
  unfold boardService.applyBoardUpdate. simpl.
  destruct data as [[n|] [d|] [c|] [a|]]; reflexivity.
Qed.

Lemma applyTaskUpdate_idem (data : taskService.UpdateTaskData) (t : Task.t) :
  taskService.applyTaskUpdate data (taskService.applyTaskUpdate data t)
  = taskService.applyTaskUpdate data t.
Proof.
  unfold taskService.applyTaskUpdate. simpl.
  destruct data as [[n|] [d|] [c|] [[a|]|]]; simpl; try reflexivity;
    destruct (negb (a =? "")%string); reflexivity.
Qed.

Lemma withName_idem (name : option string) (l : List_.t) :
  listService.withName name (listService.withName name l)
  = listService.withName name l.
Proof. destruct name; reflexivity. Qed.

Lemma updateBoard_again (boardId userId : string)
  (data : boardService.UpdateBoardData) (db : Db) :
  let m := boardService.updateBoard boardId userId data in
  sameTables (after m db) (after m (after m db))
  /\ outcome m (after m db) = outcome m db.
Proof.
  intros m. subst m.
  destruct (find (fun b => Board.id b =? boardId)%string (boards db))
    as [b|] eqn:Hb.
  - destruct (Board.owner_id b =? userId)%string eqn:Ho.
    + unfold boardService.updateBoard. run_async. rewrite Hb. simpl.
      rewrite Ho. simpl.
      rewrite (find_update (fun b => Board.id b =? boardId)%string
                 (boardService.applyBoardUpdate data) _ b
                 (fun r => eq_refl) Hb). simpl.
      rewrite Ho. simpl.
      split; [|now rewrite applyBoardUpdate_idem]. unfold sameTables. simpl.
      repeat split. apply update_fixed. intros r Hr Hp.
      unfold Prisma.update, Prisma.updateMany in Hr.
      apply in_map_iff in Hr. destruct Hr as [r' [<- _]].
      destruct (Board.id r' =? boardId)%string eqn:E;
        [apply applyBoardUpdate_idem | congruence].
    + apply rejected_again.
      unfold boardService.updateBoard. run_async. rewrite Hb. simpl.
      rewrite Ho. reflexivity.
  - apply rejected_again.
    unfold boardService.updateBoard. run_async. now rewrite Hb.
Qed.

Lemma updateTask_again (taskId userId : string)
  (data : taskService.UpdateTaskData) (db : Db) :
  let m := taskService.updateTask taskId userId data in
  sameTables (after m db) (after m (after m db))
  /\ outcome m (after m db) = outcome m db.
Proof.
  intros m. subst m.
  destruct (find (fun t => Task.id t =? taskId)%string (tasks db))
    as [t|] eqn:Ht.
  - destruct (find (fun l => List_.id l =? Task.list_id t)%string (lists db))
      as [l|] eqn:Hl.
    + unfold taskService.updateTask, taskService.findTaskWithList.
      run_async. rewrite Ht. simpl. rewrite Hl. simpl.
      rewrite (find_update (fun t => Task.id t =? taskId)%string
                 (taskService.applyTaskUpdate data) _ t
                 (fun r => eq_refl) Ht). simpl.
      rewrite Hl. simpl.
      split; [|now rewrite applyTaskUpdate_idem]. unfold sameTables. simpl.
      repeat split. apply update_fixed. intros r Hr Hp.
      unfold Prisma.update, Prisma.updateMany in Hr.
      apply in_map_iff in Hr. destruct Hr as [r' [<- _]].
      destruct (Task.id r' =? taskId)%string eqn:E;
        [apply applyTaskUpdate_idem | congruence].
    + apply rejected_again.
      unfold taskService.updateTask, taskService.findTaskWithList.
      run_async. rewrite Ht. simpl. now rewrite Hl.
  - apply rejected_again.
    unfold taskService.updateTask, taskService.findTaskWithList.
    run_async. now rewrite Ht.
Qed.
Lemma withName_id (name : option string) (l : List_.t) :
  List_.id (listService.withName name l) = List_.id l
  /\ List_.position (listService.withName name l) = List_.position l
  /\ List_.board_id (listService.withName name l) = List_.board_id l.
Proof. destruct name; repeat split; reflexivity. Qed.

(** A list that already has the requested name and position. *)
Lemma updateList_settled (listId userId : string)
  (data : listService.UpdateListData) (db : Db) (l : List_.t) :
  find (fun l => List_.id l =? listId)%string (lists db) = Some l ->
  (forall new, listService.ul_position data = Some new ->
               new = List_.position l) ->
  (forall r, In r (lists db) -> List_.id r = listId ->
             listService.withName (listService.ul_name data) r = r) ->
  let m := listService.updateList listId userId data in
  sameTables db (after m db) /\ outcome m db = Ok (Some l).
Proof.
  intros Hl Hpos Hname m. subst m.
  assert (Prisma.update (fun l => List_.id l =? listId)%string
            (listService.withName (listService.ul_name data)) (lists db)
          = lists db) as Hfix.
  { apply update_fixed. intros r Hr Hp. apply String.eqb_eq in Hp.
    now apply Hname. }
  unfold listService.updateList. run_async. rewrite Hl. simpl.
  destruct (listService.ul_position data) as [new|]; simpl.
  - rewrite (Hpos new eq_refl), Z.eqb_refl. simpl.
    rewrite Hfix, Hl. unfold sameTables. simpl. now auto 10.
  - rewrite Hfix, Hl. unfold sameTables. simpl. now auto 10.
Qed.

Lemma updateList_again (listId userId : string)
  (data : listService.UpdateListData) (db : Db) :
  let m := listService.updateList listId userId data in
  sameTables (after m db) (after m (after m db))
  /\ outcome m (after m db) = outcome m db.
Proof.
  intros m. subst m.
  destruct (find (fun l => List_.id l =? listId)%string (lists db))
    as [l|] eqn:Hl.
  2:{ apply rejected_again.
      now apply updateList_missing. }
  set (m := listService.updateList listId userId data).
  assert (Hid : List_.id l = listId)
    by (apply find_some in Hl; now apply String.eqb_eq).
  assert (exists l1,
            find (fun l => List_.id l =? listId)%string (lists (after m db))
            = Some l1
            /\ (forall new, listService.ul_position data = Some new ->
                            new = List_.position l1)
            /\ (forall r, In r (lists (after m db)) -> List_.id r = listId ->
                          listService.withName (listService.ul_name data) r = r)
            /\ outcome m db = Ok (Some l1)) as [l1 [H1 [H2 [H3 H4]]]].
  { destruct data as [name [new|]].
    - destruct (Z.eq_dec new (List_.position l)) as [E|E].
      + destruct (updateList_rename listId userId
                    (listService.mkUpdateListData name (Some new)) db l Hl)
          as [Hlists _]; [right; now rewrite E|].
        fold m in Hlists. rewrite Hlists. simpl.
        exists (listService.withName name l). split; [|split; [|split]].
        * apply (find_update (fun l => List_.id l =? listId)%string
                   (listService.withName name)); [|exact Hl].
          intros r. now rewrite (proj1 (withName_id name r)).
        * intros n Hn. injection Hn as <-.
          now rewrite (proj1 (proj2 (withName_id name l))).
        * intros r Hr Hr'. apply in_map_iff in Hr.
          destruct Hr as [r' [<- _]].
          destruct (List_.id r' =? listId)%string eqn:E';
            [apply withName_idem|].
          apply String.eqb_neq in E'. contradiction.
        * subst m. unfold listService.updateList. run_async.
          rewrite Hl. simpl. rewrite E, Z.eqb_refl. simpl.
          now rewrite (find_update (fun l => List_.id l =? listId)%string
                         (listService.withName name) _ l
                         (fun r => f_equal (fun i => (i =? listId)%string)
                                     (proj1 (withName_id name r))) Hl).
      + destruct (updateList_reorder listId userId name new db l Hl E)
          as [Hout [Hlists _]].
        fold m in Hout, Hlists. rewrite Hlists.
        exists (listsAfterReorder listId (List_.board_id l) name
                  (List_.position l) new l).
        split; [|split; [|split]].
        * rewrite find_map_same, Hl; [reflexivity|].
          intros r. now rewrite (proj1 (listsAfterReorder_id _ _ _ _ _ r)).
        * intros n Hn. injection Hn as <-. unfold listsAfterReorder.
          apply String.eqb_eq in Hid. now rewrite Hid.
        * intros r Hr Hr'. apply in_map_iff in Hr.
          destruct Hr as [r' [<- _]].
          rewrite (proj1 (listsAfterReorder_id _ _ _ _ _ r')) in Hr'.
          unfold listsAfterReorder. apply String.eqb_eq in Hr'.
          rewrite Hr'. simpl. now destruct name.
        * rewrite Hout, Hlists. unfold Prisma.findUnique.
          rewrite find_map_same, Hl; [reflexivity|].
          intros r. now rewrite (proj1 (listsAfterReorder_id _ _ _ _ _ r)).
    - destruct (updateList_rename listId userId
                  (listService.mkUpdateListData name None) db l Hl)
        as [Hlists _]; [now left|].
      fold m in Hlists. rewrite Hlists. simpl.
      exists (listService.withName name l). split; [|split; [|split]].
      * apply (find_update (fun l => List_.id l =? listId)%string
                 (listService.withName name)); [|exact Hl].
        intros r. now rewrite (proj1 (withName_id name r)).
      * intros n Hn. discriminate Hn.
      * intros r Hr Hr'. apply in_map_iff in Hr.
        destruct Hr as [r' [<- _]].
        destruct (List_.id r' =? listId)%string eqn:E';
          [apply withName_idem|].
        apply String.eqb_neq in E'. contradiction.
      * subst m. unfold listService.updateList. run_async.
        rewrite Hl. simpl.
        now rewrite (find_update (fun l => List_.id l =? listId)%string
                       (listService.withName name) _ l
                       (fun r => f_equal (fun i => (i =? listId)%string)
                                   (proj1 (withName_id name r))) Hl). }
  destruct (updateList_settled listId userId data (after m db) l1 H1 H2 H3)
    as [Hsame Hout].
  fold m in Hsame, Hout. split; [exact Hsame|]. now rewrite Hout, H4.
Qed.

(** A task that already is where the move would put it. *)
Lemma moveTask_settled (taskId userId : string)
  (data : taskService.MoveTaskData) (db : Db) (t : Task.t) (tl : List_.t) :
  find (fun t => Task.id t =? taskId)%string (tasks db) = Some t ->
  find (fun l => List_.id l =? taskService.mv_list_id data)%string (lists db)
  = Some tl ->
  (forall r, In r (tasks db) -> Task.id r = taskId ->
             Task.list_id r = taskService.mv_list_id data
             /\ Task.position r = taskService.mv_position data) ->
  let m := taskService.moveTask taskId userId data in
  sameTables db (after m db) /\ outcome m db = Ok (Some t).
Proof.
  intros Ht Htl Hrows m. subst m.
  destruct (find_some _ _ Ht) as [Hin Hid]. apply String.eqb_eq in Hid.
  destruct (Hrows t Hin Hid) as [Hlist Hpos].
  assert (Prisma.update (fun t => Task.id t =? taskId)%string
            (fun t => Task.set_position (taskService.mv_position data)
                        (Task.set_list_id (taskService.mv_list_id data) t))
            (tasks db) = tasks db) as Hfix.
  { apply update_fixed. intros r Hr Hp. apply String.eqb_eq in Hp.
    destruct (Hrows r Hr Hp) as [<- <-]. now destruct r. }
  unfold taskService.moveTask, taskService.findTaskWithList. run_async.
  rewrite Ht. simpl. rewrite Hlist, Htl. simpl. rewrite Htl. simpl.
  rewrite ?Hlist, !String.eqb_refl. simpl.
  rewrite ?Hlist, ?String.eqb_refl. simpl.
  rewrite Hpos, Z.gtb_ltb, Z.ltb_irrefl. simpl.
  rewrite Hfix, Ht. unfold sameTables. simpl. now auto 10.
Qed.

Lemma moveTask_again (taskId userId : string)
  (data : taskService.MoveTaskData) (db : Db) :
  let m := taskService.moveTask taskId userId data in
  sameTables (after m db) (after m (after m db))
  /\ outcome m (after m db) = outcome m db.
Proof.
  intros m. subst m. destruct data as [target new].
  set (m := taskService.moveTask taskId userId
              (taskService.mkMoveTaskData target new)).
  destruct (find (fun t => Task.id t =? taskId)%string (tasks db))
    as [t|] eqn:Ht.
  2:{ apply rejected_again. subst m.
      unfold taskService.moveTask, taskService.findTaskWithList.
      run_async. now rewrite Ht. }
  destruct (find (fun l => List_.id l =? Task.list_id t)%string (lists db))
    as [l|] eqn:Hl.
  2:{ apply rejected_again. subst m.
      unfold taskService.moveTask, taskService.findTaskWithList.
      run_async. rewrite Ht. simpl. now rewrite Hl. }
  pose proof (findTaskWithList_found taskId db t l Ht Hl) as Hfound.
  destruct (find (fun l => List_.id l =? target)%string (lists db))
    as [tl|] eqn:Htl.
  2:{ apply rejected_again. subst m.
      unfold after, taskService.moveTask. rewrite (bind_ok _ _ _ _ _ Hfound).
      run_async. now rewrite Htl. }
  destruct (String.eqb_spec (List_.board_id tl) (List_.board_id l))
    as [Hb|Hb].
  2:{ apply rejected_again. subst m.
      unfold after, taskService.moveTask. rewrite (bind_ok _ _ _ _ _ Hfound).
      run_async. rewrite Htl. simpl.
      apply String.eqb_neq in Hb. now rewrite Hb. }
  assert (Hid : Task.id t = taskId)
    by (apply find_some in Ht; now apply String.eqb_eq).
  assert (exists F : Task.t -> Task.t,
            tasks (after m db) = map F (tasks db)
            /\ lists (after m db) = lists db
            /\ (forall r, Task.id (F r) = Task.id r)
            /\ (forall r, Task.id r = taskId ->
                          Task.list_id (F r) = target
                          /\ Task.position (F r) = new)
            /\ outcome m db
               = Ok (find (fun t => Task.id t =? taskId)%string
                       (tasks (after m db))))
    as [F [H1 [H2 [H3 [H4 H5]]]]].
  { destruct (String.eqb_spec (Task.list_id t) target) as [E|E].
    - subst target.
      destruct (moveTask_reorder taskId userId new db t l Ht Hl)
        as [Hout [Htasks Hlists]].
      fold m in Hout, Htasks, Hlists.
      exists (tasksAfterReorder taskId (Task.list_id t) (Task.position t) new).
      split; [exact Htasks|]. split; [exact Hlists|].
      split; [intros r; apply tasksAfterReorder_id|].
      split; [|exact Hout].
      intros r Hr.
      destruct (tasksAfterReorder_fields taskId (Task.list_id t)
                  (Task.position t) new r) as [-> ->].
      apply String.eqb_eq in Hr. rewrite Hr. now split.
    - destruct (moveTask_transfer taskId userId target new db t l tl
                  Ht Hl Htl Hb E) as [Hout [Htasks Hlists]].
      fold m in Hout, Htasks, Hlists.
      exists (tasksAfterTransfer taskId (Task.list_id t) target
                (Task.position t) new).
      split; [exact Htasks|]. split; [exact Hlists|].
      split; [intros r; apply tasksAfterTransfer_id|].
      split; [|exact Hout].
      intros r Hr.
      destruct (tasksAfterTransfer_fields taskId (Task.list_id t) target
                  (Task.position t) new r E) as [-> ->].
      apply String.eqb_eq in Hr. rewrite Hr. now split. }
  destruct (moveTask_settled taskId userId
              (taskService.mkMoveTaskData target new) (after m db) (F t) tl)
    as [Hsame Hout].
  - rewrite H1, find_map_same, Ht; [reflexivity|].
    intros r. now rewrite H3.
  - rewrite H2. exact Htl.
  - intros r Hr Hr'. rewrite H1 in Hr. apply in_map_iff in Hr.
    destruct Hr as [r' [<- _]]. rewrite H3 in Hr'. now apply H4.
  - fold m in Hsame, Hout. split; [exact Hsame|].
    rewrite Hout, H5, H1, find_map_same, Ht; [reflexivity|].
    intros r. now rewrite H3.
Qed.

(** X22: [updateBoard], [updateList], [updateTask], [moveTask]: sending the
    same update or move a second time changes no row and gets the answer of
    the first time: the same row is returned, or the same error.  All the
    second call can add is another activity entry; positions are not
    shifted again. *)
Theorem repeated_update_changes_no_row (db : Db) :
  (forall boardId userId data,
     let m := boardService.updateBoard boardId userId data in
     sameTables (after m db) (after m (after m db))
     /\ outcome m (after m db) = outcome m db)
  /\ (forall listId userId data,
        let m := listService.updateList listId userId data in
        sameTables (after m db) (after m (after m db))
        /\ outcome m (after m db) = outcome m db)
  /\ (forall taskId userId data,
        let m := taskService.updateTask taskId userId data in
        sameTables (after m db) (after m (after m db))
        /\ outcome m (after m db) = outcome m db)
  /\ (forall taskId userId data,
        let m := taskService.moveTask taskId userId data in
        sameTables (after m db) (after m (after m db))
        /\ outcome m (after m db) = outcome m db).
Proof.
  split; [|split; [|split]]; intros.
  - apply updateBoard_again.
  - apply updateList_again.
  - apply updateTask_again.
  - apply moveTask_again.
Qed.

Lemma repeated_update_changes_no_row_witness :
  let m := taskService.moveTask "t0" "ed" (taskService.mkMoveTaskData "l1" 0) in
  let db1 := after m sampleDb in
  tasks db1 <> tasks sampleDb
  /\ sameTables db1 (after m db1)
  /\ outcome m db1 = Ok (Some (mkTask "t0" "Write" "l1" 0))
  /\ outcome m db1 = outcome m sampleDb.
Proof.
  intros m db1. split; [discriminate|].
  destruct (proj2 (proj2 (proj2 (repeated_update_changes_no_row sampleDb)))
              "t0" "ed" (taskService.mkMoveTaskData "l1" 0)) as [H1 H2].
  split; [exact H1|]. split; [reflexivity | exact H2].
Defined.

(* ------------------------------------------------------------------------- *)
(** ** Further properties: moving there and back *)

Lemma shiftWithin_back (old new p : Z) :
  p <> old -> shiftWithin new old (shiftWithin old new p) = p.
Proof.
  intros Hp. unfold shiftWithin.
  destruct (Z.ltb_spec old new), (Z.ltb_spec new old),
    (Z.ltb_spec old p), (Z.leb_spec p new), (Z.leb_spec new p),
    (Z.ltb_spec p old); simpl; try lia;
    repeat match goal with
           | |- context [?a <? ?b] => destruct (Z.ltb_spec a b)
           | |- context [?a <=? ?b] => destruct (Z.leb_spec a b)
           end; simpl; lia.
Qed.

Lemma task_restored (t : Task.t) (l l' : string) (p p' : Z) :
  Task.list_id t = l -> Task.position t = p ->
  Task.set_position p (Task.set_list_id l
    (Task.set_position p' (Task.set_list_id l' t))) = t.
Proof. intros <- <-. now destruct t. Qed.

(** X23: [moveTask]: moving a task and then moving it back to the list and the
    position it came from restores the task table, row for row, whether the
    move stays in the list or goes to another list of the board; the
    requested position need not even be in range.  The task identifiers
    are unique and no two tasks of the list the task starts in share a
    position. *)
Theorem moveTask_there_and_back (taskId userId userId' target : string)
  (new : Z) (db : Db) (t : Task.t) (l tl : List_.t) :
  NoDup (map Task.id (tasks db)) ->
  NoDup (taskPositions (Task.list_id t) db) ->
  Prisma.findUnique (fun t => Task.id t =? taskId)%string (tasks db) = Some t ->
  Prisma.findUnique (fun l => List_.id l =? Task.list_id t)%string (lists db)
  = Some l ->
  Prisma.findUnique (fun l => List_.id l =? target)%string (lists db)
  = Some tl ->
  List_.board_id tl = List_.board_id l ->
  let there :=
    taskService.moveTask taskId userId
      (taskService.mkMoveTaskData target new) in
  let back :=
    taskService.moveTask taskId userId'
      (taskService.mkMoveTaskData (Task.list_id t) (Task.position t)) in
  outcome back (after there db) = Ok (Some t)
  /\ tasks (after back (after there db)) = tasks db
  /\ lists (after back (after there db)) = lists db.
Proof.
  intros Hids Hpos Ht Hl Htl Hb there back.
  unfold Prisma.findUnique in *.
  destruct (find_some _ _ Ht) as [Hin Hid].
  apply String.eqb_eq in Hid.
  assert (forall r, In r (tasks db) -> Task.id r = taskId -> r = t) as Huniq.
  { intros r Hr Hr'. apply (NoDup_map_eq Task.id (tasks db)); auto.
    congruence. }
  assert (forall r, In r (tasks db) -> Task.id r <> taskId ->
                    Task.list_id r = Task.list_id t ->
                    Task.position r <> Task.position t) as Hother.
  { intros r Hr Hne Hs Hp. apply Hne. rewrite <- Hid.
    apply (same_row_iff Task.id Task.list_id Task.position
             (Task.list_id t) (tasks db) t r); auto. }
  set (src := Task.list_id t) in *. set (old := Task.position t) in *.
  destruct (String.eqb_spec src target) as [E|E].
  - (* within the list *)
    subst target.
    destruct (moveTask_reorder taskId userId new db t l Ht Hl)
      as [_ [Htasks Hlists]].
    fold src old there in Htasks, Hlists.
    set (t1 := tasksAfterReorder taskId src old new t).
    assert (Ht1 : find (fun t => Task.id t =? taskId)%string
                    (tasks (after there db)) = Some t1).
    { rewrite Htasks.
      rewrite find_map_same; [now rewrite Ht|].
      intros r. now rewrite tasksAfterReorder_id. }
    assert (Task.list_id t1 = src /\ Task.position t1 = new) as [Hs1 Hp1].
    { unfold t1.
      destruct (tasksAfterReorder_fields taskId src old new t) as [-> ->].
      apply String.eqb_eq in Hid. now rewrite Hid. }
    assert (Hl1 : find
                    (fun l => List_.id l =? Task.list_id t1)%string
                    (lists (after there db)) = Some l)
      by (rewrite Hlists, Hs1; exact Hl).
    destruct (moveTask_reorder taskId userId' old (after there db) t1 l
                Ht1 Hl1) as [Hout [Htasks2 Hlists2]].
    rewrite ?Hs1, ?Hp1 in Hout, Htasks2, Hlists2.
    fold back in Hout, Htasks2, Hlists2.
    assert (tasks (after back (after there db)) = tasks db) as Hrestored.
    { rewrite Htasks2, ?Hs1, ?Hp1, Htasks, map_map.
      rewrite <- (map_id (tasks db)) at 2.
      apply map_ext_in. intros r Hr. unfold tasksAfterReorder.
      destruct (String.eqb_spec (Task.id r) taskId) as [Hr'|Hr']; simpl.
      - rewrite Hr', String.eqb_refl. rewrite (Huniq r Hr Hr').
        now apply task_restored.
      - destruct (String.eqb_spec (Task.list_id r) src) as [Hs|Hs]; simpl.
        + apply String.eqb_neq in Hr'. rewrite Hr'.
          apply String.eqb_eq in Hs. rewrite Hs. simpl.
          rewrite shiftWithin_back; [now destruct r|].
          apply Hother; auto; [now apply String.eqb_neq |
                                now apply String.eqb_eq].
        + apply String.eqb_neq in Hr', Hs. now rewrite Hr', Hs. }
    split; [|split; [exact Hrestored | now rewrite Hlists2]].
    rewrite Hout, Hrestored. unfold Prisma.findUnique. now rewrite Ht.
  - (* to another list *)
    destruct (moveTask_transfer taskId userId target new db t l tl
                Ht Hl Htl Hb E) as [_ [Htasks Hlists]].
    fold src old there in Htasks, Hlists.
    set (t1 := tasksAfterTransfer taskId src target old new t).
    assert (Ht1 : find (fun t => Task.id t =? taskId)%string
                    (tasks (after there db)) = Some t1).
    { rewrite Htasks.
      rewrite find_map_same; [now rewrite Ht|].
      intros r. now rewrite tasksAfterTransfer_id. }
    assert (Task.list_id t1 = target /\ Task.position t1 = new) as [Hs1 Hp1].
    { unfold t1.
      destruct (tasksAfterTransfer_fields taskId src target old new t E)
        as [-> ->].
      apply String.eqb_eq in Hid. now rewrite Hid. }
    assert (Hl1 : find
                    (fun l => List_.id l =? Task.list_id t1)%string
                    (lists (after there db)) = Some tl)
      by (rewrite Hlists, Hs1; exact Htl).
    assert (Hl2 : find (fun l => List_.id l =? src)%string
                    (lists (after there db)) = Some l)
      by (rewrite Hlists; exact Hl).
    destruct (moveTask_transfer taskId userId' src old (after there db)
                t1 tl l Ht1 Hl1 Hl2 (eq_sym Hb))
      as [Hout [Htasks2 Hlists2]]; [rewrite Hs1; congruence|].
    rewrite ?Hs1, ?Hp1 in Hout, Htasks2, Hlists2.
    fold back in Hout, Htasks2, Hlists2.
    assert (tasks (after back (after there db)) = tasks db) as Hrestored.
    { rewrite Htasks2, ?Hs1, ?Hp1, Htasks, map_map.
      rewrite <- (map_id (tasks db)) at 2.
      apply map_ext_in. intros r Hr. unfold tasksAfterTransfer.
      destruct (String.eqb_spec (Task.id r) taskId) as [Hr'|Hr']; simpl.
      - rewrite Hr', String.eqb_refl. rewrite (Huniq r Hr Hr').
        now apply task_restored.
      - pose proof (Hother r Hr Hr') as Hp.
        apply String.eqb_neq in Hr'.
        destruct (String.eqb_spec (Task.list_id r) src) as [Hs|Hs]; simpl.
        + specialize (Hp Hs).
          assert ((Task.list_id r =? target)%string = false) as Hnt
            by (apply String.eqb_neq; congruence).
          destruct (Z.ltb_spec old (Task.position r)); simpl.
          * rewrite Hr', Hnt. apply String.eqb_eq in Hs. rewrite Hs. simpl.
            destruct (Z.leb_spec old (Task.position r - 1)); [|lia].
            destruct r; unfold Task.set_position; simpl. f_equal. lia.
          * rewrite Hnt. simpl. rewrite Hr', Hnt.
            apply String.eqb_eq in Hs. rewrite Hs. simpl.
            destruct (Z.leb_spec old (Task.position r)); [lia|reflexivity].
        + clear Hp.
          destruct (String.eqb_spec (Task.list_id r) target) as [Hs'|Hs'];
            simpl.
          * destruct (Z.leb_spec new (Task.position r)); simpl.
            -- rewrite Hr'. apply String.eqb_eq in Hs'. rewrite Hs'. simpl.
               destruct (Z.ltb_spec new (Task.position r + 1)); [|lia].
               destruct r; unfold Task.set_position; simpl. f_equal. lia.
            -- rewrite Hr'. apply String.eqb_eq in Hs'. rewrite Hs'. simpl.
               destruct (Z.ltb_spec new (Task.position r)); [lia|].
               apply String.eqb_neq in Hs. now rewrite Hs.
          * apply String.eqb_neq in Hs, Hs'. now rewrite Hr', Hs, Hs'. }
    split; [|split; [exact Hrestored | now rewrite Hlists2]].
    rewrite Hout, Hrestored. unfold Prisma.findUnique. now rewrite Ht.
Qed.

Lemma moveTask_there_and_back_witness :
  let there :=
    taskService.moveTask "t0" "ed" (taskService.mkMoveTaskData "l1" 1) in
  let back :=
    taskService.moveTask "t0" "owner" (taskService.mkMoveTaskData "l0" 0) in
  tasks (after there sampleDb) <> tasks sampleDb
  /\ outcome back (after there sampleDb) = Ok (Some (mkTask "t0" "Write" "l0" 0))
  /\ tasks (after back (after there sampleDb)) = tasks sampleDb
  /\ lists (after back (after there sampleDb)) = lists sampleDb.
Proof.
  intros there back. split; [discriminate|].
  apply (moveTask_there_and_back "t0" "ed" "owner" "l1" 1 sampleDb
           (mkTask "t0" "Write" "l0" 0) sampleList0 sampleList1);
    try reflexivity.
  - apply distinct_NoDup. reflexivity.
  - apply distinctZ_NoDup. reflexivity.
Defined.

(** X24: [updateList]: moving a list and then moving it back to the position it
    came from restores the list table, row for row; the requested position
    need not be in range.  The list identifiers are unique and no two lists
    of the board share a position. *)
Theorem updateList_there_and_back (listId userId userId' : string) (new : Z)
  (db : Db) (l : List_.t) :
  NoDup (map List_.id (lists db)) ->
  NoDup (listPositions (List_.board_id l) db) ->
  Prisma.findUnique (fun l => List_.id l =? listId)%string (lists db) = Some l ->
  let there :=
    listService.updateList listId userId
      (listService.mkUpdateListData None (Some new)) in
  let back :=
    listService.updateList listId userId'
      (listService.mkUpdateListData None (Some (List_.position l))) in
  outcome back (after there db) = Ok (Some l)
  /\ lists (after back (after there db)) = lists db
  /\ tasks (after back (after there db)) = tasks db.
Proof.
  intros Hids Hpos Hl there back. unfold Prisma.findUnique in *.
  destruct (find_some _ _ Hl) as [Hin Hid]. apply String.eqb_eq in Hid.
  assert (forall T : List_.t -> List_.t,
            (forall r, In r (lists db) -> T r = r) ->
            map T (lists db) = lists db) as Hmap.
  { intros T HT. rewrite <- (map_id (lists db)) at 2.
    now apply map_ext_in. }
  set (old := List_.position l) in *. set (scope := List_.board_id l) in *.
  destruct (Z.eq_dec new old) as [E|E].
  - (* no move at all *)
    subst new.
    assert (forall (u : string) (db0 : Db),
              lists db0 = lists db -> tasks db0 = tasks db ->
              let m := listService.updateList listId u
                         (listService.mkUpdateListData None (Some old)) in
              outcome m db0 = Ok (Some l)
              /\ lists (after m db0) = lists db
              /\ tasks (after m db0) = tasks db) as Hsame.
    { intros u db0 H1 H2 m. subst m. unfold listService.updateList.
      run_async. rewrite H1, Hl. simpl. fold old. rewrite Z.eqb_refl. simpl.
      rewrite H1, (update_fixed _ _ _ (fun r _ _ => eq_refl)), Hl. auto. }
    destruct (Hsame userId db eq_refl eq_refl) as [_ [H1 H2]].
    fold there in H1, H2. apply (Hsame userId' _ H1 H2).
  - destruct (updateList_reorder listId userId None new db l Hl E)
      as [_ [Hlists Htasks]].
    fold old scope there in Hlists, Htasks.
    set (l1 := listsAfterReorder listId scope None old new l).
    assert (Hl1 : find (fun l => List_.id l =? listId)%string
                    (lists (after there db)) = Some l1).
    { rewrite Hlists, find_map_same; [now rewrite Hl|].
      intros r. now rewrite (proj1 (listsAfterReorder_id _ _ _ _ _ r)). }
    assert (List_.position l1 = new /\ List_.board_id l1 = scope)
      as [Hp1 Hs1].
    { unfold l1, listsAfterReorder. apply String.eqb_eq in Hid.
      rewrite Hid. now split. }
    destruct (updateList_reorder listId userId' None old (after there db) l1
                Hl1) as [Hout [Hlists2 Htasks2]]; [congruence|].
    fold back in Hout, Hlists2, Htasks2.
    assert (lists (after back (after there db)) = lists db) as Hrestored.
    { rewrite Hlists2, Hp1, Hs1, Hlists, map_map. apply Hmap.
      intros r Hr. unfold listsAfterReorder.
      destruct (String.eqb_spec (List_.id r) listId) as [Hr'|Hr']; simpl.
      - rewrite Hr', String.eqb_refl.
        rewrite (NoDup_map_eq List_.id (lists db) r l Hids Hr Hin)
          by congruence.
        fold old. now destruct l.
      - destruct (String.eqb_spec (List_.board_id r) scope) as [Hs|Hs]; simpl.
        + apply String.eqb_neq in Hr'. rewrite Hr'.
          apply String.eqb_eq in Hs. rewrite Hs.
          unfold List_.set_position. simpl.
          rewrite shiftWithin_back; [now destruct r|].
          intros Hp. apply String.eqb_neq in Hr'. apply Hr'. rewrite <- Hid.
          apply (same_row_iff List_.id List_.board_id List_.position
                   scope (lists db) l r); auto.
          now apply String.eqb_eq.
        + apply String.eqb_neq in Hr', Hs. now rewrite Hr', Hs. }
    split; [|split; [exact Hrestored | now rewrite Htasks2]].
    rewrite Hout, Hrestored. unfold Prisma.findUnique. now rewrite Hl.
Qed.

Lemma updateList_there_and_back_witness :
  let there :=
    listService.updateList "l0" "ed"
      (listService.mkUpdateListData None (Some 2)) in
  let back :=
    listService.updateList "l0" "owner"
      (listService.mkUpdateListData None (Some 0)) in
  lists (after there sampleDb) <> lists sampleDb
  /\ outcome back (after there sampleDb) = Ok (Some sampleList0)
  /\ lists (after back (after there sampleDb)) = lists sampleDb
  /\ tasks (after back (after there sampleDb)) = tasks sampleDb.
Proof.
  intros there back. split; [discriminate|].
  apply (updateList_there_and_back "l0" "ed" "owner" 2 sampleDb sampleList0);
    try reflexivity.
  - apply distinct_NoDup. reflexivity.
  - apply distinctZ_NoDup. reflexivity.
Defined.

(* ------------------------------------------------------------------------- *)
(** ** Further properties: deleting a task, and the routes *)

Lemma length_without (p : Z) (ps : list Z) :
  NoDup ps -> In p ps ->
  S (List.length (filter (fun q => negb (q =? p)) ps)) = List.length ps.
Proof.
  induction ps as [|q ps IH]; intros Hnd Hp; [contradiction|].
  inversion Hnd as [|? ? Hnotin Hnd']; subst. cbn [filter List.length].
  destruct (Z.eqb_spec q p) as [->|Hq]; cbn [negb List.length].
  - rewrite filter_all; [reflexivity|]. intros r Hr.
    apply negb_true_iff, Z.eqb_neq. intros ->. contradiction.
  - destruct Hp as [Hp|Hp]; [congruence|]. now rewrite IH.
Qed.

(** X25: [deleteTask]: the positions of the other lists stay as they are, and
    those of the task's own list stay dense exactly when the task was the
    last of its list; deleting any other task leaves a gap.  The task
    identifiers are unique and the positions of the list are dense
    before. *)
Theorem deleteTask_dense_iff_last (taskId userId : string) (db : Db)
  (t : Task.t) (l : List_.t) :
  NoDup (map Task.id (tasks db)) ->
  dense (taskPositions (Task.list_id t) db) ->
  Prisma.findUnique (fun t => Task.id t =? taskId)%string (tasks db) = Some t ->
  Prisma.findUnique (fun l => List_.id l =? Task.list_id t)%string (lists db)
  = Some l ->
  let db' := after (taskService.deleteTask taskId userId) db in
  let n := Z.of_nat (List.length (taskPositions (Task.list_id t) db)) in
  (dense (taskPositions (Task.list_id t) db') <-> Task.position t = n - 1)
  /\ (forall s, s <> Task.list_id t ->
        taskPositions s db' = taskPositions s db)
  /\ (forall s, listPositions s db' = listPositions s db).
Proof.
  intros Hids Hdense Ht Hl db' n. subst db'.
  destruct (findUnique_In _ _ _ Ht) as [Hin Hid]. apply String.eqb_eq in Hid.
  pose proof (findTaskWithList_found _ _ _ _ Ht Hl) as Hfound.
  assert (tasks (after (taskService.deleteTask taskId userId) db)
          = filter (fun r => negb (Task.id r =? Task.id t)%string) (tasks db)
          /\ lists (after (taskService.deleteTask taskId userId) db)
             = lists db) as [Htasks Hlists].
  { unfold after, taskService.deleteTask.
    rewrite (bind_ok _ _ _ _ _ Hfound). run_async. rewrite Hid. now split. }
  split; [|split].
  - unfold taskPositions in *. rewrite Htasks.
    rewrite (positionsIn_delete Task.id Task.list_id Task.position);
      auto; [|apply Hdense].
    set (ps := positionsIn Task.list_id Task.position (Task.list_id t)
                 (tasks db)) in *.
    set (p := Task.position t).
    assert (Hp : In p ps) by (now apply positionsIn_In).
    destruct Hdense as [Hnd Hrange].
    assert (Hlen : Z.of_nat (List.length
                     (filter (fun q => negb (q =? p)) ps)) = n - 1).
    { subst n. fold ps. pose proof (length_without p ps Hnd Hp). lia. }
    assert (Hnd' : NoDup (filter (fun q => negb (q =? p)) ps))
      by (now apply NoDup_filter).
    assert (Hin' : forall q, In q (filter (fun q => negb (q =? p)) ps)
                             <-> In q ps /\ q <> p).
    { intros q. rewrite filter_In, negb_true_iff, Z.eqb_neq. reflexivity. }
    split.
    + intros [_ Hd]. apply Hrange in Hp. fold n in Hp.
      destruct (Z.eq_dec p (n - 1)) as [E|E]; [exact E|]. exfalso.
      assert (In (n - 1) (filter (fun q => negb (q =? p)) ps)) as Hlast.
      { apply Hin'. split; [apply Hrange; fold n; lia | congruence]. }
      apply Hd in Hlast. lia.
    + intros E. apply bounded_NoDup_dense; [exact Hnd'|].
      intros q Hq. apply Hin' in Hq. destruct Hq as [Hq Hne].
      apply Hrange in Hq. fold n in Hq. lia.
  - intros s Hs. unfold taskPositions. rewrite Htasks.
    apply positionsIn_other_delete. intros r Hin' Hr.
    apply negb_true_iff, String.eqb_neq. intros E. apply Hs.
    rewrite <- Hr. f_equal.
    now apply (NoDup_map_eq Task.id (tasks db)).
  - intros s. unfold listPositions. now rewrite Hlists.
Qed.

Lemma deleteTask_dense_iff_last_witness :
  let db' := after (taskService.deleteTask "t2" "ed") sampleDb in
  dense (taskPositions "l0" db')
  /\ taskPositions "l1" db' = taskPositions "l1" sampleDb.
Proof.
  intros db'.
  destruct (deleteTask_dense_iff_last "t2" "ed" sampleDb
              (mkTask "t2" "Ship" "l0" 2) sampleList0) as [H1 [H2 _]];
    try reflexivity.
  - apply distinct_NoDup. reflexivity.
  - apply denseb_dense. reflexivity.
  - split; [apply H1; reflexivity | apply H2; discriminate].
Defined.

(** The gate never writes. *)
Lemma authorize_pure (allowedRoles : list string)
  (boardId userId : option string) (db : Db) :
  after (authorize allowedRoles boardId userId) db = db.
Proof.
  unfold authorize.
  destruct (negb (Js.truthy boardId) || negb (Js.truthy userId));
    [reflexivity|].
  run_async.
  destruct (find _ (boards db)) as [b|]; simpl; [|reflexivity].
  destruct (Board.owner_id b =? _)%string; simpl; [reflexivity|].
  destruct (find _ (boardMembers db)) as [m|]; simpl; [|reflexivity].
  destruct (_ && _); reflexivity.
Qed.

Lemma gated {A : Type} (allowedRoles : list string)
  (boardId userId : option string) (m : Async A) (db : Db) :
  bind (authorize allowedRoles boardId userId) (fun _ => m) db
  = match outcome (authorize allowedRoles boardId userId) db with
    | Ok _ => m db
    | Threw e => (Threw e, db)
    end.
Proof.
  pose proof (authorize_pure allowedRoles boardId userId db) as Hpure.
  unfold bind, outcome, after in *.
  destruct (authorize allowedRoles boardId userId db) as [[u|e] db'];
    simpl in *; now subst.
Qed.

(** What the plain membership gate refuses, every gate refuses, with the
    same error. *)
Lemma authorize_plain_error (allowedRoles : list string)
  (boardId userId : option string) (db : Db) (e : AppError) :
  outcome (authorize [] boardId userId) db = Threw e ->
  outcome (authorize allowedRoles boardId userId) db = Threw e.
Proof.
  unfold authorize.
  destruct (negb (Js.truthy boardId) || negb (Js.truthy userId));
    [intros H; exact H|].
  run_async.
  destruct (find _ (boards db)) as [b|]; simpl; [|intros H; exact H].
  destruct (Board.owner_id b =? _)%string; simpl; [intros H; discriminate H|].
  destruct (find _ (boardMembers db)) as [m|]; simpl;
    [intros H; discriminate H | intros H; exact H].
Qed.

Lemma gated_twice {A : Type} (allowedRoles : list string)
  (boardId userId : option string) (m : Async A) (db : Db) :
  bind (authorize [] boardId userId)
    (fun _ => bind (authorize allowedRoles boardId userId) (fun _ => m)) db
  = match outcome (authorize allowedRoles boardId userId) db with
    | Ok _ => m db
    | Threw e => (Threw e, db)
    end.
Proof.
  rewrite gated.
  destruct (outcome (authorize [] boardId userId) db) as [u|e] eqn:E.
  - apply gated.
  - now rewrite (authorize_plain_error allowedRoles _ _ _ _ E).
Qed.

(** X26: The routes for a single task or list decide on the board named in the
    URL alone.  A request refused by the gate of its route gets the gate's
    error and changes nothing; a request let through gets exactly what the
    service does with the task or list identifier, on whichever board that
    task or list is: neither the gate nor the service compares the two
    boards. *)
Theorem routes_decide_on_the_url_board (boardId userId taskId targetUserId
  listId : string) (db : Db) :
  let gate roles :=
    outcome (authorize roles (Some boardId) (Some userId)) db in
  routes.getTask boardId userId taskId db
  = match gate [] with
    | Ok _ => taskService.getTaskById taskId db
    | Threw e => (Threw e, db)
    end
  /\ routes.deleteTask boardId userId taskId db
     = match gate ["admin"; "editor"] with
       | Ok _ => taskService.deleteTask taskId userId db
       | Threw e => (Threw e, db)
       end
  /\ routes.unassignUser boardId userId taskId targetUserId db
     = match gate ["admin"; "editor"] with
       | Ok _ => taskService.unassignUser taskId userId targetUserId db
       | Threw e => (Threw e, db)
       end
  /\ routes.deleteList boardId userId listId db
     = match gate ["admin"] with
       | Ok _ => listService.deleteList listId userId db
       | Threw e => (Threw e, db)
       end.
Proof.
  intros gate. subst gate. unfold routes.getTask, routes.deleteTask,
    routes.unassignUser, routes.deleteList.
  split; [apply gated|]. split; [apply gated_twice|].
  split; [apply gated_twice | apply gated].
Qed.

(** A task of board [b1] read and deleted through the URL of board [b2], by
    the owner of [b2], who is no member of [b1]. *)
Lemma routes_decide_on_the_url_board_witness :
  failsWith "FORBIDDEN" (outcome (routes.deleteTask "b1" "al" "t0") sampleDb)
  /\ outcome (routes.getTask "b2" "al" "t0") sampleDb
     = Ok (mkTask "t0" "Write" "l0" 0, [TaskAssignee.mk "a1" "t0" "ed"])
  /\ outcome (routes.deleteTask "b2" "al" "t0") sampleDb = Ok tt
  /\ Prisma.findUnique (fun t => Task.id t =? "t0")%string
       (tasks (after (routes.deleteTask "b2" "al" "t0") sampleDb)) = None.
Proof.
  unfold outcome, after.
  rewrite (proj1 (proj2 (routes_decide_on_the_url_board
                           "b1" "al" "t0" "" "" sampleDb))).
  rewrite (proj1 (routes_decide_on_the_url_board
                    "b2" "al" "t0" "" "" sampleDb)).
  rewrite (proj1 (proj2 (routes_decide_on_the_url_board
                           "b2" "al" "t0" "" "" sampleDb))).
  split; [|repeat split; reflexivity].
  simpl. fails_now.
Defined.

(* ------------------------------------------------------------------------- *)
(** ** Further properties: foreign keys and error answers *)

Lemma linked_step (db db' : Db) :
  linked db ->
  (forall b, In b (boards db) ->
     exists b', In b' (boards db') /\ Board.id b' = Board.id b) ->
  (forall l, In l (lists db) ->
     exists l', In l' (lists db') /\ List_.id l' = List_.id l) ->
  (forall l', In l' (lists db') ->
     (exists l, In l (lists db) /\ List_.board_id l' = List_.board_id l)
     \/ (exists b', In b' (boards db') /\ Board.id b' = List_.board_id l')) ->
  (forall t', In t' (tasks db') ->
     (exists t, In t (tasks db) /\ Task.list_id t' = Task.list_id t)
     \/ (exists l', In l' (lists db') /\ List_.id l' = Task.list_id t')) ->
  linked db'.
Proof.
  intros [Ht Hl] HA HC HB HD. split.
  - intros t' Hin. destruct (HD t' Hin) as [[t [Hin' E]]|H]; [|exact H].
    destruct (Ht t Hin') as [l [Hl' El]].
    destruct (HC l Hl') as [l' [Hl'' El']].
    exists l'. split; [exact Hl''|]. congruence.
  - intros l' Hin. destruct (HB l' Hin) as [[l [Hin' E]]|H]; [|exact H].
    destruct (Hl l Hin') as [b [Hb Eb]].
    destruct (HA b Hb) as [b' [Hb' Eb']].
    exists b'. split; [exact Hb'|]. congruence.
Qed.

(** A store that differs in no board, list or task. *)
Lemma linked_same (db db' : Db) :
  linked db -> boards db' = boards db -> lists db' = lists db ->
  tasks db' = tasks db -> linked db'.
Proof. unfold linked. intros H -> -> ->. exact H. Qed.

Lemma linked_tasks_mapped (db db' : Db) (F : Task.t -> Task.t) :
  linked db -> boards db' = boards db -> lists db' = lists db ->
  tasks db' = map F (tasks db) ->
  (forall t, In t (tasks db) ->
     Task.list_id (F t) = Task.list_id t
     \/ exists l, In l (lists db) /\ List_.id l = Task.list_id (F t)) ->
  linked db'.
Proof.
  intros H Hb Hl Ht HF. apply (linked_step db db' H).
  - rewrite Hb. intros b Hin. now exists b.
  - rewrite Hl. intros l Hin. now exists l.
  - rewrite Hl. intros l Hin. left. now exists l.
  - rewrite Ht, Hl. intros t' Hin. apply in_map_iff in Hin.
    destruct Hin as [t [<- Hin]].
    destruct (HF t Hin) as [E|E]; [left; now exists t | now right].
Qed.

Lemma linked_lists_mapped (db db' : Db) (F : List_.t -> List_.t) :
  linked db -> boards db' = boards db -> lists db' = map F (lists db) ->
  tasks db' = tasks db ->
  (forall l, List_.id (F l) = List_.id l
             /\ List_.board_id (F l) = List_.board_id l) ->
  linked db'.
Proof.
  intros H Hb Hl Ht HF. apply (linked_step db db' H).
  - rewrite Hb. intros b Hin. now exists b.
  - rewrite Hl. intros l Hin. exists (F l).
    split; [now apply in_map | apply HF].
  - rewrite Hl. intros l' Hin. apply in_map_iff in Hin.
    destruct Hin as [l [<- Hin]]. left. exists l.
    split; [exact Hin | apply HF].
  - rewrite Ht. intros t Hin. left. now exists t.
Qed.

Lemma moveTask_linked (taskId userId : string)
  (data : taskService.MoveTaskData) (db : Db) :
  linked db -> linked (after (taskService.moveTask taskId userId data) db).
Proof.
  intros H. destruct data as [target new].
  set (m := taskService.moveTask taskId userId
              (taskService.mkMoveTaskData target new)).
  assert (after m db = db -> linked (after m db)) as Hsame
    by (intros ->; exact H).
  destruct (find (fun t => Task.id t =? taskId)%string (tasks db))
    as [t|] eqn:Ht.
  2:{ apply Hsame. subst m.
      unfold taskService.moveTask, taskService.findTaskWithList.
      run_async. now rewrite Ht. }
  destruct (find (fun l => List_.id l =? Task.list_id t)%string (lists db))
    as [l|] eqn:Hl.
  2:{ apply Hsame. subst m.
      unfold taskService.moveTask, taskService.findTaskWithList.
      run_async. rewrite Ht. simpl. now rewrite Hl. }
  pose proof (findTaskWithList_found taskId db t l Ht Hl) as Hfound.
  destruct (find (fun l => List_.id l =? target)%string (lists db))
    as [tl|] eqn:Htl.
  2:{ apply Hsame. subst m.
      unfold after, taskService.moveTask. rewrite (bind_ok _ _ _ _ _ Hfound).
      run_async. now rewrite Htl. }
  destruct (String.eqb_spec (List_.board_id tl) (List_.board_id l))
    as [Hb|Hb].
  2:{ apply Hsame. subst m.
      unfold after, taskService.moveTask. rewrite (bind_ok _ _ _ _ _ Hfound).
      run_async. rewrite Htl. simpl.
      apply String.eqb_neq in Hb. now rewrite Hb. }
  assert (boards (after m db) = boards db) as Hboards.
  { subst m. unfold after, taskService.moveTask.
    rewrite (bind_ok _ _ _ _ _ Hfound). run_async. rewrite Htl. simpl.
    apply String.eqb_eq in Hb. rewrite Hb. simpl.
    destruct (negb _); simpl; [reflexivity|].
    destruct (new >? Task.position t); simpl; [reflexivity|].
    destruct (new <? Task.position t); reflexivity. }
  destruct (String.eqb_spec (Task.list_id t) target) as [E|E].
  - subst target.
    destruct (find_some _ _ Htl) as [Htl_in Htl_id].
    apply String.eqb_eq in Htl_id.
    destruct (moveTask_reorder taskId userId new db t l Ht Hl)
      as [_ [Htasks Hlists]].
    fold m in Htasks, Hlists.
    apply (linked_tasks_mapped db _ _ H Hboards Hlists Htasks).
    intros r _.
    destruct (tasksAfterReorder_fields taskId (Task.list_id t)
                (Task.position t) new r) as [-> _].
    destruct (Task.id r =? taskId)%string; [right; now exists tl | now left].
  - destruct (find_some _ _ Htl) as [Htl_in Htl_id].
    apply String.eqb_eq in Htl_id.
    destruct (moveTask_transfer taskId userId target new db t l tl
                Ht Hl Htl Hb E) as [_ [Htasks Hlists]].
    fold m in Htasks, Hlists.
    apply (linked_tasks_mapped db _ _ H Hboards Hlists Htasks).
    intros r _.
    destruct (tasksAfterTransfer_fields taskId (Task.list_id t) target
                (Task.position t) new r E) as [-> _].
    destruct (Task.id r =? taskId)%string; [right; now exists tl | now left].
Qed.

Lemma updateList_linked (listId userId : string)
  (data : listService.UpdateListData) (db : Db) :
  linked db -> linked (after (listService.updateList listId userId data) db).
Proof.
  intros H.
  destruct (find (fun l => List_.id l =? listId)%string (lists db))
    as [l|] eqn:Hl.
  2:{ now rewrite updateList_missing. }
  set (m := listService.updateList listId userId data).
  assert (boards (after m db) = boards db) as Hboards.
  { subst m. unfold listService.updateList. run_async. rewrite Hl. simpl.
    destruct (listService.ul_position data) as [new|]; simpl;
      [|reflexivity].
    destruct (negb _); simpl; [|reflexivity].
    destruct (new >? List_.position l); reflexivity. }
  destruct data as [name [new|]].
  - destruct (Z.eq_dec new (List_.position l)) as [E|E].
    + destruct (updateList_rename listId userId
                  (listService.mkUpdateListData name (Some new)) db l Hl)
        as [Hlists Htasks]; [right; now rewrite E|].
      fold m in Hlists, Htasks.
      apply (linked_lists_mapped db _ _ H Hboards Hlists Htasks).
      intros r. destruct (List_.id r =? listId)%string; [|now split].
      destruct (withName_id name r) as [? [_ ?]]. now split.
    + destruct (updateList_reorder listId userId name new db l Hl E)
        as [_ [Hlists Htasks]].
      fold m in Hlists, Htasks.
      apply (linked_lists_mapped db _ _ H Hboards Hlists Htasks).
      intros r. apply listsAfterReorder_id.
  - destruct (updateList_rename listId userId
                (listService.mkUpdateListData name None) db l Hl)
      as [Hlists Htasks]; [now left|].
    fold m in Hlists, Htasks.
    apply (linked_lists_mapped db _ _ H Hboards Hlists Htasks).
    intros r. destruct (List_.id r =? listId)%string; [|now split].
    destruct (withName_id name r) as [? [_ ?]]. now split.
Qed.

(** X27: The foreign keys from tasks to lists and from lists to boards hold after
    every call of the service layer that does not delete a board or a list,
    if they held before: a new list is put on a board that exists, a new or
    moved task in a list that exists, and an update keeps identifiers and
    owners. *)
Theorem links_are_kept (req : Request) (db : Db) :
  cascades req = false -> linked db -> linked (after (perform req) db).
Proof.
  intros Hreq H. destruct req; try discriminate Hreq; unfold perform;
    rewrite ?after_discard.
  - (* createBoard *)
    destruct listIds as [[id0 id1] id2].
    unfold boardService.createBoard. run_async.
    apply (linked_step db _ H); simpl.
    + intros b Hin. exists b. split; [|reflexivity].
      unfold Prisma.create. apply in_or_app. now left.
    + intros l Hin. exists l. split; [|reflexivity].
      unfold Prisma.createMany. apply in_or_app. now left.
    + intros l' Hin. unfold Prisma.createMany in Hin.
      apply in_app_or in Hin. destruct Hin as [Hin|Hin];
        [left; now exists l'|].
      right. eexists. split.
      * unfold Prisma.create. apply in_or_app. right. left. reflexivity.
      * simpl in *. destruct Hin as [<-|[<-|[<-|[]]]]; reflexivity.
    + intros t Hin. left. now exists t.
  - (* updateBoard *)
    unfold boardService.updateBoard. run_async.
    destruct (find _ (boards db)) as [b|]; simpl; [|exact H].
    destruct (negb _); simpl; [exact H|].
    apply (linked_step db _ H); simpl.
    + intros b' Hin. unfold Prisma.update, Prisma.updateMany.
      set (F := fun r => if (Board.id r =? boardId)%string
                         then boardService.applyBoardUpdate data r else r).
      exists (F b'). split; [now apply in_map|]. unfold F.
      now destruct (Board.id b' =? boardId)%string.
    + intros l Hin. now exists l.
    + intros l Hin. left. now exists l.
    + intros t Hin. left. now exists t.
  - (* addMember *)
    apply (linked_same db); auto; unfold after; rewrite addMember_run;
      repeat (split_if; simpl); reflexivity.
  - (* removeMember *)
    apply (linked_same db); auto; unfold after; rewrite removeMember_run;
      repeat (split_if; simpl); reflexivity.
  - (* createList *)
    unfold listService.createList. run_async.
    destruct (find _ (boards db)) as [b|] eqn:Hb; simpl; [|exact H].
    destruct (find_some _ _ Hb) as [Hin Hid]. apply String.eqb_eq in Hid.
    apply (linked_step db _ H); simpl.
    + intros b' Hin'. now exists b'.
    + intros l Hin'. exists l. split; [|reflexivity].
      unfold Prisma.create. apply in_or_app. now left.
    + intros l' Hin'. unfold Prisma.create in Hin'.
      apply in_app_or in Hin'. destruct Hin' as [Hin'|[<-|[]]];
        [left; now exists l' | right; now exists b].
    + intros t Hin'. left. now exists t.
  - (* updateList *)
    now apply updateList_linked.
  - (* createTask *)
    unfold taskService.createTask. run_async.
    destruct (find _ (lists db)) as [l|] eqn:Hl; simpl; [|exact H].
    destruct (find_some _ _ Hl) as [Hin Hid]. apply String.eqb_eq in Hid.
    apply (linked_step db _ H); simpl.
    + intros b' Hin'. now exists b'.
    + intros l' Hin'. now exists l'.
    + intros l' Hin'. left. now exists l'.
    + intros t' Hin'. unfold Prisma.create in Hin'.
      apply in_app_or in Hin'. destruct Hin' as [Hin'|[<-|[]]];
        [left; now exists t' | right; now exists l].
  - (* updateTask *)
    destruct (updateTask_tasks taskId userId data db)
      as [[Ht|Ht] [_ [Hb [_ [Hl _]]]]]; [|now rewrite Ht].
    apply (linked_tasks_mapped db _ _ H Hb Hl Ht).
    intros t _. left. now destruct (Task.id t =? taskId)%string.
  - (* deleteTask *)
    unfold taskService.deleteTask, taskService.findTaskWithList. run_async.
    destruct (find _ (tasks db)) as [t|]; simpl; [|exact H].
    destruct (find _ (lists db)) as [l|]; simpl; [|exact H].
    apply (linked_step db _ H); simpl.
    + intros b' Hin'. now exists b'.
    + intros l' Hin'. now exists l'.
    + intros l' Hin'. left. now exists l'.
    + intros t' Hin'. unfold Prisma.delete in Hin'.
      apply filter_In in Hin'. left. exists t'. tauto.
  - (* moveTask *)
    now apply moveTask_linked.
  - (* assignUser *)
    apply (linked_same db); auto;
      unfold taskService.assignUser, taskService.findTaskWithList; run_async;
      repeat (split_if; simpl); reflexivity.
  - (* unassignUser *)
    apply (linked_same db); auto;
      unfold taskService.unassignUser, taskService.findTaskWithList;
      run_async; repeat (split_if; simpl); reflexivity.
Qed.

Lemma linkedb_ok (db : Db) : linkedb db = true -> linked db.
Proof.
  unfold linkedb, linked. rewrite andb_true_iff, !forallb_forall.
  intros [Ht Hl]. split.
  - intros t Hin. specialize (Ht t Hin). apply existsb_exists in Ht.
    destruct Ht as [l [Hl' E]]. apply String.eqb_eq in E. now exists l.
  - intros l Hin. specialize (Hl l Hin). apply existsb_exists in Hl.
    destruct Hl as [b [Hb E]]. apply String.eqb_eq in E. now exists b.
Qed.

Lemma links_are_kept_witness :
  let req := ReqMoveTask "t0" "ed" (taskService.mkMoveTaskData "l1" 0) in
  outcome (perform req) sampleDb = Ok tt
  /\ linked (after (perform req) sampleDb).
Proof.
  intros req. split; [reflexivity|].
  apply (links_are_kept req sampleDb); [reflexivity|].
  apply linkedb_ok. reflexivity.
Defined.



(* ------------------------------------------------------------------------- *)
(** ** Further properties: searching users *)

Lemma contains_empty (hay : string) : Js.contains "" hay = true.
Proof. destruct hay; reflexivity. Qed.

(** X29: [searchUsers], for a query of ASCII text that holds none of the
    characters [%], [_] and backslash, over profiles with ASCII names and
    addresses: the answer holds as many users as there are active profiles
    of other users that contain the query (surrounding white space and
    letter case ignored) in e-mail address, first name or last name, but not
    more than the limit (10 when none is given); each user returned is such
    a profile, and when no more than [limit] profiles match, every one of
    them is returned.  A query that is empty or all white space matches
    every active profile but the caller's. *)
Theorem searchUsers_complete (query requesterId : string)
  (limit : option nat) (db : Db) :
  Js.isAscii query = true ->
  wildcardFree query = true ->
  (forall p, In p (profiles db) -> asciiUser (userService.select p) = true) ->
  let matching := filter (matchesProfile query requesterId) (profiles db) in
  exists users,
    outcome (userService.searchUsers query requesterId limit) db = Ok users
    /\ List.length users
       = Nat.min (Js.nullish limit 10%nat) (List.length matching)
    /\ (forall u, In u users ->
          exists p, In p (profiles db) /\ userService.select p = u
                    /\ Profile.id p <> requesterId
                    /\ Profile.is_active p = true
                    /\ (matchesQuery query (Profile.email p)
                        \/ matchesQuery query (Profile.first_name p)
                        \/ matchesQuery query (Profile.last_name p)))
    /\ ((List.length matching <= Js.nullish limit 10%nat)%nat ->
        forall p, In p (profiles db) ->
          Profile.id p <> requesterId -> Profile.is_active p = true ->
          matchesQuery query (Profile.email p)
          \/ matchesQuery query (Profile.first_name p)
          \/ matchesQuery query (Profile.last_name p) ->
          In (userService.select p) users)
    /\ (Js.trim query = "" ->
        forall p, matchesProfile query requesterId p
                  = negb (Profile.id p =? requesterId)%string
                    && Profile.is_active p).
Proof.
  intros _ Hplain _ matching.
  assert (wildcardFree (Js.toLowerCase (Js.trim query)) = true) as Hq
    by (rewrite wildcardFree_lower; now apply wildcardFree_trim).
  assert (forall p, userService.searchWhere
                      (Js.toLowerCase (Js.trim query)) requesterId p
                    = matchesProfile query requesterId p) as Hwhere.
  { intros p. unfold userService.searchWhere, matchesProfile,
      userService.containsInsensitive.
    now rewrite toLowerCase_idem, !(like_is_contains _ _ Hq). }
  assert (forall p, matchesProfile query requesterId p = true
                    <-> Profile.id p <> requesterId
                        /\ Profile.is_active p = true
                        /\ (matchesQuery query (Profile.email p)
                            \/ matchesQuery query (Profile.first_name p)
                            \/ matchesQuery query (Profile.last_name p)))
    as Hspec.
  { intros p. unfold matchesProfile, matchesQuery. cbv zeta.
    rewrite !andb_true_iff, !orb_true_iff, negb_true_iff, String.eqb_neq,
      !contains_occursIn. tauto. }
  unfold userService.searchUsers. run_async.
  rewrite (filter_ext _ _ Hwhere). fold matching.
  set (sorted := Prisma.orderByAsc _ matching).
  assert (Permutation matching sorted) as Hperm
    by apply orderByAsc_Permutation.
  eexists. split; [reflexivity|]. split; [|split; [|split]].
  - rewrite length_map, length_firstn.
    now rewrite (Permutation_length Hperm).
  - intros u Hu. apply in_map_iff in Hu. destruct Hu as [p [<- Hp]].
    apply firstn_incl in Hp.
    apply (Permutation_in _ (Permutation_sym Hperm)) in Hp.
    apply filter_In in Hp. destruct Hp as [Hin Hp]. apply Hspec in Hp.
    exists p. split; [exact Hin|]. split; [reflexivity | exact Hp].
  - intros Hlen p Hin Hid Hact Hmatch. apply in_map.
    rewrite firstn_all2 by (rewrite <- (Permutation_length Hperm); exact Hlen).
    apply (Permutation_in _ Hperm). apply filter_In.
    split; [exact Hin|]. apply Hspec. tauto.
  - intros Hblank p. unfold matchesProfile. rewrite Hblank. simpl.
    rewrite contains_empty. simpl. now rewrite andb_true_r.
Qed.

Lemma searchUsers_complete_witness :
  exists users,
    outcome (userService.searchUsers " o " "ed" (Some 5%nat)) sampleDb
    = Ok users
    /\ List.length users = 2%nat.
Proof.
  destruct (searchUsers_complete " o " "ed" (Some 5%nat) sampleDb)
    as [users [H1 [H2 _]]]; try reflexivity.
  - intros p [<-|[<-|[<-|[]]]]; reflexivity.
  - exists users. split; [exact H1 | exact H2].
Defined.
